(** * APS M2000 power analyzer clients: a shallow embedding

    The development follows the Python sources

    - [m2000_units.py]  (unit scaling formatter),
    - [m2000_lan.py], [m2000_rs232.py], [m2000_usb.py]  (the three
      transport clients: connect / disconnect / send_command /
      read_response / query / check_errors / get_measurement /
      stream_data),
    - [m2000_web_ui.py]  (the [stream_worker] sampling loop).

    Conventions of the embedding.

    - Python [str] is [string], holding the UTF-8 bytes of the text, so
      ASCII text is its own bytes.  [encode('ascii')] fails on a byte
      above 127 and [decode('utf-8')] is the strict decoder.  The other
      string operations ([lower], [split], [float], [int], ...) are
      written for ASCII text, which is all the LAN and USB clients can
      receive ([decode('ascii')], bytes 32..126).
    - Python [float] is the primitive binary64 [float] of the kernel, so
      comparisons, products and quotients are the IEEE ones the interpreter
      performs.  [float(s)] and the [format] mini-language ([.3f], [.6g])
      are written out on exact integers.
    - A Python [dict] is an association list in insertion order whose
      update keeps the position of a key that is already present.
    - Stateful methods are functions in a state-and-exception monad over a
      record holding the object's fields and the transport's observable
      state.  The environment (what the transport delivers, which writes
      fail, what the clock reads) is scripted in that record.
    - [time.sleep] raises what the interpreter raises for the argument
      it is given; the sleep itself only leaves a record.
    - Not modelled: [print] output, the CSV logging inside [stream_data]
      ([log_file] is [None]), keyboard interruption, and the broadcast of
      the web interface. *)

From Stdlib Require Import ZArith List String Ascii Bool Lia Floats DecimalString.
Import ListNotations.

Set Warnings "-inexact-float".

Local Open Scope list_scope.
Local Open Scope string_scope.
Local Open Scope Z_scope.

(* ================================================================== *)
(** * Python strings *)

Module PyStr.

(** [str.isspace] on an ASCII character: TAB..CR, FS..US and the space. *)
Definition is_space (c : ascii) : bool :=
  let n := nat_of_ascii c in
  ((9 <=? n)%nat && (n <=? 13)%nat) || ((28 <=? n)%nat && (n <=? 32)%nat).

(** The white space [int(s)] and [float(s)] skip at both ends of an ASCII
    string: TAB..CR and the space. *)
Definition is_numeric_space (c : ascii) : bool :=
  let n := nat_of_ascii c in
  ((9 <=? n)%nat && (n <=? 13)%nat) || (n =? 32)%nat.

Definition is_digit (c : ascii) : bool :=
  let n := nat_of_ascii c in (48 <=? n)%nat && (n <=? 57)%nat.

Definition digit_val (c : ascii) : Z := Z.of_nat (nat_of_ascii c) - 48.

(** [str.lower] on ASCII letters. *)
Definition lower_char (c : ascii) : ascii :=
  let n := nat_of_ascii c in
  if (65 <=? n)%nat && (n <=? 90)%nat then ascii_of_nat (n + 32) else c.

Fixpoint lower (s : string) : string :=
  match s with
  | EmptyString => EmptyString
  | String c s' => String (lower_char c) (lower s')
  end.

Fixpoint lstrip_chars {A : Type} (space : A -> bool) (l : list A) : list A :=
  match l with
  | c :: l' => if space c then lstrip_chars space l' else l
  | [] => []
  end.

Definition strip_chars {A : Type} (space : A -> bool) (l : list A) : list A :=
  rev (lstrip_chars space (rev (lstrip_chars space l))).

(** [s.strip()] on ASCII text. *)
Definition strip (s : string) : string :=
  string_of_list_ascii (strip_chars is_space (list_ascii_of_string s)).

(** [s.split(sep)] for a one-character separator: never the empty list. *)
Fixpoint split (sep : ascii) (s : string) : list string :=
  match s with
  | EmptyString => [EmptyString]
  | String c s' =>
      if Ascii.eqb c sep then EmptyString :: split sep s'
      else match split sep s' with
           | w :: ws => String c w :: ws
           | [] => [String c EmptyString]
           end
  end.

(** [sep.join(parts)] *)
Fixpoint join (sep : string) (parts : list string) : string :=
  match parts with
  | [] => EmptyString
  | [p] => p
  | p :: ps => p ++ sep ++ join sep ps
  end.

(** [sub in s] *)
Fixpoint contains (sub s : string) : bool :=
  if String.prefix sub s then true
  else match s with
       | EmptyString => false
       | String _ s' => contains sub s'
       end.

(** [s.replace(";", "\r\n")] *)
Fixpoint replace_semicolon (s : string) : string :=
  match s with
  | EmptyString => EmptyString
  | String c s' =>
      if Ascii.eqb c ";"%char
      then String (ascii_of_nat 13) (String (ascii_of_nat 10) (replace_semicolon s'))
      else String c (replace_semicolon s')
  end.

(** [s[:-2]] on ASCII text. *)
Definition drop_last2 (s : string) : string :=
  String.substring 0 (String.length s - 2) s.

(** [s.endswith("\r\n")] *)
Definition ends_with_crlf (s : string) : bool :=
  match rev (list_ascii_of_string s) with
  | a :: b :: _ => Ascii.eqb a (ascii_of_nat 10) && Ascii.eqb b (ascii_of_nat 13)
  | _ => false
  end.

(** Truthiness of a string: [if s:] *)
Definition truthy (s : string) : bool :=
  match s with EmptyString => false | _ => true end.

End PyStr.

(* ================================================================== *)
(** * Bytes and text

    A Python [str] is kept as the bytes of its UTF-8 encoding, so ASCII
    text is its own bytes.  [str.encode('ascii')] and
    [bytes.decode('utf-8')] are where the clients go from one to the
    other; a non-ASCII [str] reaches the rest of the code only as a
    caller's argument or out of the decoding below. *)

(** Every character of [s] is a 7-bit one: [s.encode('ascii')] succeeds. *)
Fixpoint is_ascii_text (s : string) : bool :=
  match s with
  | EmptyString => true
  | String c s' => (nat_of_ascii c <? 128)%nat && is_ascii_text s'
  end.

Module PyBytes.

Definition code (b : ascii) : N := N_of_ascii b.

Definition between (lo hi : N) (b : ascii) : bool :=
  ((lo <=? code b) && (code b <=? hi))%N.

(** A continuation byte, 0x80..0xBF. *)
Definition continuation (b : ascii) : bool := between 128 191 b.

(** The first two bytes of a well-formed three-byte sequence: no
    overlong form, no surrogate. *)
Definition lead3 (b1 b2 : ascii) : bool :=
  (between 224 224 b1 && between 160 191 b2)
  || (between 225 236 b1 && continuation b2)
  || (between 237 237 b1 && between 128 159 b2)
  || (between 238 239 b1 && continuation b2).

(** The first two bytes of a well-formed four-byte sequence: no overlong
    form, nothing above U+10FFFF. *)
Definition lead4 (b1 b2 : ascii) : bool :=
  (between 240 240 b1 && between 144 191 b2)
  || (between 241 243 b1 && continuation b2)
  || (between 244 244 b1 && between 128 143 b2).

Definition chr (bytes : list ascii) : string := string_of_list_ascii bytes.

(** The characters of a byte sequence read as UTF-8, each one as the
    bytes that encode it; [None] where the strict decoder raises
    [UnicodeDecodeError]. *)
Fixpoint utf8_chars (bytes : list ascii) : option (list string) :=
  match bytes with
  | [] => Some []
  | b1 :: r1 =>
      if between 0 127 b1 then option_map (cons (chr [b1])) (utf8_chars r1)
      else
        match r1 with
        | [] => None
        | b2 :: r2 =>
            if between 194 223 b1 then
              if continuation b2
              then option_map (cons (chr [b1; b2])) (utf8_chars r2)
              else None
            else
              match r2 with
              | [] => None
              | b3 :: r3 =>
                  if lead3 b1 b2 then
                    if continuation b3
                    then option_map (cons (chr [b1; b2; b3])) (utf8_chars r3)
                    else None
                  else
                    match r3 with
                    | [] => None
                    | b4 :: r4 =>
                        if lead4 b1 b2 && continuation b3 && continuation b4
                        then option_map (cons (chr [b1; b2; b3; b4])) (utf8_chars r4)
                        else None
                    end
              end
        end
  end.

(** [data.decode('utf-8')], as the list of the characters. *)
Definition decode_utf8 (data : string) : option (list string) :=
  utf8_chars (list_ascii_of_string data).

(** The [str] made of the characters [text]. *)
Definition str_of (text : list string) : string :=
  fold_right String.append EmptyString text.

(** [text[:-2]]: the last two characters go, however many bytes each. *)
Definition drop_last2 (text : list string) : list string :=
  firstn (List.length text - 2) text.

(** [text.replace(";", "\r\n")] *)
Definition replace_semicolon (text : list string) : list string :=
  flat_map (fun ch => if String.eqb ch ";"
                      then [chr [ascii_of_nat 13]; chr [ascii_of_nat 10]]
                      else [ch])
           text.

(** [str.isspace] on one character: the ASCII white space of
    [PyStr.is_space], and U+0085, U+00A0, U+1680, U+2000..U+200A,
    U+2028, U+2029, U+202F, U+205F and U+3000. *)
Definition is_space (ch : string) : bool :=
  match map code (list_ascii_of_string ch) with
  | [b] => ((9 <=? b) && (b <=? 13) || (28 <=? b) && (b <=? 32))%N
  | [194%N; b] => ((b =? 133) || (b =? 160))%N
  | [225%N; 154%N; 128%N] => true
  | [226%N; 128%N; b] =>
      ((128 <=? b) && (b <=? 138) || (b =? 168) || (b =? 169) || (b =? 175))%N
  | [226%N; 129%N; 159%N] => true
  | [227%N; 128%N; 128%N] => true
  | _ => false
  end.

(** [text.strip()] *)
Definition strip (text : list string) : list string :=
  PyStr.strip_chars is_space text.

End PyBytes.

(* ================================================================== *)
(** * Python numbers: [int(s)], [float(s)] and [format] *)

Module PyNum.
Import PyStr.

(** [digitpart ::= digit (["_"] digit)*], after its first digit: the value
    so far, the number of digits read, and the unread input. *)
Fixpoint digits_rest (acc : Z) (n : Z) (l : list ascii) : Z * Z * list ascii :=
  match l with
  | c :: l' =>
      if is_digit c then digits_rest (10 * acc + digit_val c) (n + 1) l'
      else if Ascii.eqb c "_"%char then
        match l' with
        | d :: l'' =>
            if is_digit d then digits_rest (10 * acc + digit_val d) (n + 1) l''
            else (acc, n, l)
        | [] => (acc, n, l)
        end
      else (acc, n, l)
  | [] => (acc, n, l)
  end.

Definition digitpart (l : list ascii) : option (Z * Z * list ascii) :=
  match l with
  | c :: l' => if is_digit c then Some (digits_rest (digit_val c) 1 l') else None
  | [] => None
  end.

(** An optional sign: [true] for a minus. *)
Definition sign (l : list ascii) : bool * list ascii :=
  match l with
  | c :: l' =>
      if Ascii.eqb c "-"%char then (true, l')
      else if Ascii.eqb c "+"%char then (false, l')
      else (false, l)
  | [] => (false, l)
  end.

(** [int(s)] for a [str] in base 10; [None] stands for [ValueError].
    (The interpreter's limit on the number of digits is not modelled.) *)
Definition py_int (s : string) : option Z :=
  let '(neg, l) := sign (strip_chars is_numeric_space (list_ascii_of_string s)) in
  match digitpart l with
  | Some (v, _, []) => Some (if neg then - v else v)
  | _ => None
  end.

(** The binary64 nearest to [m * 10^e10] (ties to even), [m >= 0], with
    the sign [neg]. *)
Definition decimal_to_SF (neg : bool) (m e10 : Z) : spec_float :=
  if m =? 0 then S754_zero neg
  else if 0 <=? e10 then
    binary_normalize prec emax ((if neg then - m else m) * 10 ^ e10) 0 neg
  else
    let d := 10 ^ (- e10) in
    let s := Z.max 0 (55 + Z.log2 d - Z.log2 m) in
    let n := m * 2 ^ s in
    let q := n / d in
    let r := n mod d in
    let loc := if r =? 0 then loc_Exact else loc_Inexact (2 * r ?= d) in
    binary_round_aux prec emax neg q (- s) loc.

(** [exponent ::= ("e" | "E") [sign] digitpart]; the input must end there. *)
Definition exponent (l : list ascii) : option Z :=
  match l with
  | [] => Some 0
  | c :: l' =>
      if Ascii.eqb (lower_char c) "e"%char then
        let '(neg, l'') := sign l' in
        match digitpart l'' with
        | Some (v, _, []) => Some (if neg then - v else v)
        | _ => None
        end
      else None
  end.

(** [floatnumber ::= ([digitpart] "." digitpart | digitpart ["."]) [exponent]]
    as a mantissa and a decimal exponent. *)
Definition floatnumber (l : list ascii) : option (Z * Z) :=
  match digitpart l with
  | Some (ip, _, rest) =>
      match rest with
      | c :: rest' =>
          if Ascii.eqb c "."%char then
            match digitpart rest' with
            | Some (fp, nf, rest'') =>
                match exponent rest'' with
                | Some e => Some (ip * 10 ^ nf + fp, e - nf)
                | None => None
                end
            | None =>
                match exponent rest' with
                | Some e => Some (ip, e)
                | None => None
                end
            end
          else match exponent rest with
               | Some e => Some (ip, e)
               | None => None
               end
      | [] => Some (ip, 0)
      end
  | None =>
      match l with
      | c :: rest =>
          if Ascii.eqb c "."%char then
            match digitpart rest with
            | Some (fp, nf, rest') =>
                match exponent rest' with
                | Some e => Some (fp, e - nf)
                | None => None
                end
            | None => None
            end
          else None
      | [] => None
      end
  end.

(** [float(s)] for a [str]; [None] stands for [ValueError]. *)
Definition py_float (s : string) : option float :=
  let '(neg, l) := sign (strip_chars is_numeric_space (list_ascii_of_string s)) in
  let word := string_of_list_ascii (map lower_char l) in
  if String.eqb word "inf" || String.eqb word "infinity"
  then Some (if neg then neg_infinity else infinity)
  else if String.eqb word "nan" then Some nan
  else match floatnumber l with
       | Some (m, e10) => Some (SF2Prim (decimal_to_SF neg m e10))
       | None => None
       end.

(** Decimal digits of a natural number. *)
Definition digits_of (n : Z) : string :=
  NilZero.string_of_uint (N.to_uint (Z.to_N n)).

Fixpoint zeros (k : nat) : string :=
  match k with O => EmptyString | S k' => String "0"%char (zeros k') end.

(** Left-pad with zeros to at least [k] characters. *)
Definition zero_pad (k : nat) (s : string) : string :=
  zeros (k - String.length s) ++ s.

(** [num / den] rounded to the nearest integer, ties to even. *)
Definition round_half_even (num den : Z) : Z :=
  let q := num / den in
  let r := num mod den in
  match 2 * r ?= den with
  | Lt => q
  | Gt => q + 1
  | Eq => if Z.even q then q else q + 1
  end.

(** The exact value of a finite positive float as a fraction. *)
Definition fraction_of (m : positive) (e : Z) : Z * Z :=
  if 0 <=? e then (Zpos m * 2 ^ e, 1) else (Zpos m, 2 ^ (- e)).

(** The digits of an integer with a point before its last [p] digits. *)
Definition place_point (p : nat) (r : Z) : string :=
  let ds := zero_pad (S p) (digits_of r) in
  let k := (String.length ds - p)%nat in
  match p with
  | O => ds
  | _ => String.substring 0 k ds ++ "." ++ String.substring k p ds
  end.

Definition with_sign (s : bool) (body : string) : string :=
  if s then "-" ++ body else body.

(** [format(x, '.<p>f')] *)
Definition format_f (p : nat) (x : float) : string :=
  match Prim2SF x with
  | S754_nan => "nan"
  | S754_infinity s => with_sign s "inf"
  | S754_zero s => with_sign s (place_point p 0)
  | S754_finite s m e =>
      let '(num, den) := fraction_of m e in
      with_sign s (place_point p (round_half_even (num * 10 ^ Z.of_nat p) den))
  end.

(** Drop trailing zeros of a fraction part, and the point with them when
    nothing is left. *)
Fixpoint rstrip_zeros_rev (l : list ascii) : list ascii :=
  match l with
  | c :: l' => if Ascii.eqb c "0"%char then rstrip_zeros_rev l' else l
  | [] => []
  end.

Definition strip_fraction (int_part frac : string) : string :=
  match rev (rstrip_zeros_rev (rev (list_ascii_of_string frac))) with
  | [] => int_part
  | l => int_part ++ "." ++ string_of_list_ascii l
  end.

(** [floor(log10 n)] for an integer [n >= 1]: one less than its number of
    decimal digits. *)
Definition ilog10 (n : Z) : Z :=
  Z.of_nat (String.length (digits_of n)) - 1.

(** [floor(log10(num/den))] for a positive fraction. *)
Definition floor_log10 (num den : Z) : Z :=
  if den <=? num then ilog10 (num / den)
  else
    let l := ilog10 (den / num) in
    if den <=? num * 10 ^ l then - l else - (l + 1).

(** [num/den * 10^k] as a fraction, for any integer [k]. *)
Definition scale10 (num den k : Z) : Z * Z :=
  if 0 <=? k then (num * 10 ^ k, den) else (num, den * 10 ^ (- k)).

(** [format(x, '.6g')]: six significant digits, fixed notation when the
    decimal exponent lies in [-4, 6), scientific otherwise, trailing zeros
    removed. *)
Definition format_g6 (x : float) : string :=
  match Prim2SF x with
  | S754_nan => "nan"
  | S754_infinity s => with_sign s "inf"
  | S754_zero s => with_sign s "0"
  | S754_finite s m e =>
      let '(num, den) := fraction_of m e in
      let x0 := floor_log10 num den in
      let '(n0, d0) := scale10 num den (5 - x0) in
      let r0 := round_half_even n0 d0 in
      let '(r, xp) := if 1000000 <=? r0 then (100000, x0 + 1) else (r0, x0) in
      let ds := digits_of r in
      with_sign s
        (if (-4 <=? xp) && (xp <? 6) then
           if 0 <=? xp then
             let k := Z.to_nat (xp + 1) in
             strip_fraction (String.substring 0 k ds)
                            (String.substring k (6 - k) ds)
           else strip_fraction "0" (zeros (Z.to_nat (- xp - 1)) ++ ds)
         else
           strip_fraction (String.substring 0 1 ds) (String.substring 1 5 ds)
           ++ "e" ++ (if xp <? 0 then "-" else "+")
           ++ zero_pad 2 (digits_of (Z.abs xp)))
  end.

End PyNum.

(* ================================================================== *)
(** * Python values that reach the formatter and the decoded samples *)

Inductive pyval :=
| PNone
| PFloat (x : float)
| PStr (s : string).

(* ================================================================== *)
(** * [m2000_units.py] *)

Module Units.
Import PyStr PyNum.

(** [get_base_unit]: [unit_map.get(parameter, '')]. *)
Definition get_base_unit (parameter : string) : string :=
  if String.eqb parameter "V" then "V"
  else if String.eqb parameter "A" then "A"
  else if String.eqb parameter "W" then "W"
  else if String.eqb parameter "VA" then "VA"
  else if String.eqb parameter "VAR" then "VAR"
  else if String.eqb parameter "PF" then ""
  else if String.eqb parameter "FREQ" then "Hz"
  else if String.eqb parameter "PHASE" then "°"
  else if String.eqb parameter "THDF" then "%"
  else if String.eqb parameter "THDSIG" then "%"
  else if String.eqb parameter "CF" then ""
  else if String.eqb parameter "FF" then ""
  else "".

(** [f"{x:.<p>f} <unit>" if include_units else f"{x:.<p>f}"] *)
Definition shown (include_units : bool) (p : nat) (x : float) (unit : string)
  : string :=
  if include_units then format_f p x ++ " " ++ unit else format_f p x.

(** The five-decade ladder shared by the V and A branches (no mega
    prefix there). *)
Definition scale_kilo_to_nano (include_units : bool) (val : float)
           (base : string) : string :=
  let abs_val := PrimFloat.abs val in
  if (1000 <=? abs_val)%float then shown include_units 3 (val / 1000)%float ("k" ++ base)
  else if (1 <=? abs_val)%float then shown include_units 3 val base
  else if (0.001 <=? abs_val)%float then shown include_units 1 (val * 1000)%float ("m" ++ base)
  else if (0.000001 <=? abs_val)%float then shown include_units 0 (val * 1000000)%float ("μ" ++ base)
  else shown include_units 0 (val * 1000000000)%float ("n" ++ base).

(** The six-decade ladder of the W and VA/VAR branches. *)
Definition scale_mega_to_nano (include_units : bool) (val : float)
           (base : string) : string :=
  let abs_val := PrimFloat.abs val in
  if (1000000 <=? abs_val)%float then shown include_units 3 (val / 1000000)%float ("M" ++ base)
  else scale_kilo_to_nano include_units val base.

(** [format_measurement(value, parameter, include_units=True)] *)
Definition format_measurement (value : pyval) (parameter : string)
           (include_units : bool) : string :=
  let is_zero :=
    match value with
    | PNone => true
    | PFloat x => (x =? 0)%float
    | PStr _ => false
    end in
  if is_zero then
    if include_units then "0.000 " ++ get_base_unit parameter else "0.000"
  else
    let converted :=
      match value with
      | PFloat x => Some x
      | PStr s => py_float s
      | PNone => None
      end in
    match converted with
    | None => match value with PStr s => s | _ => "None" end
    | Some val =>
        if String.eqb parameter "PF" then format_f 4 val
        else if String.eqb parameter "PHASE" then
          if include_units then format_f 2 val ++ "°" else format_f 2 val
        else
          let base_unit := get_base_unit parameter in
          let abs_val := PrimFloat.abs val in
          if String.eqb parameter "V" then scale_kilo_to_nano include_units val "V"
          else if String.eqb parameter "A" then scale_kilo_to_nano include_units val "A"
          else if String.eqb parameter "W" then scale_mega_to_nano include_units val "W"
          else if String.eqb parameter "VA" || String.eqb parameter "VAR" then
            scale_mega_to_nano include_units val base_unit
          else if String.eqb parameter "FREQ" then
            if (1000000 <=? abs_val)%float then shown include_units 3 (val / 1000000)%float "MHz"
            else if (1000 <=? abs_val)%float then shown include_units 3 (val / 1000)%float "kHz"
            else shown include_units 3 val "Hz"
          else
            if include_units && truthy base_unit
            then format_g6 val ++ " " ++ base_unit
            else format_g6 val
    end.

End Units.

(* ================================================================== *)
(** * The measurement codec shared by the three clients

    [get_measurement] is the same text in [M2000_LAN], [M2000_RS232] and
    [M2000_USB]: build the READ fields over [for param in parameters: for
    channel in channels:], send them as one query, and walk the same two
    loops over the comma-separated reply. *)

Module Codec.
Import PyStr PyNum.

(** [for param in parameters: for channel in channels: body] *)
Definition for_params_channels {S : Type} (parameters channels : list string)
           (body : string -> string -> S -> S) (init : S) : S :=
  fold_left
    (fun st param => fold_left (fun st channel => body param channel st) channels st)
    parameters init.

(** [f"{channel}_{param}"] *)
Definition key (channel param : string) : string := channel ++ "_" ++ param.

(** The short code translated to the instrument's keyword. *)
Definition m2000_param (param : string) : string :=
  if String.eqb param "V" then "VOLTS"
  else if String.eqb param "A" then "AMPS"
  else if String.eqb param "W" then "WATTS"
  else param.

(** [f"READ?,{channel.lower()}:{m2000_param}:ACDC"] *)
Definition read_field (param channel : string) : string :=
  "READ?," ++ lower channel ++ ":" ++ m2000_param param ++ ":ACDC".

Definition read_fields (channels parameters : list string) : list string :=
  for_params_channels parameters channels
    (fun param channel fields => (fields ++ [read_field param channel])%list) [].

(** [";".join(read_fields)] *)
Definition build_command (channels parameters : list string) : string :=
  join ";" (read_fields channels parameters).

(** A [dict] with [str] keys, in insertion order. *)
Definition dict := list (string * pyval).

(** [d[k] = v] *)
Fixpoint dict_set (k : string) (v : pyval) (d : dict) : dict :=
  match d with
  | [] => [(k, v)]
  | (k', v') :: d' =>
      if String.eqb k' k then (k, v) :: d' else (k', v') :: dict_set k v d'
  end.

(** [d.get(k)] *)
Fixpoint dict_get (k : string) (d : dict) : option pyval :=
  match d with
  | [] => None
  | (k', v') :: d' => if String.eqb k' k then Some v' else dict_get k d'
  end.

(** [list(d.keys())] *)
Definition keys (d : dict) : list string := map fst d.

(** [try: float(s) except ValueError: s] *)
Definition coerce (s : string) : pyval :=
  match py_float s with
  | Some x => PFloat x
  | None => PStr s
  end.

(** The body of the two decoding loops, on the pair [(idx, results)]. *)
Definition decode_body (values : list string) (param channel : string)
           (st : nat * dict) : nat * dict :=
  let '(idx, results) := st in
  if (idx <? List.length values)%nat
  then (S idx, dict_set (key channel param) (coerce (nth idx values "")) results)
  else st.

Definition decode_fields (values : list string) (channels parameters : list string)
  : dict :=
  snd (for_params_channels parameters channels (decode_body values) (0%nat, [])).

(** What [get_measurement] returns once [self.query(command)] has
    returned [response] ([None] is Python's [None]). *)
Definition decode_response (response : option string)
           (channels parameters : list string) : option dict :=
  match response with
  | Some r =>
      if truthy r then Some (decode_fields (split "," r) channels parameters)
      else None
  | None => None
  end.

(** ** The request as a flat sequence

    The combinations of a request in the order the loops visit them, and
    the keys they stand for; the loops above are compared with these. *)

Definition pairs (parameters channels : list string) : list (string * string) :=
  flat_map (fun param => map (fun channel => (param, channel)) channels) parameters.

Definition request_keys (parameters channels : list string) : list string :=
  map (fun pc => key (snd pc) (fst pc)) (pairs parameters channels).

(** Successive assignments [d[k] = v], oldest first. *)
Definition inserts (kvs : list (string * pyval)) (d : dict) : dict :=
  fold_left (fun acc kv => dict_set (fst kv) (snd kv) acc) kvs d.

End Codec.

(* ================================================================== *)
(** * Exceptions, outcomes and the state-and-exception monad *)

(** The exceptions the clients raise or catch.  All of them are instances
    of Python's [Exception]; asynchronous interruption is not modelled, so
    [except Exception] and a bare [except:] catch the same things here. *)
Inductive exn :=
| Exception (msg : string)
| SocketTimeout
| SocketGaierror
| ConnectionRefusedError
| OSError
| SerialException
| AttributeError
| ValueError
| ZeroDivisionError
| OverflowError
| UnicodeEncodeError
| UnicodeDecodeError.

(** The result of running a method: a returned value, a propagating
    exception, or a loop that was cut by the recursion bound. *)
Inductive outcome (A : Type) :=
| Return (a : A)
| Raise (e : exn)
| OutOfFuel.

Arguments Return {A} a.
Arguments Raise {A} e.
Arguments OutOfFuel {A}.

Definition M (S A : Type) : Type := S -> outcome A * S.

Definition ret {S A : Type} (a : A) : M S A := fun s => (Return a, s).

Definition raise {S A : Type} (e : exn) : M S A := fun s => (Raise e, s).

Definition out_of_fuel {S A : Type} : M S A := fun s => (OutOfFuel, s).

Definition bind {S A B : Type} (m : M S A) (k : A -> M S B) : M S B :=
  fun s =>
    match m s with
    | (Return a, s') => k a s'
    | (Raise e, s') => (Raise e, s')
    | (OutOfFuel, s') => (OutOfFuel, s')
    end.

(** [try: body  except <anything> as e: handler e] *)
Definition try_except {S A : Type} (body : M S A) (handler : exn -> M S A) : M S A :=
  fun s =>
    match body s with
    | (Raise e, s') => handler e s'
    | r => r
    end.

(** [try: body  finally: cleanup] *)
Definition try_finally {S A : Type} (body : M S A) (cleanup : M S unit) : M S A :=
  fun s =>
    match body s with
    | (r, s') =>
        match cleanup s' with
        | (Return _, s'') => (r, s'')
        | (Raise e, s'') => (Raise e, s'')
        | (OutOfFuel, s'') => (OutOfFuel, s'')
        end
    end.

Definition gets {S A : Type} (f : S -> A) : M S A := fun s => (Return (f s), s).

Definition modify {S : Type} (f : S -> S) : M S unit := fun s => (Return tt, f s).

Declare Scope py_scope.
Delimit Scope py_scope with py.
Notation "x <- m ;; k" := (bind m (fun x => k))
  (at level 61, m at next level, right associativity) : py_scope.
Notation "m ;;; k" := (bind m (fun _ => k))
  (at level 61, right associativity) : py_scope.
Local Open Scope py_scope.

(* ================================================================== *)
(** * A client object together with the transport it talks to *)

(** What one write to the transport does: succeed, raise, or (HID only)
    report a negative byte count. *)
Inductive tx :=
| TxOk
| TxRaise (e : exn)
| TxNegative.

(** The first three fields are the object's attributes; the next three are
    what the program has done to the outside world; the rest is what the
    outside world is going to do.  [R] is the type of one read result of
    the transport at hand. *)
Record client (R : Type) := mk_client {
  handle : bool;             (* self.socket / self.connection / self.device is not None *)
  connected : bool;          (* self.connected *)
  timeout : float;           (* self.timeout *)
  port_open : bool;          (* the socket, serial port or HID handle is open *)
  written : list string;     (* buffers handed to the transport, oldest first *)
  slept : list float;        (* arguments of time.sleep, oldest first *)
  open_script : option exn;  (* the exception opening the transport raises, if any *)
  devices : nat;             (* len(hid.enumerate(vid, pid)) *)
  write_script : list tx;    (* outcome of the successive writes and flushes; then success *)
  incoming : list R;         (* results of the successive reads; then silence *)
  now : float;               (* the last value time.time() returned *)
  ticks : list float         (* the values time.time() is going to return *)
}.

Arguments mk_client {R}.
Arguments handle {R}.
Arguments connected {R}.
Arguments timeout {R}.
Arguments port_open {R}.
Arguments written {R}.
Arguments slept {R}.
Arguments open_script {R}.
Arguments devices {R}.
Arguments write_script {R}.
Arguments incoming {R}.
Arguments now {R}.
Arguments ticks {R}.

(** What [time.sleep(seconds)] raises for a float argument before it
    sleeps, as CPython 3.11 does it: the argument is turned into a number
    of nanoseconds held in a signed 64-bit integer.  NaN is refused with
    [ValueError]; a number of nanoseconds outside [-2^63, 2^63] with
    [OverflowError]; a negative one with [ValueError], and so is 2^63
    itself, which wraps to the most negative integer.  What the
    operating system does with a request the interpreter accepted is not
    part of the model. *)
Definition sleep_error (seconds : float) : option exn :=
  if negb (seconds =? seconds)%float then Some ValueError
  else
    let ns := (seconds * 1000000000)%float in
    if negb ((-9223372036854775808 <=? ns) && (ns <=? 9223372036854775808))%float
    then Some OverflowError
    else if ((ns <? 0) || (ns =? 9223372036854775808))%float then Some ValueError
    else None.

(** [s.encode('ascii')] *)
Definition encode_ascii {S : Type} (s : string) : M S string :=
  if is_ascii_text s then ret s else raise UnicodeEncodeError.

Section Transport.
Context {R : Type}.

Definition set_handle (b : bool) (c : client R) : client R :=
  mk_client b (connected c) (timeout c) (port_open c) (written c) (slept c)
            (open_script c) (devices c) (write_script c) (incoming c) (now c) (ticks c).

Definition set_connected (b : bool) (c : client R) : client R :=
  mk_client (handle c) b (timeout c) (port_open c) (written c) (slept c)
            (open_script c) (devices c) (write_script c) (incoming c) (now c) (ticks c).

Definition set_port_open (b : bool) (c : client R) : client R :=
  mk_client (handle c) (connected c) (timeout c) b (written c) (slept c)
            (open_script c) (devices c) (write_script c) (incoming c) (now c) (ticks c).

Definition set_written (w : list string) (c : client R) : client R :=
  mk_client (handle c) (connected c) (timeout c) (port_open c) w (slept c)
            (open_script c) (devices c) (write_script c) (incoming c) (now c) (ticks c).

Definition set_slept (l : list float) (c : client R) : client R :=
  mk_client (handle c) (connected c) (timeout c) (port_open c) (written c) l
            (open_script c) (devices c) (write_script c) (incoming c) (now c) (ticks c).

Definition set_write_script (l : list tx) (c : client R) : client R :=
  mk_client (handle c) (connected c) (timeout c) (port_open c) (written c) (slept c)
            (open_script c) (devices c) l (incoming c) (now c) (ticks c).

Definition set_incoming (l : list R) (c : client R) : client R :=
  mk_client (handle c) (connected c) (timeout c) (port_open c) (written c) (slept c)
            (open_script c) (devices c) (write_script c) l (now c) (ticks c).

Definition set_clock (t : float) (l : list float) (c : client R) : client R :=
  mk_client (handle c) (connected c) (timeout c) (port_open c) (written c) (slept c)
            (open_script c) (devices c) (write_script c) (incoming c) t l.

(** The object right after [__init__], facing a given environment. *)
Definition fresh (timeout0 : float) (open0 : option exn) (devices0 : nat)
           (writes : list tx) (reads : list R) (clock : list float) : client R :=
  mk_client false false timeout0 false [] [] open0 devices0 writes reads 0%float clock.

(** [time.time()] *)
Definition time_time : M (client R) float :=
  fun c =>
    match ticks c with
    | [] => (Return (now c), c)
    | t :: later => (Return t, set_clock t later c)
    end.

(** [time.sleep(seconds)]: the sleep is recorded, unless the argument
    is refused. *)
Definition time_sleep (seconds : float) : M (client R) unit :=
  match sleep_error seconds with
  | Some e => raise e
  | None => modify (fun c => set_slept (slept c ++ [seconds])%list c)
  end.

(** Opening the underlying resource. *)
Definition transport_open : M (client R) unit :=
  fun c =>
    match open_script c with
    | Some e => (Raise e, c)
    | None => (Return tt, set_port_open true c)
    end.

(** One write of [bytes]; the answer is [false] for a negative count. *)
Definition transport_write (bytes : string) : M (client R) bool :=
  fun c =>
    if negb (port_open c) then (Raise OSError, c)
    else
      match write_script c with
      | [] => (Return true, set_written (written c ++ [bytes])%list c)
      | TxOk :: later =>
          (Return true, set_written (written c ++ [bytes])%list (set_write_script later c))
      | TxRaise e :: later => (Raise e, set_write_script later c)
      | TxNegative :: later => (Return false, set_write_script later c)
      end.

(** [flush()] on the serial port: the next scripted outcome decides
    whether it raises. *)
Definition transport_flush : M (client R) unit :=
  fun c =>
    if negb (port_open c) then (Raise OSError, c)
    else
      match write_script c with
      | [] => (Return tt, c)
      | TxRaise e :: later => (Raise e, set_write_script later c)
      | _ :: later => (Return tt, set_write_script later c)
      end.

(** [close()] on the underlying resource. *)
Definition transport_close : M (client R) unit := modify (set_port_open false).

End Transport.

(** [a / b] on floats: division by zero raises. *)
Definition py_truediv {S : Type} (a b : float) : M S float :=
  if (b =? 0)%float then raise ZeroDivisionError else ret (a / b)%float.

(** [max(0, x)]: the first argument unless the second is greater. *)
Definition py_max0 (x : float) : float :=
  if (0 <? x)%float then x else 0%float.

(** Truthiness of [response] where it may be [None]. *)
Definition truthy_opt (response : option string) : bool :=
  match response with
  | Some r => PyStr.truthy r
  | None => false
  end.

(** The tail of [check_errors], once [self.query('*ERR?')] has returned. *)
Definition error_code_result {S : Type} (error_code : option string) : M S Z :=
  match error_code with
  | Some code =>
      if PyStr.truthy code && negb (String.eqb code "0") then
        match PyNum.py_int code with
        | Some n => ret n
        | None => raise ValueError
        end
      else ret 0
  | None => ret 0
  end.

Definition LF : string := String (ascii_of_nat 10) EmptyString.
Definition CRLF : string := String (ascii_of_nat 13) LF.

(* ================================================================== *)
(** * Methods written over [self.query]

    [check_errors], [get_measurement] and the sampling loops have the same
    text in the three client classes; they are given once, for any client
    whose [query] method is [query]. *)

(** One pass through a sampling loop either goes on, with the updated
    [sample_count], or leaves the loop. *)
Inductive loop_step :=
| Continue (sample_count : nat)
| Break.

(** [while True: body], cut after [fuel] iterations.  [body] is given the
    value of the loop's counter [sample_count] and answers with its value
    for the next iteration, or with [Break]; leaving the loop ends
    [stream_data], which returns nothing. *)
Fixpoint while_true {S : Type} (fuel : nat) (body : nat -> M S loop_step)
         (sample_count : nat) : M S unit :=
  match fuel with
  | O => out_of_fuel
  | S fuel' =>
      step <- body sample_count ;;
      match step with
      | Break => ret tt
      | Continue n => while_true fuel' body n
      end
  end.

Section OverQuery.
Context {R : Type}.
Variable query : string -> M (client R) (option string).

(** [check_errors] *)
Definition check_errors_via : M (client R) Z :=
  error_code <- query "*ERR?" ;;
  error_code_result error_code.

(** [get_measurement(channels, parameters)] *)
Definition get_measurement_via (channels parameters : list string)
  : M (client R) (option Codec.dict) :=
  response <- query (Codec.build_command channels parameters) ;;
  ret (Codec.decode_response response channels parameters).

(** The end of an iteration of [stream_data] in the LAN and USB clients:
    [elapsed = time.time() - sample_start],
    [sleep_time = max(0, (1.0 / sample_rate) - elapsed)],
    [if sleep_time > 0: time.sleep(sleep_time)]. *)
Definition pace (sample_rate sample_start : float) : M (client R) unit :=
  t <- time_time ;;
  let elapsed := (t - sample_start)%float in
  period <- py_truediv 1%float sample_rate ;;
  let sleep_time := py_max0 (period - elapsed)%float in
  if (0 <? sleep_time)%float then time_sleep sleep_time else ret tt.

(** One iteration of the [while True:] of [stream_data] (LAN and USB
    clients, [log_file=None]). *)
Definition stream_iteration (command : string)
           (duration sample_rate start_time : float) (sample_count : nat)
  : M (client R) loop_step :=
  sample_start <- time_time ;;
  if (0 <? duration)%float && (duration <? sample_start - start_time)%float
  then ret Break
  else
    response <- (if (sample_count =? 0)%nat then query command
                 else query "REREAD?") ;;
    let sample_count' :=
      if truthy_opt response then S sample_count else sample_count in
    pace sample_rate sample_start ;;;
    ret (Continue sample_count').

(** The [while True:] of [stream_data], from the value [sample_count] of
    its counter. *)
Definition stream_loop (fuel : nat) (command : string)
           (duration sample_rate start_time : float) (sample_count : nat)
  : M (client R) unit :=
  while_true fuel (stream_iteration command duration sample_rate start_time)
             sample_count.

(** [stream_data(channels, parameters, duration, sample_rate)] *)
Definition stream_data_via (fuel : nat) (channels parameters : list string)
           (duration sample_rate : float) : M (client R) unit :=
  let command := Codec.build_command channels parameters in
  start_time <- time_time ;;
  stream_loop fuel command duration sample_rate start_time 0%nat.

(** Truthiness of the [data] a worker iteration obtained. *)
Definition data_truthy (data : option Codec.dict) : bool :=
  match data with
  | Some (_ :: _) => true
  | _ => false
  end.

(** The part of an iteration of [stream_worker] ([m2000_web_ui.py]) that
    obtains [data]. *)
Definition worker_acquire (channels parameters : list string) (sample_count : nat)
  : M (client R) (option Codec.dict) :=
  if (sample_count =? 0)%nat then get_measurement_via channels parameters
  else
    try_except
      (response <- query "REREAD?" ;;
       match response with
       | Some r =>
           if PyStr.truthy r
           then ret (Some (Codec.decode_fields (PyStr.split "," r) channels parameters))
           else get_measurement_via channels parameters
       | None => get_measurement_via channels parameters
       end)
      (fun _ => get_measurement_via channels parameters).

(** One iteration of [stream_worker]; the broadcast to the web clients
    is not modelled.  The answer is the updated [sample_count]. *)
Definition worker_iteration (channels parameters : list string)
           (sample_rate : float) (sample_count : nat) : M (client R) nat :=
  acquired <- try_except
                (data <- worker_acquire channels parameters sample_count ;;
                 ret (Some data))
                (fun _ => ret None) ;;
  match acquired with
  | None => time_sleep 1%float ;;; ret sample_count
  | Some data =>
      let sample_count' :=
        if data_truthy data then S sample_count else sample_count in
      try_except
        (period <- py_truediv 1%float sample_rate ;;
         time_sleep period ;;;
         ret sample_count')
        (fun _ => time_sleep 1%float ;;; ret sample_count')
  end.

End OverQuery.

(* ================================================================== *)
(** * [m2000_lan.py]: class [M2000_LAN] *)

Module LAN.
Import PyStr.

(** What one [self.socket.recv(1)] delivers: a byte, the empty read of a
    closed peer, or an exception.  When nothing is scripted any more the
    instrument stays silent and the read times out. *)
Inductive rx :=
| RxByte (b : ascii)
| RxClosed
| RxFault (e : exn).

Definition t : Type := client rx.

Definition not_ready : M t bool :=
  c <- gets connected ;;
  h <- gets handle ;;
  ret (negb c || negb h).

(** [send_command] *)
Definition send_command (command : string) : M t unit :=
  bad <- not_ready ;;
  if bad then raise (Exception "Not connected to M2000")
  else
    try_except
      (cmd_bytes <- encode_ascii (command ++ LF) ;;
       transport_write cmd_bytes ;;; ret tt)
      (fun e =>
         match e with
         | SocketTimeout => raise (Exception "Send timeout")
         | _ => raise e
         end).

(** The [while True:] of [read_response], one [recv(1)] per step. *)
Fixpoint recv_until_lf (pending : list rx) (response : string)
  : outcome (option string) * list rx :=
  match pending with
  | [] => (Raise SocketTimeout, [])
  | RxFault e :: later => (Raise e, later)
  | RxClosed :: later => (Return (Some response), later)
  | RxByte b :: later =>
      if (128 <=? nat_of_ascii b)%nat then (Raise ValueError, later)
      else if Ascii.eqb b (ascii_of_nat 10) then (Return (Some response), later)
      else if Ascii.eqb b (ascii_of_nat 13) then recv_until_lf later response
      else recv_until_lf later (response ++ String b EmptyString)
  end.

(** [read_response] *)
Definition read_response : M t (option string) :=
  bad <- not_ready ;;
  if bad then raise (Exception "Not connected to M2000")
  else
    try_except
      (fun c =>
         if negb (port_open c) then (Raise OSError, c)
         else let '(r, rest) := recv_until_lf (incoming c) EmptyString in
              (r, set_incoming rest c))
      (fun e =>
         match e with
         | SocketTimeout => raise (Exception "Read timeout")
         | _ => ret None
         end).

(** [query] *)
Definition query (command : string) : M t (option string) :=
  send_command command ;;; read_response.

(** [self.socket.connect((self.host, self.port))] *)
Definition socket_connect : M t unit :=
  o <- gets open_script ;;
  match o with
  | Some e => raise e
  | None => ret tt
  end.

(** [connect] *)
Definition connect : M t bool :=
  try_except
    (modify (set_handle true) ;;;
     modify (set_port_open true) ;;;
     socket_connect ;;;
     time_sleep 0.1%float ;;;
     send_command "*RST" ;;;
     send_command "*CLS" ;;;
     response <- query "*IDN?" ;;
     match response with
     | Some r =>
         if truthy r && contains "APS" r
         then modify (set_connected true) ;;; ret true
         else ret false
     | None => ret false
     end)
    (fun _ => ret false).

(** [disconnect] *)
Definition disconnect : M t unit :=
  h <- gets handle ;;
  if h then
    try_finally
      (try_except
         (c <- gets connected ;;
          (if c then send_command "LOCAL" else ret tt) ;;;
          transport_close)
         (fun _ => ret tt))
      (modify (set_connected false) ;;; modify (set_handle false))
  else ret tt.

Definition check_errors : M t Z := check_errors_via query.

Definition get_measurement (channels parameters : list string)
  : M t (option Codec.dict) :=
  get_measurement_via query channels parameters.

Definition stream_data (fuel : nat) (channels parameters : list string)
           (duration sample_rate : float) : M t unit :=
  stream_data_via query fuel channels parameters duration sample_rate.

(** [get_3phase_power(vpa)]: [{**vpa_data, **phase_data}] when both
    dictionaries are non-empty, [None] otherwise. *)
Definition get_3phase_power (vpa : string) : M t (option Codec.dict) :=
  vpa_data <- get_measurement [vpa] ["W"; "VA"; "VAR"; "PF"; "FREQ"] ;;
  phase_data <- get_measurement ["CH1"; "CH2"; "CH3"] ["V"; "A"] ;;
  match vpa_data, phase_data with
  | Some (x :: a), Some (y :: b) => ret (Some (Codec.inserts (y :: b) (x :: a)))
  | _, _ => ret None
  end.

End LAN.

(* ================================================================== *)
(** * [m2000_rs232.py]: class [M2000_RS232] *)

Module RS232.
Import PyStr.

(** What one [self.connection.read_until()] delivers: the bytes read up
    to and including the line feed, or whatever had arrived when the
    port's read timeout expired (possibly nothing), or an exception.
    When nothing is scripted any more the read times out
    empty-handed. *)
Inductive rx :=
| RxBytes (data : string)
| RxFault (e : exn).

Definition t : Type := client rx.

(** [not self.connected or not self.connection.is_open], which needs
    [self.connection] to be an object once [self.connected] holds. *)
Definition guard : M t unit :=
  c <- gets connected ;;
  if negb c then raise (Exception "Not connected to M2000")
  else
    h <- gets handle ;;
    if negb h then raise AttributeError
    else
      o <- gets port_open ;;
      if negb o then raise (Exception "Not connected to M2000") else ret tt.

(** [send_command] *)
Definition send_command (command : string) : M t unit :=
  guard ;;;
  try_except
    (let command' := if ends_with_crlf command then command else command ++ CRLF in
     cmd_bytes <- encode_ascii command' ;;
     transport_write cmd_bytes ;;;
     transport_flush)
    (fun e => raise e).

(** [self.connection.read_until()] *)
Definition read_until : M t string :=
  fun c =>
    match incoming c with
    | [] => (Return EmptyString, c)
    | RxBytes data :: later => (Return data, set_incoming later c)
    | RxFault e :: later => (Raise e, set_incoming later c)
    end.

(** [read_response] *)
Definition read_response : M t (option string) :=
  guard ;;;
  try_except
    (read_val <- read_until ;;
     match PyBytes.decode_utf8 read_val with
     | None => raise UnicodeDecodeError
     | Some text =>
         let response := PyBytes.replace_semicolon (PyBytes.drop_last2 text) in
         ret (Some (PyBytes.str_of (PyBytes.strip response)))
     end)
    (fun _ => ret None).

(** [query] *)
Definition query (command : string) : M t (option string) :=
  send_command command ;;; read_response.

(** [self.connection = serial.Serial(...)]: the attribute is bound only
    when the constructor returns. *)
Definition serial_open : M t unit :=
  transport_open ;;; modify (set_handle true).

(** [connect] *)
Definition connect : M t bool :=
  try_except
    (serial_open ;;;
     time_sleep 0.1%float ;;;
     send_command "*RST" ;;;
     send_command "*CLS" ;;;
     response <- query "*IDN?" ;;
     match response with
     | Some r =>
         if truthy r && contains "APS" r
         then modify (set_connected true) ;;; ret true
         else ret false
     | None => ret false
     end)
    (fun _ => ret false).

(** [disconnect] *)
Definition disconnect : M t unit :=
  h <- gets handle ;;
  o <- gets port_open ;;
  if h && o then
    send_command "LOCAL" ;;;
    transport_close ;;;
    modify (set_connected false)
  else ret tt.

Definition check_errors : M t Z := check_errors_via query.

Definition get_measurement (channels parameters : list string)
  : M t (option Codec.dict) :=
  get_measurement_via query channels parameters.

(** ["READ? " + ",".join(f"{param}:{channel}" ...)] *)
Definition stream_command (channels parameters : list string) : string :=
  "READ? " ++
  join "," (Codec.for_params_channels parameters channels
              (fun param channel fields => (fields ++ [(param ++ ":" ++ channel)%string])%list) []).

(** One iteration of the [while True:] of this client's [stream_data]. *)
Definition stream_iteration (command : string)
           (duration sample_rate start_time : float) (sample_count : nat)
  : M t loop_step :=
  stop <- (if (0 <? duration)%float
           then checked <- time_time ;;
                ret (duration <? checked - start_time)%float
           else ret false) ;;
  if stop then ret Break
  else
    response <- (if (sample_count =? 0)%nat then query command
                 else query "REREAD?") ;;
    sample_count' <- (if truthy_opt response
                      then time_time ;;; ret (S sample_count)
                      else ret sample_count) ;;
    period <- py_truediv 1%float sample_rate ;;
    time_sleep period ;;;
    ret (Continue sample_count').

Definition stream_loop (fuel : nat) (command : string)
           (duration sample_rate start_time : float) (sample_count : nat)
  : M t unit :=
  while_true fuel (stream_iteration command duration sample_rate start_time)
             sample_count.

(** [stream_data] *)
Definition stream_data (fuel : nat) (channels parameters : list string)
           (duration sample_rate : float) : M t unit :=
  let command := stream_command channels parameters in
  start_time <- time_time ;;
  stream_loop fuel command duration sample_rate start_time 0%nat.

End RS232.

(* ================================================================== *)
(** * [m2000_usb.py]: class [M2000_USB] *)

Module USB.
Import PyStr.

(** What one [self.device.read(64, timeout_ms=100)] delivers: a report
    (a list of byte values), or an exception.  When nothing is scripted
    any more the read returns the empty list. *)
Inductive rx :=
| RxReport (data : list Z)
| RxFault (e : exn).

Definition t : Type := client rx.

Definition not_ready : M t bool :=
  c <- gets connected ;;
  h <- gets handle ;;
  ret (negb c || negb h).

Definition NUL : ascii := ascii_of_nat 0.

(** [[0] + list(chunk) + [0] * (packet_size - len(chunk) - 1)] *)
Definition report_of (chunk : list ascii) : string :=
  string_of_list_ascii
    (NUL :: chunk ++ repeat NUL (64 - List.length chunk - 1))%list.

(** The reports of [for i in range(0, len(cmd_bytes), packet_size - 1)]. *)
Fixpoint reports (fuel : nat) (cmd_bytes : list ascii) : list string :=
  match fuel, cmd_bytes with
  | _, [] => []
  | O, _ => []
  | S fuel', _ => report_of (firstn 63 cmd_bytes) :: reports fuel' (skipn 63 cmd_bytes)
  end.

Fixpoint write_reports (rs : list string) : M t unit :=
  match rs with
  | [] => ret tt
  | r :: rs' =>
      ok <- transport_write r ;;
      if ok then write_reports rs' else raise (Exception "USB write failed")
  end.

(** [send_command] *)
Definition send_command (command : string) : M t unit :=
  bad <- not_ready ;;
  if bad then raise (Exception "Not connected to M2000")
  else
    try_except
      (encoded <- encode_ascii (command ++ LF) ;;
       let cmd_bytes := list_ascii_of_string encoded in
       write_reports (reports (List.length cmd_bytes) cmd_bytes))
      (fun e => raise e).

(** The [for byte_val in data[1:]:] of [read_response]: either the line
    feed was met and [response] is returned, or the report is used up
    (or abandoned) and reading goes on. *)
Inductive scan :=
| Finished (response : string)
| Unfinished (response : string).

Fixpoint scan_report (data : list Z) (response : string) : scan :=
  match data with
  | [] => Unfinished response
  | byte_val :: rest =>
      if byte_val =? 0 then Unfinished response
      else if byte_val =? 10 then Finished response
      else if byte_val =? 13 then scan_report rest response
      else if (32 <=? byte_val) && (byte_val <=? 126)
           then scan_report rest
                  (response ++ String (ascii_of_nat (Z.to_nat byte_val)) EmptyString)
           else Unfinished response
  end.

(** [self.device.read(64, timeout_ms=100)] *)
Definition device_read : M t (list Z) :=
  fun c =>
    if negb (port_open c) then (Raise OSError, c)
    else
      match incoming c with
      | [] => (Return [], c)
      | RxReport data :: later => (Return data, set_incoming later c)
      | RxFault e :: later => (Raise e, set_incoming later c)
      end.

(** The inner [try:] of the loop of [read_response]: read one report
    and scan it; [if not data: continue]; on an exception sleep 10 ms
    and go on. *)
Definition poll (response : string) : M t scan :=
  try_except
    (data <- device_read ;;
     match data with
     | [] => ret (Unfinished response)
     | _ :: payload => ret (scan_report payload response)
     end)
    (fun _ => time_sleep 0.01%float ;;; ret (Unfinished response)).

(** The [while True:] of [read_response]. *)
Fixpoint read_loop (fuel : nat) (start_time : float) (response : string)
  : M t (option string) :=
  match fuel with
  | O => out_of_fuel
  | S fuel' =>
      current <- time_time ;;
      limit <- gets timeout ;;
      if (limit <? (current - start_time) * 1000)%float
      then raise (Exception "Read timeout")
      else
        got <- poll response ;;
        match got with
        | Finished r => ret (Some r)
        | Unfinished r => read_loop fuel' start_time r
        end
  end.

(** [read_response] *)
Definition read_response (fuel : nat) : M t (option string) :=
  bad <- not_ready ;;
  if bad then raise (Exception "Not connected to M2000")
  else
    try_except
      (start_time <- time_time ;;
       read_loop fuel start_time EmptyString)
      (fun _ => ret None).

(** [query] *)
Definition query (fuel : nat) (command : string) : M t (option string) :=
  send_command command ;;; read_response fuel.

(** [self.device = hid.device()] then [self.device.open(vid, pid)] *)
Definition device_open : M t unit :=
  modify (set_handle true) ;;; transport_open.

(** [connect(device_index)] *)
Definition connect (fuel : nat) (device_index : nat) : M t bool :=
  try_except
    (found <- gets devices ;;
     if (found =? 0)%nat then ret false
     else if (found <=? device_index)%nat then ret false
     else
       device_open ;;;
       time_sleep 0.2%float ;;;
       send_command "*RST" ;;;
       send_command "*CLS" ;;;
       time_sleep 0.1%float ;;;
       response <- query fuel "*IDN?" ;;
       match response with
       | Some r =>
           if truthy r && contains "APS" r
           then modify (set_connected true) ;;; ret true
           else ret false
       | None => ret false
       end)
    (fun _ => ret false).

(** [disconnect] *)
Definition disconnect : M t unit :=
  h <- gets handle ;;
  if h then
    try_finally
      (try_except
         (c <- gets connected ;;
          (if c then send_command "LOCAL" ;;; time_sleep 0.1%float else ret tt) ;;;
          transport_close)
         (fun _ => ret tt))
      (modify (set_connected false) ;;; modify (set_handle false))
  else ret tt.

Definition check_errors (fuel : nat) : M t Z := check_errors_via (query fuel).

Definition get_measurement (fuel : nat) (channels parameters : list string)
  : M t (option Codec.dict) :=
  get_measurement_via (query fuel) channels parameters.

Definition stream_data (fuel : nat) (channels parameters : list string)
           (duration sample_rate : float) : M t unit :=
  stream_data_via (query fuel) fuel channels parameters duration sample_rate.

End USB.

(* ================================================================== *)
(** * States used to exercise the clients *)

(** A client brought to the Ready state: the transport is open, the
    attribute holding it is bound, and [self.connected] is set. *)
Definition ready {R : Type} (c : client R) : client R :=
  set_connected true (set_handle true (set_port_open true c)).

(** The instrument sends the characters of [s], one per [recv(1)]. *)
Definition lan_bytes (s : string) : list LAN.rx :=
  map LAN.RxByte (list_ascii_of_string s).

(** A LAN client in the Ready state whose instrument is going to send
    [reply] and then stay silent; the clock reads [clock]. *)
Definition lan_ready (reply : string) (clock : list float) : LAN.t :=
  ready (fresh 5%float None 0%nat [] (lan_bytes reply) clock).

(** A USB client in the Ready state whose instrument stays silent while
    the clock advances one second per reading, past the 5000 ms timeout. *)
Definition usb_silent : USB.t :=
  ready (fresh 5000%float None 1%nat [] []
               [0; 1; 2; 3; 4; 5; 6; 7; 8; 9]%float).

(** A serial client in the Ready state whose port delivers [reads]. *)
Definition rs232_ready (reads : list RS232.rx) (clock : list float) : RS232.t :=
  ready (fresh 1%float None 0%nat [] reads clock).

(* ================================================================== *)
(** * What a query puts on the wire *)

(** The client is Ready and its transport accepts every write. *)
Definition usable {R : Type} (c : client R) : Prop :=
  connected c = true /\ handle c = true /\ port_open c = true
  /\ write_script c = [].

(** [c'] differs from [c] at most in the clock, the sleeps and the pending
    input. *)
Definition same_link {R : Type} (c c' : client R) : Prop :=
  written c' = written c /\ connected c' = connected c
  /\ handle c' = handle c /\ port_open c' = port_open c
  /\ write_script c' = write_script c.

(** On a usable client, [query cmd] hands exactly the buffers [wire cmd]
    to the transport, whatever comes back, and leaves the client usable. *)
Definition issues {R : Type} (query : string -> M (client R) (option string))
           (wire : string -> list string) : Prop :=
  forall (cmd : string) (c : client R),
    usable c ->
    written (snd (query cmd c)) = (written c ++ wire cmd)%list
    /\ usable (snd (query cmd c)).

(** The buffers a command is sent as: one framed command, and nothing
    at all when the command does not encode as ASCII. *)
Definition lan_wire (cmd : string) : list string :=
  if is_ascii_text (cmd ++ LF) then [cmd ++ LF] else [].

Definition rs232_framed (cmd : string) : string :=
  if PyStr.ends_with_crlf cmd then cmd else cmd ++ CRLF.




(* ================================================================== *)
(** * [m2000_units.py], continued: the CSV helpers *)

Module UnitsCsv.
Import PyStr PyNum Units Codec.

(** [create_csv_header(channels, parameters)] *)
Definition create_csv_header (channels parameters : list string) : string :=
  for_params_channels parameters channels
    (fun param channel header =>
       let unit := get_base_unit param in
       if truthy unit
       then header ++ "," ++ channel ++ "_" ++ param ++ "(" ++ unit ++ ")"
       else header ++ "," ++ channel ++ "_" ++ param)
    "Timestamp".

(** The column title [create_csv_header] gives a channel/parameter pair. *)
Definition csv_column (param channel : string) : string :=
  channel ++ "_" ++ param
  ++ (if truthy (get_base_unit param)
      then "(" ++ get_base_unit param ++ ")"
      else EmptyString).

(** What one pass of the loops of [format_csv_row] appends for [value =
    data_dict.get(key, '')]: the value through [float] and [.6g], the
    value as it is when the conversion fails, nothing for [''] . *)
Definition csv_cell (value : pyval) : string :=
  match value with
  | PStr EmptyString => EmptyString
  | PStr s => match py_float s with
              | Some x => format_g6 x
              | None => s
              end
  | PFloat x => format_g6 x
  | PNone => "None"
  end.

(** [format_csv_row(timestamp, data_dict, channels, parameters)] *)
Definition format_csv_row (timestamp : float) (data_dict : dict)
           (channels parameters : list string) : string :=
  for_params_channels parameters channels
    (fun param channel row =>
       let value := match dict_get (key channel param) data_dict with
                    | Some v => v
                    | None => PStr EmptyString
                    end in
       row ++ "," ++ csv_cell value)
    (format_f 3 timestamp).

End UnitsCsv.

(* ================================================================== *)
(** * Vocabulary for the statements about framing *)

(** The character [ch] occurs in [s]. *)
Fixpoint has_char (ch : ascii) (s : string) : bool :=
  match s with
  | EmptyString => false
  | String c s' => Ascii.eqb c ch || has_char ch s'
  end.

(** [s] without its carriage returns. *)
Fixpoint without_cr (s : string) : string :=
  match s with
  | EmptyString => EmptyString
  | String c s' =>
      if Ascii.eqb c (ascii_of_nat 13) then without_cr s'
      else String c (without_cr s')
  end.

(** The byte values of the characters of [s]. *)
Definition codes (s : string) : list Z :=
  map (fun c => Z.of_nat (nat_of_ascii c)) (list_ascii_of_string s).

(** Every character of [s] is a printable ASCII one (32..126). *)
Fixpoint printable (s : string) : bool :=
  match s with
  | EmptyString => true
  | String c s' =>
      (32 <=? nat_of_ascii c)%nat && (nat_of_ascii c <=? 126)%nat && printable s'
  end.

(** The HID reports that carry the text chunks [chunks]: the report-ID
    byte, the characters, and zeros up to the 64 bytes of a report. *)
Definition text_reports (chunks : list string) : list USB.rx :=
  map (fun chunk =>
         USB.RxReport (0 :: codes chunk
                         ++ repeat 0 (63 - String.length chunk))%list)
      chunks.

(** The chunks, one after the other. *)
Definition glue (chunks : list string) : string :=
  fold_right String.append EmptyString chunks.

(** The readings [time.time()] is going to give from state [c] on. *)
Definition readings {R : Type} (c : client R) : list float :=
  match ticks c with
  | [] => [now c]
  | later => later
  end.



(** None of the coming clock readings is more than [self.timeout]
    milliseconds after the first of them. *)
Definition on_time {R : Type} (c : client R) : Prop :=
  Forall (fun t => (timeout c <? (t - hd (now c) (ticks c)) * 1000)%float = false)
         (readings c).

(* ================================================================== *)
(** * Facts about strings *)

Section TextFacts.

Lemma append_snoc (a b : string) (c : ascii) :
  ((a ++ String c EmptyString) ++ b)%string = (a ++ String c b)%string.
Proof. induction a as [|x a IH]; simpl; [reflexivity | now rewrite IH]. Qed.

Lemma append_empty_r (a : string) : (a ++ EmptyString)%string = a.
Proof. induction a as [|x a IH]; simpl; [reflexivity | now rewrite IH]. Qed.

Lemma has_char_cons (ch c : ascii) (s : string) :
  has_char ch (String c s) = Ascii.eqb c ch || has_char ch s.
Proof. reflexivity. Qed.

Lemma is_ascii_text_cons (c : ascii) (s : string) :
  is_ascii_text (String c s) = (nat_of_ascii c <? 128)%nat && is_ascii_text s.
Proof. reflexivity. Qed.

Lemma has_char_app (ch : ascii) (a b : string) :
  has_char ch (a ++ b) = has_char ch a || has_char ch b.
Proof.
  induction a as [|x a IH]; [reflexivity|].
  change (String x a ++ b)%string with (String x (a ++ b)).
  rewrite !has_char_cons, IH. now rewrite orb_assoc.
Qed.

Lemma is_ascii_text_app (a b : string) :
  is_ascii_text (a ++ b) = is_ascii_text a && is_ascii_text b.
Proof.
  induction a as [|x a IH]; [reflexivity|].
  change (String x a ++ b)%string with (String x (a ++ b)).
  rewrite !is_ascii_text_cons, IH. now rewrite andb_assoc.
Qed.

End TextFacts.

(* ================================================================== *)
(** * Facts about the codec *)

Section CodecFacts.
Import PyStr Codec.

Lemma fold_left_map_compose {A B C : Type} (f : A -> C -> A) (g : B -> C)
      (l : list B) (a : A) :
  fold_left f (map g l) a = fold_left (fun acc x => f acc (g x)) l a.
Proof.
  revert a; induction l as [|x l IH]; intros a; simpl; [reflexivity | apply IH].
Qed.

(** The two nested loops visit [pairs parameters channels] in order. *)
Lemma for_params_channels_pairs {S : Type} (parameters channels : list string)
      (body : string -> string -> S -> S) (init : S) :
  for_params_channels parameters channels body init
  = fold_left (fun st pc => body (fst pc) (snd pc) st) (pairs parameters channels) init.
Proof.
  unfold for_params_channels, pairs.
  revert init; induction parameters as [|p ps IH]; intros init; simpl.
  - reflexivity.
  - rewrite fold_left_app, fold_left_map_compose. simpl. apply IH.
Qed.

Lemma pairs_length (parameters channels : list string) :
  List.length (pairs parameters channels)
  = (List.length parameters * List.length channels)%nat.
Proof.
  unfold pairs. induction parameters as [|p ps IH]; simpl.
  - reflexivity.
  - rewrite length_app, length_map, IH. reflexivity.
Qed.

Lemma request_keys_length (parameters channels : list string) :
  List.length (request_keys parameters channels)
  = (List.length parameters * List.length channels)%nat.
Proof. unfold request_keys. rewrite length_map. apply pairs_length. Qed.

Lemma fold_left_snoc_map {A B : Type} (f : A -> B) (l : list A) (acc : list B) :
  fold_left (fun fields x => (fields ++ [f x])%list) l acc = (acc ++ map f l)%list.
Proof.
  revert acc; induction l as [|x l IH]; intros acc; simpl.
  - now rewrite app_nil_r.
  - rewrite IH, <- app_assoc. reflexivity.
Qed.

(** The request holds one READ field per combination. *)
Lemma read_fields_pairs (channels parameters : list string) :
  read_fields channels parameters
  = map (fun pc => read_field (fst pc) (snd pc)) (pairs parameters channels).
Proof.
  unfold read_fields. rewrite for_params_channels_pairs.
  apply (fold_left_snoc_map (fun pc => read_field (fst pc) (snd pc))).
Qed.


(** Once [idx] has run past the values, the loop body changes nothing. *)
Lemma decode_exhausted (values : list string) (l : list (string * string))
      (idx : nat) (d : dict) :
  (List.length values <= idx)%nat ->
  fold_left (fun st pc => decode_body values (fst pc) (snd pc) st) l (idx, d) = (idx, d).
Proof.
  intros Hle. induction l as [|pc l IH]; simpl; [reflexivity|].
  destruct (Nat.ltb_spec idx (List.length values)); [lia | exact IH].
Qed.

Lemma skipn_nth_cons {A : Type} (l : list A) (i : nat) (dflt : A) :
  (i < List.length l)%nat -> skipn i l = nth i l dflt :: skipn (S i) l.
Proof.
  revert i; induction l as [|x l IH]; intros i Hi; simpl in Hi; [lia|].
  destruct i as [|i]; [reflexivity|]. simpl. apply IH. lia.
Qed.

(** The decoding loops assign, in request order, the parsed positional
    values from position [idx] on. *)
Lemma decode_loop_inserts (values : list string) (l : list (string * string))
      (idx : nat) (d : dict) :
  snd (fold_left (fun st pc => decode_body values (fst pc) (snd pc) st) l (idx, d))
  = inserts (combine (map (fun pc => key (snd pc) (fst pc)) l)
                     (map coerce (skipn idx values))) d.
Proof.
  revert idx d; induction l as [|pc l IH]; intros idx d; simpl.
  - reflexivity.
  - destruct (Nat.ltb_spec idx (List.length values)) as [Hlt|Hge].
    + rewrite IH. rewrite (skipn_nth_cons values idx EmptyString Hlt). reflexivity.
    + rewrite decode_exhausted by exact Hge.
      rewrite skipn_all2 by exact Hge. reflexivity.
Qed.

Lemma decode_fields_inserts (values channels parameters : list string) :
  decode_fields values channels parameters
  = inserts (combine (request_keys parameters channels) (map coerce values)) [].
Proof.
  unfold decode_fields. rewrite for_params_channels_pairs.
  apply (decode_loop_inserts values (pairs parameters channels) 0 []).
Qed.

End CodecFacts.

Section DictFacts.
Import PyStr Codec.

Lemma dict_set_keys_in (k k' : string) (v : pyval) (d : dict) :
  In k (keys (dict_set k' v d)) <-> k = k' \/ In k (keys d).
Proof.
  unfold keys. induction d as [|[k0 v0] d IH]; simpl.
  - intuition congruence.
  - destruct (String.eqb_spec k0 k') as [->|Hne]; simpl.
    + intuition congruence.
    + rewrite IH. intuition congruence.
Qed.



Lemma dict_get_set_same (k : string) (v : pyval) (d : dict) :
  dict_get k (dict_set k v d) = Some v.
Proof.
  induction d as [|[k0 v0] d IH]; simpl.
  - now rewrite String.eqb_refl.
  - destruct (String.eqb_spec k0 k) as [->|Hne]; simpl.
    + now rewrite String.eqb_refl.
    + destruct (String.eqb_spec k0 k); [contradiction | exact IH].
Qed.

Lemma dict_get_set_other (k k' : string) (v : pyval) (d : dict) :
  k <> k' -> dict_get k (dict_set k' v d) = dict_get k d.
Proof.
  intros Hne. induction d as [|[k0 v0] d IH]; simpl.
  - destruct (String.eqb_spec k' k); [congruence | reflexivity].
  - destruct (String.eqb_spec k0 k') as [->|Hne0]; simpl.
    + destruct (String.eqb_spec k' k); [congruence | reflexivity].
    + destruct (String.eqb_spec k0 k); [reflexivity | exact IH].
Qed.

Lemma inserts_app (l1 l2 : list (string * pyval)) (d : dict) :
  inserts (l1 ++ l2) d = inserts l2 (inserts l1 d).
Proof. apply fold_left_app. Qed.

Lemma inserts_keys_in (k : string) (l : list (string * pyval)) (d : dict) :
  In k (keys (inserts l d)) <-> In k (keys d) \/ In k (map fst l).
Proof.
  revert d; induction l as [|[k0 v0] l IH]; intros d; simpl.
  - tauto.
  - change (inserts ((k0, v0) :: l) d) with (inserts l (dict_set k0 v0 d)).
    rewrite IH, dict_set_keys_in. intuition congruence.
Qed.



Lemma inserts_get_untouched (k : string) (l : list (string * pyval)) (d : dict) :
  ~ In k (map fst l) -> dict_get k (inserts l d) = dict_get k d.
Proof.
  revert d; induction l as [|[k0 v0] l IH]; intros d Hn; simpl; [reflexivity|].
  change (inserts ((k0, v0) :: l) d) with (inserts l (dict_set k0 v0 d)).
  rewrite IH by (intros H; apply Hn; now right).
  apply dict_get_set_other. intros ->. apply Hn. now left.
Qed.

(** A key that is not assigned again keeps the value of its assignment. *)
Lemma inserts_get_last (k : string) (v : pyval) (l1 l2 : list (string * pyval))
      (d : dict) :
  ~ In k (map fst l2) ->
  dict_get k (inserts (l1 ++ (k, v) :: l2) d) = Some v.
Proof.
  intros Hn. rewrite inserts_app.
  change (inserts ((k, v) :: l2) (inserts l1 d))
    with (inserts l2 (dict_set k v (inserts l1 d))).
  rewrite inserts_get_untouched by exact Hn.
  apply dict_get_set_same.
Qed.

Lemma combine_fst_firstn {A B : Type} (ks : list A) (vs : list B) :
  map fst (combine ks vs) = firstn (List.length vs) ks.
Proof.
  revert vs; induction ks as [|k ks IH]; intros vs; simpl.
  - now rewrite firstn_nil.
  - destruct vs as [|v vs]; simpl; [reflexivity | now rewrite IH].
Qed.

Lemma combine_fst_all {A B : Type} (ks : list A) (vs : list B) :
  (List.length ks <= List.length vs)%nat -> map fst (combine ks vs) = ks.
Proof. intros H. rewrite combine_fst_firstn. now apply firstn_all2. Qed.

Lemma combine_skipn_both {A B : Type} (ks : list A) (vs : list B) (n : nat) :
  skipn n (combine ks vs) = combine (skipn n ks) (skipn n vs).
Proof.
  revert ks vs; induction n as [|n IH]; intros ks vs; simpl; [reflexivity|].
  destruct ks as [|k ks]; [reflexivity|].
  destruct vs as [|v vs]; simpl; [now rewrite combine_nil | apply IH].
Qed.

(** The pairing of keys and values, cut at position [i]. *)
Lemma combine_split_at {A B : Type} (ks : list A) (vs : list B) (i : nat)
      (dk : A) (dv : B) :
  (i < List.length ks)%nat -> (i < List.length vs)%nat ->
  combine ks vs
  = (firstn i (combine ks vs)
     ++ (nth i ks dk, nth i vs dv) :: combine (skipn (S i) ks) (skipn (S i) vs))%list.
Proof.
  intros Hk Hv.
  rewrite <- (firstn_skipn i (combine ks vs)) at 1. f_equal.
  rewrite combine_skipn_both.
  rewrite (skipn_nth_cons ks i dk Hk), (skipn_nth_cons vs i dv Hv). reflexivity.
Qed.

Lemma truthy_nonempty (r : string) : r <> EmptyString -> truthy r = true.
Proof. destruct r; [congruence | reflexivity]. Qed.

Lemma decode_response_text (r : string) (channels parameters : list string) :
  r <> EmptyString ->
  decode_response (Some r) channels parameters
  = Some (inserts (combine (request_keys parameters channels)
                           (map coerce (split "," r))) []).
Proof.
  intros Hr. unfold decode_response.
  rewrite (truthy_nonempty r Hr), decode_fields_inserts. reflexivity.
Qed.

End DictFacts.

(* ================================================================== *)
(** * The decoded sample against the request *)

Section DecodeClaims.
Import PyStr PyNum Codec.

Lemma In_firstn {A : Type} (x : A) (n : nat) (l : list A) :
  In x (firstn n l) -> In x l.
Proof.
  intros H. rewrite <- (firstn_skipn n l). apply in_or_app. now left.
Qed.

Lemma combine_keys_incl {B : Type} (k : string) (ks : list string) (vs : list B) :
  In k (map fst (combine ks vs)) -> In k ks.
Proof. rewrite combine_fst_firstn. apply In_firstn. Qed.

(** C2, counterexample.  The empty reply [""] splits into one field, which
    is as many as the request [parameters = ["V"]], [channels = ["CH1"]]
    asks for, and yet [get_measurement] returns [None] for it, not a map. *)
Lemma decode_empty_reply_is_none :
  ["CH1"] <> @nil string /\ ["V"] <> @nil string
  /\ (List.length ["V"] * List.length ["CH1"] <= List.length (split "," ""))%nat
  /\ decode_response (Some "") ["CH1"] ["V"] = None
  /\ ~ (exists d, decode_response (Some "") ["CH1"] ["V"] = Some d).
Proof.
  repeat split; try discriminate.
  - simpl. lia.
  - intros [d Hd]. discriminate Hd.
Qed.

(** C2, amended.  For every channels list, parameters list and NON-EMPTY
    response string with at least |parameters| x |channels| comma-separated
    fields, [get_measurement]'s decode returns a map that is the result of
    assigning, in parameter-major, channel-minor request order, the key
    [{channel}_{parameter}] to the float parse of the positional field
    (the raw string when the parse fails); its key set is exactly the set
    of request keys, and a key that is not repeated later in the request
    holds the value of its own position.  In particular the response
    ["230.45,1.234,284.5"] for [V, A, W] on [CH1] decodes to
    [{CH1_V: 230.45, CH1_A: 1.234, CH1_W: 284.5}]. *)
Theorem decode_covers_request :
  (forall (channels parameters : list string) (r : string),
      r <> EmptyString ->
      (List.length parameters * List.length channels
       <= List.length (split "," r))%nat ->
      exists d,
        decode_response (Some r) channels parameters = Some d
        /\ d = inserts (combine (request_keys parameters channels)
                                (map coerce (split "," r))) []
        /\ (forall k, In k (keys d) <-> In k (request_keys parameters channels))
        /\ (forall i,
               (i < List.length parameters * List.length channels)%nat ->
               ~ In (nth i (request_keys parameters channels) EmptyString)
                    (skipn (S i) (request_keys parameters channels)) ->
               dict_get (nth i (request_keys parameters channels) EmptyString) d
               = Some (coerce (nth i (split "," r) EmptyString))))
  /\ (forall s, coerce s = match py_float s with
                           | Some x => PFloat x
                           | None => PStr s
                           end)
  /\ decode_response (Some "230.45,1.234,284.5") ["CH1"] ["V"; "A"; "W"]
     = Some [("CH1_V", PFloat 230.45); ("CH1_A", PFloat 1.234);
             ("CH1_W", PFloat 284.5)].
Proof.
  split; [|split; [reflexivity | vm_compute; reflexivity]].
  intros channels parameters r Hr Hlen.
  set (ks := request_keys parameters channels).
  set (vs := map coerce (split "," r)).
  assert (Hks : List.length ks = (List.length parameters * List.length channels)%nat)
    by apply request_keys_length.
  assert (Hvs : List.length vs = List.length (split "," r))
    by apply length_map.
  exists (inserts (combine ks vs) []). split; [|split; [reflexivity|split]].
  - apply decode_response_text, Hr.
  - intros k. rewrite inserts_keys_in. simpl.
    rewrite combine_fst_all by lia. tauto.
  - intros i Hi Hlast.
    rewrite (combine_split_at ks vs i EmptyString (coerce EmptyString)) by lia.
    unfold vs at 2. rewrite map_nth.
    apply inserts_get_last.
    intros Hin. apply Hlast. now apply combine_keys_incl in Hin.
Qed.

Lemma decode_covers_request_witness :
  exists d,
    decode_response (Some "230.45,1.234") ["CH1"; "CH2"] ["V"] = Some d
    /\ d = inserts (combine (request_keys ["V"] ["CH1"; "CH2"])
                            (map coerce (split "," "230.45,1.234"))) []
    /\ (forall k, In k (keys d) <-> In k (request_keys ["V"] ["CH1"; "CH2"]))
    /\ (forall i,
           (i < List.length ["V"] * List.length ["CH1"; "CH2"])%nat ->
           ~ In (nth i (request_keys ["V"] ["CH1"; "CH2"]) EmptyString)
                (skipn (S i) (request_keys ["V"] ["CH1"; "CH2"])) ->
           dict_get (nth i (request_keys ["V"] ["CH1"; "CH2"]) EmptyString) d
           = Some (coerce (nth i (split "," "230.45,1.234") EmptyString))).
Proof.
  apply (proj1 decode_covers_request ["CH1"; "CH2"] ["V"] "230.45,1.234").
  - discriminate.
  - simpl. lia.
Defined.

(** C4, counterexample.  The reply ["230.45"] carries one field where
    three were requested; decoding does not fail, it returns the partial
    map [{CH1_V: 230.45}]. *)
Lemma short_reply_gives_partial_map :
  (List.length (split "," "230.45")
   < List.length ["V"; "A"; "W"] * List.length ["CH1"])%nat
  /\ decode_response (Some "230.45") ["CH1"] ["V"; "A"; "W"]
     = Some [("CH1_V", PFloat 230.45)]
  /\ decode_response (Some "230.45") ["CH1"] ["V"; "A"; "W"] <> None.
Proof.
  split; [simpl; lia | split; [vm_compute; reflexivity | discriminate]].
Qed.

(** C4, amended.  Decoding a non-empty response with fewer fields than the
    requested |parameters| x |channels| does not fail: it returns the
    partial map that assigns the fields received to the first request
    keys, in request order.  Decoding returns [None] exactly when the
    response is [None] or empty.  A field that cannot be parsed
    numerically is kept as its raw string and never makes decoding fail. *)
Theorem decode_short_reply_partial :
  (forall (channels parameters : list string) (r : string),
      r <> EmptyString ->
      (List.length (split "," r)
       < List.length parameters * List.length channels)%nat ->
      exists d,
        decode_response (Some r) channels parameters = Some d
        /\ d = inserts (combine (firstn (List.length (split "," r))
                                        (request_keys parameters channels))
                                (map coerce (split "," r))) []
        /\ (forall k, In k (keys d)
                      <-> In k (firstn (List.length (split "," r))
                                       (request_keys parameters channels))))
  /\ (forall (response : option string) (channels parameters : list string),
         decode_response response channels parameters = None
         <-> response = None \/ response = Some EmptyString)
  /\ (forall s, py_float s = None -> coerce s = PStr s).
Proof.
  split; [|split].
  - intros channels parameters r Hr Hlen.
    set (ks := request_keys parameters channels).
    set (vs := map coerce (split "," r)).
    assert (Hvs : List.length vs = List.length (split "," r))
      by apply length_map.
    assert (Hcut : combine ks vs
                   = combine (firstn (List.length (split "," r)) ks) vs).
    { rewrite <- Hvs. apply combine_firstn_r. }
    exists (inserts (combine ks vs) []). split; [|split].
    + apply decode_response_text, Hr.
    + now rewrite <- Hcut.
    + intros k. rewrite inserts_keys_in. simpl.
      rewrite combine_fst_firstn, Hvs. tauto.
  - intros response channels parameters. unfold decode_response.
    destruct response as [r|]; [|tauto].
    destruct r as [|c r]; simpl.
    + tauto.
    + split; [discriminate | intros [H|H]; discriminate H].
  - intros s Hs. unfold coerce. now rewrite Hs.
Qed.

Lemma decode_short_reply_partial_witness :
  exists d,
    decode_response (Some "230.45,OVER") ["CH1"] ["V"; "A"; "W"] = Some d
    /\ d = inserts (combine (firstn (List.length (split "," "230.45,OVER"))
                                    (request_keys ["V"; "A"; "W"] ["CH1"]))
                            (map coerce (split "," "230.45,OVER"))) []
    /\ (forall k, In k (keys d)
                  <-> In k (firstn (List.length (split "," "230.45,OVER"))
                                   (request_keys ["V"; "A"; "W"] ["CH1"]))).
Proof.
  apply (proj1 decode_short_reply_partial ["CH1"] ["V"; "A"; "W"] "230.45,OVER").
  - discriminate.
  - simpl. lia.
Defined.




End DecodeClaims.

(* ================================================================== *)
(** * The unit scaling formatter *)

Section FormatClaims.
Import PyNum Units.

(** At or above 1000 in magnitude a float is not zero. *)
Lemma kilo_not_zero (x : float) :
  (1000 <=? PrimFloat.abs x)%float = true -> (x =? 0)%float = false.
Proof.
  rewrite leb_spec, eqb_spec, abs_spec.
  destruct (Prim2SF x) as [s | s | | s m e]; try destruct s;
    vm_compute; congruence.
Qed.

(** C7, counterexample.  0.00045 is below the 0.001 threshold, so a
    voltage of 0.00045 is shown in microvolts without decimals, not as
    "450.0 mV"; and 1250.5 / 1000 is the binary64 just below 1.2505, which
    three decimals round down, not to "1.251 kW". *)
Lemma format_examples_differ :
  format_measurement (PFloat 0.00045) "V" true <> "450.0 mV"
  /\ format_measurement (PFloat 1250.5) "W" true <> "1.251 kW".
Proof. split; vm_compute; discriminate. Qed.

(** C7, amended.  [format_measurement] scales by magnitude on decade
    thresholds compared with [>=]: a voltage of magnitude at least 1000
    is shown in kV with three decimals, and on the boundaries
    [format_measurement(0.0, 'V')] is "0.000 V",
    [format_measurement(1000.0, 'V')] is "1.000 kV",
    [format_measurement(1.0, 'V')] is "1.000 V",
    [format_measurement(0.001, 'V')] is "1.0 mV",
    [format_measurement(0.000001, 'V')] is "1 μV" and
    [format_measurement(1000000.0, 'W')] is "1.000 MW"; while
    [format_measurement(0.00045, 'V')] is "450 μV" and
    [format_measurement(1250.5, 'W')] is "1.250 kW". *)
Theorem format_measurement_decades :
  (forall x : float,
      (1000 <=? PrimFloat.abs x)%float = true ->
      format_measurement (PFloat x) "V" true
      = format_f 3 (x / 1000)%float ++ " kV")
  /\ format_measurement (PFloat 0) "V" true = "0.000 V"
  /\ format_measurement (PFloat 1000) "V" true = "1.000 kV"
  /\ format_measurement (PFloat 1) "V" true = "1.000 V"
  /\ format_measurement (PFloat 0.001) "V" true = "1.0 mV"
  /\ format_measurement (PFloat 0.000001) "V" true = "1 μV"
  /\ format_measurement (PFloat 1000000) "W" true = "1.000 MW"
  /\ format_measurement (PFloat 0.00045) "V" true = "450 μV"
  /\ format_measurement (PFloat 1250.5) "W" true = "1.250 kW".
Proof.
  split.
  - intros x Hx. unfold format_measurement.
    rewrite (kilo_not_zero x Hx). simpl.
    unfold scale_kilo_to_nano. rewrite Hx. reflexivity.
  - repeat split; vm_compute; reflexivity.
Qed.

Lemma format_measurement_decades_witness :
  format_measurement (PFloat 230450) "V" true
  = format_f 3 (230450 / 1000)%float ++ " kV".
Proof.
  apply (proj1 format_measurement_decades 230450%float).
  vm_compute. reflexivity.
Defined.

End FormatClaims.

(* ================================================================== *)
(** * [check_errors] *)

Section CheckErrorsClaims.
Import PyStr PyNum.

(** C10, counterexample.  The reply "00" is none of [None], "" and "0",
    and [check_errors] returns 0 for it, through [int("00")]. *)
Lemma check_errors_zero_on_other_spelling :
  Some "00" <> None /\ "00" <> EmptyString /\ "00" <> "0"
  /\ LAN.query "*ERR?" (lan_ready ("00" ++ LF) [])
     = (Return (Some "00"), snd (LAN.query "*ERR?" (lan_ready ("00" ++ LF) [])))
  /\ fst (LAN.check_errors (lan_ready ("00" ++ LF) [])) = Return 0.
Proof. repeat split; try discriminate; vm_compute; reflexivity. Qed.

(** C10, amended.  Whatever the client, once [self.query('*ERR?')] has
    returned [reply]: when the reply is [None], "" or "0", [check_errors]
    returns 0 without converting it; for every other reply it returns the
    integer conversion of the reply string, so it returns 0 exactly when
    the reply is [None], "", "0" or another spelling of zero that [int]
    accepts (such as "00"); and when the reply is not a valid decimal
    integer literal, [check_errors] raises the conversion error. *)
Theorem check_errors_result :
  forall (R : Type) (query : string -> M (client R) (option string))
         (c c' : client R) (reply : option string),
    query "*ERR?" c = (Return reply, c') ->
    ((reply = None \/ reply = Some EmptyString \/ reply = Some "0") ->
     check_errors_via query c = (Return 0, c'))
    /\ (forall s, reply = Some s -> s <> EmptyString -> s <> "0" ->
           check_errors_via query c
           = (match py_int s with
              | Some n => Return n
              | None => Raise ValueError
              end, c'))
    /\ (fst (check_errors_via query c) = Return 0
        <-> reply = None \/ reply = Some EmptyString \/ reply = Some "0"
            \/ exists s, reply = Some s /\ py_int s = Some 0).
Proof.
  intros R query c c' reply Hq.
  assert (Hrun : check_errors_via query c = error_code_result reply c').
  { unfold check_errors_via, bind. now rewrite Hq. }
  assert (Hother : forall s, s <> EmptyString -> s <> "0" ->
            error_code_result (S := client R) (Some s) c'
            = (match py_int s with
               | Some n => Return n
               | None => Raise ValueError
               end, c')).
  { intros s Hs H0. unfold error_code_result.
    rewrite (truthy_nonempty s Hs).
    destruct (String.eqb_spec s "0") as [->|_]; [congruence|]. simpl.
    destruct (py_int s); reflexivity. }
  split; [|split].
  - intros [->|[->| ->]]; rewrite Hrun; reflexivity.
  - intros s -> Hs H0. rewrite Hrun. now apply Hother.
  - rewrite Hrun. split.
    + intros Hz. destruct reply as [s|]; [|now left].
      destruct (String.eqb_spec s EmptyString) as [->|Hs]; [right; now left|].
      destruct (String.eqb_spec s "0") as [->|H0]; [right; right; now left|].
      right; right; right. exists s. split; [reflexivity|].
      rewrite (Hother s Hs H0) in Hz. simpl in Hz.
      destruct (py_int s) as [n|]; [|discriminate Hz].
      now inversion Hz.
    + intros [->|[->|[->|[s [-> Hs]]]]]; try reflexivity.
      unfold error_code_result.
      destruct (truthy s && negb (String.eqb s "0")); [|reflexivity].
      now rewrite Hs.
Qed.

Lemma check_errors_result_witness :
  fst (LAN.check_errors (lan_ready ("E12" ++ LF) [])) = Raise ValueError.
Proof.
  pose proof (check_errors_result LAN.rx LAN.query
                (lan_ready ("E12" ++ LF) [])
                (snd (LAN.query "*ERR?" (lan_ready ("E12" ++ LF) [])))
                (Some "E12")) as H.
  assert (Hq : LAN.query "*ERR?" (lan_ready ("E12" ++ LF) [])
               = (Return (Some "E12"),
                  snd (LAN.query "*ERR?" (lan_ready ("E12" ++ LF) []))))
    by (vm_compute; reflexivity).
  destruct (H Hq) as [_ [Hconv _]].
  unfold LAN.check_errors.
  rewrite (Hconv "E12" eq_refl); [reflexivity | discriminate | discriminate].
Defined.

End CheckErrorsClaims.

(* ================================================================== *)
(** * Connecting *)

Section ConnectClaims.

(** In the Ready state the identity query does reach the instrument and
    brings back its identity string. *)
Lemma lan_identity_query_when_ready :
  fst (LAN.query "*IDN?" (lan_ready ("APS,M2000,1234,1.0" ++ LF) []))
  = Return (Some "APS,M2000,1234,1.0")
  /\ PyStr.contains "APS" "APS,M2000,1234,1.0" = true.
Proof. split; vm_compute; reflexivity. Qed.

(** C1 (the code departs from the claim).  On a client whose
    [self.connected] is still [False] -- every client before its first
    successful [connect] -- [connect] returns [False] whatever the
    instrument would answer: the first [send_command('*RST')] raises
    "Not connected to M2000", which [connect] catches.  Nothing is written
    to the transport and [self.connected] stays [False].  This holds for
    the LAN, the RS-232 and the USB client alike. *)
Theorem connect_never_reaches_ready :
  (forall c : LAN.t,
      connected c = false ->
      fst (LAN.connect c) = Return false
      /\ connected (snd (LAN.connect c)) = false
      /\ written (snd (LAN.connect c)) = written c)
  /\ (forall c : RS232.t,
         connected c = false ->
         fst (RS232.connect c) = Return false
         /\ connected (snd (RS232.connect c)) = false
         /\ written (snd (RS232.connect c)) = written c)
  /\ (forall (fuel device_index : nat) (c : USB.t),
         connected c = false ->
         fst (USB.connect fuel device_index c) = Return false
         /\ connected (snd (USB.connect fuel device_index c)) = false
         /\ written (snd (USB.connect fuel device_index c)) = written c).
Proof.
  split; [|split].
  - intros [h cn tmo po wr sl os dv ws inc nw tk]; simpl; intros ->.
    unfold LAN.connect, try_except, bind, modify, LAN.socket_connect, gets.
    simpl. destruct os as [e|]; simpl; auto.
  - intros [h cn tmo po wr sl os dv ws inc nw tk]; simpl; intros ->.
    unfold RS232.connect, try_except, bind, RS232.serial_open, transport_open,
      modify. simpl.
    destruct os as [e|]; simpl; auto.
  - intros fuel device_index [h cn tmo po wr sl os dv ws inc nw tk]; simpl;
      intros ->.
    unfold USB.connect, try_except, bind, gets. simpl.
    destruct (dv =? 0)%nat; [simpl; auto|].
    destruct (dv <=? device_index)%nat; [simpl; auto|].
    unfold USB.device_open, transport_open, bind, modify. simpl.
    destruct os as [e|]; simpl; auto.
Qed.

(** The failing input of C1: a fresh LAN client whose transport opens
    and whose instrument is ready to answer [*IDN?] with
    "APS,M2000,1234,1.0". *)
Lemma connect_never_reaches_ready_witness :
  fst (LAN.connect (fresh 5%float None 0%nat []
                          (lan_bytes ("APS,M2000,1234,1.0" ++ LF)) []))
  = Return false
  /\ connected (snd (LAN.connect (fresh 5%float None 0%nat []
                          (lan_bytes ("APS,M2000,1234,1.0" ++ LF)) [])))
     = false
  /\ written (snd (LAN.connect (fresh 5%float None 0%nat []
                          (lan_bytes ("APS,M2000,1234,1.0" ++ LF)) [])))
     = written (fresh 5%float None 0%nat []
                      (lan_bytes ("APS,M2000,1234,1.0" ++ LF)) []).
Proof.
  apply (proj1 connect_never_reaches_ready
               (fresh 5%float None 0%nat []
                      (lan_bytes ("APS,M2000,1234,1.0" ++ LF)) [])).
  reflexivity.
Defined.

End ConnectClaims.

(* ================================================================== *)
(** * Frame properties of the transport operations *)

Lemma bind_return {S A B : Type} (m : M S A) (k : A -> M S B) (s s' : S) (a : A) :
  m s = (Return a, s') -> bind m k s = k a s'.
Proof. intros H. unfold bind. now rewrite H. Qed.

Lemma bind_raise {S A B : Type} (m : M S A) (k : A -> M S B) (s s' : S) (e : exn) :
  m s = (Raise e, s') -> bind m k s = (Raise e, s').
Proof. intros H. unfold bind. now rewrite H. Qed.

Lemma bind_out_of_fuel {S A B : Type} (m : M S A) (k : A -> M S B) (s s' : S) :
  m s = (OutOfFuel, s') -> bind m k s = (OutOfFuel, s').
Proof. intros H. unfold bind. now rewrite H. Qed.

Section LinkFacts.
Context {R : Type}.

Lemma same_link_refl (c : client R) : same_link c c.
Proof. unfold same_link; auto. Qed.

Lemma same_link_trans (c1 c2 c3 : client R) :
  same_link c1 c2 -> same_link c2 c3 -> same_link c1 c3.
Proof.
  unfold same_link; intros (a1 & a2 & a3 & a4 & a5) (b1 & b2 & b3 & b4 & b5).
  repeat split; congruence.
Qed.

Lemma same_link_usable (c c' : client R) :
  same_link c c' -> usable c -> usable c'.
Proof.
  unfold same_link, usable; intros (a1 & a2 & a3 & a4 & a5) (b1 & b2 & b3 & b4).
  repeat split; congruence.
Qed.

Lemma time_time_link (c : client R) : same_link c (snd (time_time c)).
Proof.
  unfold time_time, same_link. destruct (ticks c); simpl; auto.
Qed.

Lemma time_sleep_link (d : float) (c : client R) :
  same_link c (snd (time_sleep d c)).
Proof.
  unfold time_sleep. destruct (sleep_error d); unfold raise, modify, same_link;
    simpl; auto.
Qed.

Lemma time_time_returns (c : client R) :
  exists t, fst (time_time c) = Return t.
Proof. unfold time_time. destruct (ticks c); simpl; eauto. Qed.


End LinkFacts.

(* ================================================================== *)
(** * What each client's [query] writes *)

Section QueryWire.

(** On a usable client a command goes out in one piece, or not at all
    when it does not encode. *)
Lemma lan_send_usable (cmd : string) (c : LAN.t) :
  usable c ->
  LAN.send_command cmd c
  = if is_ascii_text (cmd ++ LF)
    then (Return tt, set_written (written c ++ [(cmd ++ LF)%string])%list c)
    else (Raise UnicodeEncodeError, c).
Proof.
  intros (Hc & Hh & Hp & Hw).
  unfold LAN.send_command, LAN.not_ready, bind, gets, try_except, encode_ascii,
    transport_write, ret, raise.
  rewrite Hc, Hh. cbn [negb orb].
  destruct (is_ascii_text (cmd ++ LF)); [|reflexivity].
  rewrite Hp, Hw. reflexivity.
Qed.

Lemma lan_read_response_link (c : LAN.t) :
  same_link c (snd (LAN.read_response c)).
Proof.
  destruct c as [h cn tmo po wr sl os dv ws inc nw tk].
  unfold LAN.read_response, LAN.not_ready, bind, gets, try_except, ret, raise,
    same_link; simpl.
  destruct (negb cn || negb h); simpl; [auto|].
  destruct po; simpl; [|auto].
  destruct (LAN.recv_until_lf inc EmptyString) as [[a|e|] rest];
    [| destruct e |]; simpl; auto.
Qed.

Lemma lan_query_issues : issues LAN.query lan_wire.
Proof.
  intros cmd c Hu. unfold LAN.query, bind, lan_wire.
  rewrite (lan_send_usable cmd c Hu).
  destruct (is_ascii_text (cmd ++ LF)).
  - set (c1 := set_written (written c ++ [(cmd ++ LF)%string])%list c).
    pose proof (lan_read_response_link c1) as Hl.
    assert (Hu1 : usable c1)
      by (destruct Hu as (Hc & Hh & Hp & Hw); unfold usable, c1; simpl; auto).
    split; [exact (proj1 Hl) | exact (same_link_usable _ _ Hl Hu1)].
  - cbn [snd]. split; [now rewrite app_nil_r | exact Hu].
Qed.

Lemma rs232_send_usable (cmd : string) (c : RS232.t) :
  usable c ->
  RS232.send_command cmd c
  = if is_ascii_text (rs232_framed cmd)
    then (Return tt, set_written (written c ++ [rs232_framed cmd])%list c)
    else (Raise UnicodeEncodeError, c).
Proof.
  destruct c as [h cn tmo po wr sl os dv ws inc nw tk].
  intros (Hc & Hh & Hp & Hw). simpl in Hc, Hh, Hp, Hw. subst.
  unfold RS232.send_command, RS232.guard, bind, gets, try_except, encode_ascii,
    transport_write, transport_flush, ret, raise.
  fold (rs232_framed cmd). simpl.
  destruct (is_ascii_text (rs232_framed cmd)); reflexivity.
Qed.



Lemma usb_write_reports_ok (rs : list string) :
  forall c : USB.t,
    port_open c = true -> write_script c = [] ->
    USB.write_reports rs c = (Return tt, set_written (written c ++ rs)%list c).
Proof.
  induction rs as [|r rs IH];
    intros [h cn tmo po wr sl os dv ws inc nw tk] Hp Hw; simpl in *; subst.
  - unfold ret, set_written; simpl. now rewrite app_nil_r.
  - unfold bind, transport_write; simpl.
    rewrite IH by reflexivity. unfold set_written; simpl.
    now rewrite <- app_assoc.
Qed.




Lemma usb_send_usable (cmd : string) (c : USB.t) :
  usable c ->
  USB.send_command cmd c
  = if is_ascii_text (cmd ++ LF)
    then (Return tt,
          set_written
            (written c
             ++ USB.reports (List.length (list_ascii_of_string (cmd ++ LF)))
                            (list_ascii_of_string (cmd ++ LF)))%list c)
    else (Raise UnicodeEncodeError, c).
Proof.
  intros (Hc & Hh & Hp & Hw).
  unfold USB.send_command, USB.not_ready, bind, gets, try_except, encode_ascii,
    ret, raise.
  rewrite Hc, Hh. cbn [negb orb].
  destruct (is_ascii_text (cmd ++ LF)); [|reflexivity].
  rewrite (usb_write_reports_ok _ c Hp Hw). reflexivity.
Qed.


End QueryWire.

(* ================================================================== *)
(** * The shape of a run of a sampling loop *)

Section LoopShape.
Context {R : Type}.
Variable body : nat -> M (client R) loop_step.
Variable wire : string -> list string.
Variable command : string.

Hypothesis Hbody :
  forall (n : nat) (c : client R),
    usable c ->
    usable (snd (body n c))
    /\ ((fst (body n c) = Return Break /\ written (snd (body n c)) = written c)
        \/ (fst (body n c) <> Return Break
            /\ written (snd (body n c))
               = (written c
                  ++ wire (if (n =? 0)%nat then command else "REREAD?"))%list))
    /\ (forall n', fst (body n c) = Return (Continue n') -> (n <= n' <= S n)%nat).


End LoopShape.

(* ================================================================== *)
(** * The queries a sampling iteration issues *)

Section StreamFacts.
Import Codec.
Context {R : Type}.
Variable query : string -> M (client R) (option string).
Variable wire : string -> list string.
Hypothesis Hissues : issues query wire.

Lemma get_measurement_wire (channels parameters : list string) (c : client R) :
  usable c ->
  written (snd (get_measurement_via query channels parameters c))
  = (written c ++ wire (build_command channels parameters))%list.
Proof.
  intros Hu. unfold get_measurement_via, bind.
  destruct (Hissues (build_command channels parameters) c Hu) as [Hw _].
  destruct (query (build_command channels parameters) c) as [[r|e|] c1];
    simpl in *; exact Hw.
Qed.


Lemma get_measurement_state (channels parameters : list string) (c : client R) :
  snd (get_measurement_via query channels parameters c)
  = snd (query (build_command channels parameters) c).
Proof.
  unfold get_measurement_via, bind.
  destruct (query (build_command channels parameters) c) as [[r|e'|] c1];
    reflexivity.
Qed.


(** [stream_worker], first sample: the full request. *)
Lemma worker_first_sample (channels parameters : list string) (c : client R) :
  usable c ->
  written (snd (worker_acquire query channels parameters 0 c))
  = (written c ++ wire (build_command channels parameters))%list.
Proof. intros Hu. simpl. now apply get_measurement_wire. Qed.

(** [stream_worker], later samples, when [REREAD?] brings data: nothing
    else is sent. *)
Lemma worker_keeps_data (channels parameters : list string) (n : nat)
      (c : client R) (r : string) :
  usable c ->
  fst (query "REREAD?" c) = Return (Some r) -> r <> EmptyString ->
  written (snd (worker_acquire query channels parameters (S n) c))
  = (written c ++ wire "REREAD?")%list.
Proof.
  intros Hu Hr Hne. unfold worker_acquire. simpl. unfold try_except, bind.
  destruct (Hissues "REREAD?" c Hu) as [Hw _].
  destruct (query "REREAD?" c) as [o c1]; simpl in Hr, Hw; subst o.
  rewrite (truthy_nonempty r Hne). simpl. exact Hw.
Qed.






End StreamFacts.

Section StreamClaims.
Import Codec.

(** The duration test of the RS-232 loop: the clock is read only when
    [duration] is positive. *)
Lemma rs232_duration_test (duration start : float) (c : RS232.t) :
  exists stop,
    (if (0 <? duration)%float
     then bind time_time
               (fun checked => ret (duration <? checked - start)%float)
     else ret false) c
    = (Return stop,
       if (0 <? duration)%float then snd (time_time c) else c)
    /\ ((0 <? duration)%float = false -> stop = false).
Proof.
  destruct (0 <? duration)%float.
  - unfold bind. destruct (time_time_returns c) as [t0 Ht0].
    destruct (time_time c) as [o c1]; cbn [fst snd] in Ht0 |- *; subst o.
    eexists. split; [reflexivity | discriminate].
  - exists false. split; reflexivity.
Qed.


Lemma rs232_iteration_tail_link (rate : float) (n : nat) (a : option string)
      (c : RS232.t) :
  same_link c
    (snd (bind (if truthy_opt a
                then bind time_time (fun _ => ret (S n))
                else ret n)
               (fun sample_count' =>
                  bind (py_truediv 1%float rate)
                       (fun period =>
                          bind (time_sleep period)
                               (fun _ => ret (Continue sample_count')))) c))
  /\ forall step,
      fst (bind (if truthy_opt a
                 then bind time_time (fun _ => ret (S n))
                 else ret n)
                (fun sample_count' =>
                   bind (py_truediv 1%float rate)
                        (fun period =>
                           bind (time_sleep period)
                                (fun _ => ret (Continue sample_count')))) c)
      = Return step ->
      step = Continue (if truthy_opt a then S n else n).
Proof.
  assert (Hrest : forall (m : nat) (c0 : RS232.t),
             same_link c0
               (snd (bind (py_truediv 1%float rate)
                          (fun period =>
                             bind (time_sleep period)
                                  (fun _ => ret (Continue m))) c0))
             /\ forall step,
                 fst (bind (py_truediv 1%float rate)
                           (fun period =>
                              bind (time_sleep period)
                                   (fun _ => ret (Continue m))) c0)
                 = Return step -> step = Continue m).
  { intros m c0. unfold bind, py_truediv.
    destruct (rate =? 0)%float; cbn [raise ret fst snd].
    - split; [apply same_link_refl | intros n' H; discriminate H].
    - pose proof (time_sleep_link (1 / rate)%float c0) as Hs.
      destruct (time_sleep (1 / rate)%float c0) as [[u|e|] c1]; cbn [fst snd] in Hs |- *;
        (split; [exact Hs|]); intros n' H; try discriminate H.
      now inversion H. }
  destruct (truthy_opt a).
  - pose proof (time_time_link c) as H1.
    destruct (time_time_returns c) as [t1 Ht1].
    destruct (time_time c) as [o c1] eqn:Ht; cbn [fst snd] in Ht1, H1; subst o.
    assert (E : forall K : nat -> M RS232.t loop_step,
               bind (bind time_time (fun _ => ret (S n))) K c = K (S n) c1).
    { intros K. unfold bind. rewrite Ht. reflexivity. }
    rewrite E. cbv beta.
    destruct (Hrest (S n) c1) as [Hl Hc].
    split; [exact (same_link_trans _ _ _ H1 Hl) | exact Hc].
  - assert (E : forall K : nat -> M RS232.t loop_step, bind (ret n) K c = K n c)
      by reflexivity.
    rewrite E. cbv beta. apply Hrest.
Qed.







End StreamClaims.

(* ================================================================== *)
(** * The sleep at the end of an iteration *)

Section PacingClaims.

(** An iteration of the LAN and USB [stream_data], executed step by
    step: the clock is read at the start ([t0]), the query returns, the
    clock is read again ([t1]), and the iteration sleeps for
    [max(0, 1/rate - (t1 - t0))] when that is positive -- unless
    [time.sleep] refuses the argument. *)
Lemma stream_iteration_paced {R : Type}
      (query : string -> M (client R) (option string))
      (command : string) (duration rate start : float) (n : nat)
      (c c1 c2 c3 : client R) (t0 t1 : float) (response : option string) :
  time_time c = (Return t0, c1) ->
  ((0 <? duration)%float && (duration <? t0 - start)%float) = false ->
  query (if (n =? 0)%nat then command else "REREAD?") c1 = (Return response, c2) ->
  time_time c2 = (Return t1, c3) ->
  stream_iteration query command duration rate start n c
  = if (rate =? 0)%float then (Raise ZeroDivisionError, c3)
    else if (0 <? py_max0 (1 / rate - (t1 - t0)))%float
    then match sleep_error (py_max0 (1 / rate - (t1 - t0))) with
         | Some e => (Raise e, c3)
         | None =>
             (Return (Continue (if truthy_opt response then S n else n)),
              set_slept (slept c3 ++ [py_max0 (1 / rate - (t1 - t0))%float])%list c3)
         end
    else (Return (Continue (if truthy_opt response then S n else n)), c3).
Proof.
  intros Ht0 Hcheck Hq Ht1.
  unfold stream_iteration. rewrite (bind_return _ _ _ _ _ Ht0). rewrite Hcheck.
  assert (Heq : (if (n =? 0)%nat then query command else query "REREAD?")
                = query (if (n =? 0)%nat then command else "REREAD?"))
    by (destruct (n =? 0)%nat; reflexivity).
  rewrite Heq, (bind_return _ _ _ _ _ Hq).
  unfold pace, bind. rewrite Ht1. cbv beta iota.
  unfold py_truediv. destruct (rate =? 0)%float; [reflexivity|].
  unfold ret at 1. cbv beta iota.
  destruct (0 <? py_max0 (1 / rate - (t1 - t0)))%float; [|reflexivity].
  unfold time_sleep. destruct (sleep_error _); reflexivity.
Qed.

(** The same for the RS-232 client: the clock is read at the start only
    for the duration test, and the sleep is [1/rate], whatever the clock
    says. *)
Lemma rs232_iteration_fixed_sleep
      (command : string) (duration rate start : float) (n : nat)
      (c c0 c2 : RS232.t) (t0 : float) (response : option string) :
  time_time c = (Return t0, c0) ->
  ((0 <? duration)%float && (duration <? t0 - start)%float) = false ->
  RS232.query (if (n =? 0)%nat then command else "REREAD?")
              (if (0 <? duration)%float then c0 else c)
  = (Return response, c2) ->
  let c3 := if truthy_opt response then snd (time_time c2) else c2 in
  RS232.stream_iteration command duration rate start n c
  = if (rate =? 0)%float then (Raise ZeroDivisionError, c3)
    else match sleep_error (1 / rate) with
         | Some e => (Raise e, c3)
         | None =>
             (Return (Continue (if truthy_opt response then S n else n)),
              set_slept (slept c3 ++ [(1 / rate)%float])%list c3)
         end.
Proof.
  intros Ht0 Hcheck Hq c3. subst c3.
  unfold RS232.stream_iteration.
  assert (Htest : (if (0 <? duration)%float
                   then bind time_time
                             (fun checked => ret (duration <? checked - start)%float)
                   else ret false) c
                  = (Return false, if (0 <? duration)%float then c0 else c)).
  { destruct (0 <? duration)%float.
    - rewrite (bind_return _ _ _ _ _ Ht0). cbn [andb] in Hcheck.
      rewrite Hcheck. reflexivity.
    - reflexivity. }
  rewrite (bind_return _ _ _ _ _ Htest).
  assert (Heq : (if (n =? 0)%nat then RS232.query command
                 else RS232.query "REREAD?")
                = RS232.query (if (n =? 0)%nat then command else "REREAD?"))
    by (destruct (n =? 0)%nat; reflexivity).
  rewrite Heq, (bind_return _ _ _ _ _ Hq).
  unfold py_truediv.
  destruct (truthy_opt response).
  - destruct (time_time_returns c2) as [t1 Ht1].
    destruct (time_time c2) as [o c3] eqn:Ht; cbn [fst snd] in Ht1 |- *; subst o.
    unfold bind. rewrite Ht. cbv beta iota. unfold ret at 1. cbv beta iota.
    destruct (rate =? 0)%float; [reflexivity|].
    unfold ret at 1. cbv beta iota.
    unfold time_sleep. destruct (sleep_error _); reflexivity.
  - unfold bind. unfold ret at 1. cbv beta iota.
    destruct (rate =? 0)%float; [reflexivity|].
    unfold ret at 1. cbv beta iota.
    unfold time_sleep. destruct (sleep_error _); reflexivity.
Qed.

(** In an iteration of the RS-232 [stream_data] at 1 Hz the clock
    advances by half a second while the query is served; the iteration
    then sleeps a full second, where [max(0, 1/rate - elapsed)] is half a
    second. *)
Lemma rs232_sleep_ignores_elapsed :
  slept (snd (RS232.stream_iteration "READ? V:CH1" 10 1 0 0
                (rs232_ready [RS232.RxBytes ("230.4" ++ CRLF)] [0; 0.5]%float)))
  = [1%float]
  /\ now (snd (RS232.stream_iteration "READ? V:CH1" 10 1 0 0
                (rs232_ready [RS232.RxBytes ("230.4" ++ CRLF)] [0; 0.5]%float)))
     = 0.5%float
  /\ py_max0 (1 / 1 - (0.5 - 0)) = 0.5%float
  /\ (1 =? 0.5)%float = false.
Proof. repeat split; vm_compute; reflexivity. Qed.

(** C6 (the code departs from the claim).  The RS-232 client's
    [stream_data] does not measure its iterations: for every non-zero
    [sample_rate], an iteration whose query returns ends with
    [time.sleep(1 / sample_rate)], whatever time the iteration took; the
    clock is read at its start only when [duration] is positive, for the
    duration test.  The LAN and USB clients do what the claim says: an
    iteration whose query returns reads the clock at its own start and,
    at its end, sleeps for [max(0, 1/sample_rate - elapsed)], where
    [elapsed] is the time from that start to the end of processing, with
    no call of [time.sleep] when this is 0.  In the three clients
    [sample_rate = 0] raises [ZeroDivisionError], and a sleep length that
    [time.sleep] refuses (too large in LAN and USB; negative, NaN or too
    large in RS-232) raises out of the iteration. *)
Theorem iteration_sleep :
  (forall (command : string) (duration rate start : float) (n : nat)
          (c c0 c2 : RS232.t) (t0 : float) (response : option string),
      time_time c = (Return t0, c0) ->
      ((0 <? duration)%float && (duration <? t0 - start)%float) = false ->
      RS232.query (if (n =? 0)%nat then command else "REREAD?")
                  (if (0 <? duration)%float then c0 else c)
      = (Return response, c2) ->
      let c3 := if truthy_opt response then snd (time_time c2) else c2 in
      RS232.stream_iteration command duration rate start n c
      = if (rate =? 0)%float then (Raise ZeroDivisionError, c3)
        else match sleep_error (1 / rate) with
             | Some e => (Raise e, c3)
             | None =>
                 (Return (Continue (if truthy_opt response then S n else n)),
                  set_slept (slept c3 ++ [(1 / rate)%float])%list c3)
             end)
  /\ (forall (R : Type) (query : string -> M (client R) (option string))
             (command : string) (duration rate start : float) (n : nat)
             (c c1 c2 c3 : client R) (t0 t1 : float) (response : option string),
         time_time c = (Return t0, c1) ->
         ((0 <? duration)%float && (duration <? t0 - start)%float) = false ->
         query (if (n =? 0)%nat then command else "REREAD?") c1
         = (Return response, c2) ->
         time_time c2 = (Return t1, c3) ->
         stream_iteration query command duration rate start n c
         = if (rate =? 0)%float then (Raise ZeroDivisionError, c3)
           else if (0 <? py_max0 (1 / rate - (t1 - t0)))%float
           then match sleep_error (py_max0 (1 / rate - (t1 - t0))) with
                | Some e => (Raise e, c3)
                | None =>
                    (Return (Continue (if truthy_opt response then S n else n)),
                     set_slept
                       (slept c3 ++ [py_max0 (1 / rate - (t1 - t0))%float])%list c3)
                end
           else (Return (Continue (if truthy_opt response then S n else n)), c3))
  /\ (sleep_error (1 / 5 - (0.05 - 0)) = None
      /\ sleep_error (1 / -1) = Some ValueError
      /\ sleep_error (1 / nan) = Some ValueError
      /\ sleep_error (1 / 0.0000000001) = Some OverflowError
      /\ py_max0 (1 / -1 - 0) = 0%float
      /\ py_max0 (1 / nan - 0) = 0%float)
  /\ (slept (snd (RS232.stream_iteration "READ? V:CH1" 10 1 0 0
                    (rs232_ready [RS232.RxBytes ("230.4" ++ CRLF)]
                                 [0; 0.5]%float)))
      = [1%float]
      /\ now (snd (RS232.stream_iteration "READ? V:CH1" 10 1 0 0
                     (rs232_ready [RS232.RxBytes ("230.4" ++ CRLF)]
                                  [0; 0.5]%float)))
         = 0.5%float
      /\ py_max0 (1 / 1 - (0.5 - 0)) = 0.5%float).
Proof.
  split; [|split; [|split]].
  - apply rs232_iteration_fixed_sleep.
  - intros R. apply stream_iteration_paced.
  - repeat split; vm_compute; reflexivity.
  - repeat split; vm_compute; reflexivity.
Qed.

(** The failing input of C6: an RS-232 iteration at 1 Hz during which
    the clock advances by half a second sleeps a full second. *)
Lemma iteration_sleep_witness :
  slept (snd (RS232.stream_iteration "READ? V:CH1" 10 1 0 0
                (rs232_ready [RS232.RxBytes ("230.4" ++ CRLF)] [0; 0.5]%float)))
  = [(1 / 1)%float].
Proof.
  rewrite (proj1 iteration_sleep "READ? V:CH1" 10%float 1%float 0%float 0%nat
                 (rs232_ready [RS232.RxBytes ("230.4" ++ CRLF)] [0; 0.5]%float)
                 (snd (time_time
                         (rs232_ready [RS232.RxBytes ("230.4" ++ CRLF)]
                                      [0; 0.5]%float)))
                 (snd (RS232.query "READ? V:CH1"
                         (snd (time_time
                                 (rs232_ready [RS232.RxBytes ("230.4" ++ CRLF)]
                                              [0; 0.5]%float)))))
                 0%float (Some "230.4")).
  - vm_compute. reflexivity.
  - vm_compute. reflexivity.
  - vm_compute. reflexivity.
  - vm_compute. reflexivity.
Defined.

End PacingClaims.

(* ================================================================== *)
(** * Disconnecting *)

Section DisconnectClaims.

(** The LAN client's [disconnect] never raises and always drops the
    socket attribute. *)
Lemma lan_disconnect_returns (c : LAN.t) :
  fst (LAN.disconnect c) = Return tt
  /\ (handle c = true ->
      handle (snd (LAN.disconnect c)) = false
      /\ connected (snd (LAN.disconnect c)) = false).
Proof.
  destruct c as [h cn tmo po wr sl os dv ws inc nw tk].
  unfold LAN.disconnect, try_finally, try_except, bind, gets, modify,
    LAN.send_command, LAN.not_ready, transport_write, transport_close; simpl.
  destruct h; simpl; [|split; [reflexivity | discriminate]].
  destruct cn; simpl; [|auto].
  destruct po; simpl; [|auto].
  destruct ws as [|[|e|] ws]; simpl; auto.
  destruct e; simpl; auto.
Qed.

(** When the client never reached Ready, the LAN [disconnect] closes the
    socket. *)
Lemma lan_disconnect_closes_unready (c : LAN.t) :
  handle c = true -> connected c = false ->
  port_open (snd (LAN.disconnect c)) = false.
Proof.
  destruct c as [h cn tmo po wr sl os dv ws inc nw tk]; simpl.
  intros -> ->. reflexivity.
Qed.

Lemma usb_write_reports_terminates (rs : list string) :
  forall c : USB.t, fst (USB.write_reports rs c) <> OutOfFuel.
Proof.
  induction rs as [|r rs IH]; intros c; simpl; [discriminate|].
  unfold bind, transport_write.
  destruct (port_open c); simpl; [|discriminate].
  destruct (write_script c) as [|[|e|] later]; simpl;
    try discriminate; apply IH.
Qed.

Lemma usb_send_command_terminates (command : string) (c : USB.t) :
  fst (USB.send_command command c) <> OutOfFuel.
Proof.
  unfold USB.send_command, USB.not_ready, bind, gets, try_except, encode_ascii,
    ret, raise; cbn [fst snd].
  destruct (negb (connected c) || negb (handle c)); cbn [fst snd];
    [discriminate|].
  destruct (is_ascii_text (command ++ LF)); cbn [fst snd]; [|discriminate].
  pose proof (usb_write_reports_terminates
                (USB.reports (List.length (list_ascii_of_string (command ++ LF)))
                             (list_ascii_of_string (command ++ LF))) c) as H.
  destruct (USB.write_reports _ c) as [[u|e|] c1]; cbn [fst snd] in *;
    [discriminate | discriminate | exact H].
Qed.

(** When the LAN client is Ready and the write of [LOCAL] fails, the
    exception is suppressed, and [self.socket.close()] is skipped with it:
    the socket is dereferenced without having been closed. *)
Lemma lan_disconnect_local_failure :
  fst (LAN.disconnect
         (set_write_script [TxRaise OSError] (lan_ready EmptyString [])))
  = Return tt
  /\ handle (snd (LAN.disconnect
                    (set_write_script [TxRaise OSError] (lan_ready EmptyString []))))
     = false
  /\ port_open (snd (LAN.disconnect
                       (set_write_script [TxRaise OSError]
                                         (lan_ready EmptyString []))))
     = true.
Proof. repeat split; vm_compute; reflexivity. Qed.

(** The USB client's [disconnect] never raises and always drops the
    device attribute. *)
Lemma usb_disconnect_returns (c : USB.t) :
  fst (USB.disconnect c) = Return tt
  /\ (handle c = true ->
      handle (snd (USB.disconnect c)) = false
      /\ connected (snd (USB.disconnect c)) = false).
Proof.
  destruct (handle c) eqn:Hh.
  - unfold USB.disconnect, try_finally, try_except, bind, gets, modify.
    rewrite Hh. simpl.
    destruct (connected c); simpl.
    + pose proof (usb_send_command_terminates "LOCAL" c) as Hterm.
      destruct (USB.send_command "LOCAL" c) as [[u|e|] c1]; simpl in *; auto.
      now elim Hterm.
    + auto.
  - unfold USB.disconnect, bind, gets. rewrite Hh. simpl.
    split; [reflexivity | discriminate].
Qed.

(** When the client never reached Ready, the USB [disconnect] closes the
    device. *)
Lemma usb_disconnect_closes_unready (c : USB.t) :
  handle c = true -> connected c = false ->
  port_open (snd (USB.disconnect c)) = false.
Proof.
  destruct c as [h cn tmo po wr sl os dv ws inc nw tk]; simpl.
  intros -> ->. reflexivity.
Qed.

(** C3 (the code departs from the claim).  On an RS-232 client whose
    port was opened but which never reached Ready -- the state [connect]
    leaves behind when the identity check fails -- [disconnect] raises
    "Not connected to M2000" out of its unguarded
    [send_command('LOCAL')], and the serial port is left open. *)
Theorem rs232_disconnect_raises_when_never_ready :
  forall c : RS232.t,
    handle c = true -> port_open c = true -> connected c = false ->
    RS232.disconnect c = (Raise (Exception "Not connected to M2000"), c)
    /\ port_open (snd (RS232.disconnect c)) = true.
Proof.
  intros [h cn tmo po wr sl os dv ws inc nw tk]; simpl.
  intros -> -> ->. split; reflexivity.
Qed.

(** The failing input of C3: the client after a [connect] on a port that
    opens and an instrument that answers. *)
Lemma rs232_disconnect_raises_when_never_ready_witness :
  RS232.disconnect
    (snd (RS232.connect
            (fresh 1%float None 0%nat []
                   [RS232.RxBytes ("APS,M2000,1234,1.0" ++ CRLF)] [])))
  = (Raise (Exception "Not connected to M2000"),
     snd (RS232.connect
            (fresh 1%float None 0%nat []
                   [RS232.RxBytes ("APS,M2000,1234,1.0" ++ CRLF)] [])))
  /\ port_open
       (snd (RS232.disconnect
               (snd (RS232.connect
                       (fresh 1%float None 0%nat []
                              [RS232.RxBytes ("APS,M2000,1234,1.0" ++ CRLF)] [])))))
     = true.
Proof.
  apply (rs232_disconnect_raises_when_never_ready
           (snd (RS232.connect
                   (fresh 1%float None 0%nat []
                          [RS232.RxBytes ("APS,M2000,1234,1.0" ++ CRLF)] []))));
    reflexivity.
Defined.

End DisconnectClaims.

(* ================================================================== *)
(** * Reads that run into the timeout *)

Section ReadClaims.

Lemma try_except_ret_never_raises {S A : Type} (body : M S A) (a : A) (s : S)
      (e : exn) :
  fst (try_except body (fun _ => ret a) s) <> Raise e.
Proof.
  unfold try_except. destruct (body s) as [[x|e'|] s']; simpl; discriminate.
Qed.

(** C9 (the code departs from the claim).  In the Ready state the USB
    client's [read_response] never raises: the "Read timeout" exception
    its loop raises is caught by the [except Exception] of the same
    method, which returns [None].  The RS-232 client's [read_response]
    never raises either: a [read_until] that timed out hands back what
    had arrived, and the method returns it (cut by two characters) as a
    normal value.  Only the LAN client raises "Read timeout". *)
Theorem read_timeout_is_swallowed :
  (forall (fuel : nat) (c : USB.t) (e : exn),
      fst (USB.read_response fuel (ready c)) <> Raise e)
  /\ fst (bind time_time (fun start => USB.read_loop 10 start EmptyString)
               usb_silent)
     = Raise (Exception "Read timeout")
  /\ fst (USB.read_response 10 usb_silent) = Return None
  /\ (forall (c : RS232.t) (e : exn),
         fst (RS232.read_response (ready c)) <> Raise e)
  /\ fst (RS232.read_response (rs232_ready [] [])) = Return (Some EmptyString)
  /\ fst (RS232.read_response (rs232_ready [RS232.RxBytes "230.45"] []))
     = Return (Some "230.")
  /\ fst (LAN.read_response (lan_ready EmptyString []))
     = Raise (Exception "Read timeout").
Proof.
  split; [|split; [|split; [|split; [|split; [|split]]]]];
    try (vm_compute; reflexivity).
  - intros fuel c e.
    unfold USB.read_response, USB.not_ready, bind, gets, ready. simpl.
    apply try_except_ret_never_raises.
  - intros c e.
    unfold RS232.read_response, RS232.guard, bind, gets, ready. simpl.
    apply try_except_ret_never_raises.
Qed.

End ReadClaims.


(* ================================================================== *)
(** * Further properties: the readiness guard and the life cycle *)

Section GuardFacts.

(** X1.  On a client whose [self.connected] is [False], [send_command],
    [read_response], [query], [check_errors] and [get_measurement] raise
    "Not connected to M2000" and leave the client and its transport
    untouched: nothing is written and nothing is read.  This holds for
    the three clients. *)
Theorem not_connected_is_rejected :
  (forall (c : LAN.t) (cmd : string) (channels parameters : list string),
      connected c = false ->
      LAN.send_command cmd c = (Raise (Exception "Not connected to M2000"), c)
      /\ LAN.read_response c = (Raise (Exception "Not connected to M2000"), c)
      /\ LAN.query cmd c = (Raise (Exception "Not connected to M2000"), c)
      /\ LAN.check_errors c = (Raise (Exception "Not connected to M2000"), c)
      /\ LAN.get_measurement channels parameters c
         = (Raise (Exception "Not connected to M2000"), c))
  /\ (forall (c : RS232.t) (cmd : string) (channels parameters : list string),
         connected c = false ->
         RS232.send_command cmd c = (Raise (Exception "Not connected to M2000"), c)
         /\ RS232.read_response c = (Raise (Exception "Not connected to M2000"), c)
         /\ RS232.query cmd c = (Raise (Exception "Not connected to M2000"), c)
         /\ RS232.check_errors c = (Raise (Exception "Not connected to M2000"), c)
         /\ RS232.get_measurement channels parameters c
            = (Raise (Exception "Not connected to M2000"), c))
  /\ (forall (fuel : nat) (c : USB.t) (cmd : string)
             (channels parameters : list string),
         connected c = false ->
         USB.send_command cmd c = (Raise (Exception "Not connected to M2000"), c)
         /\ USB.read_response fuel c
            = (Raise (Exception "Not connected to M2000"), c)
         /\ USB.query fuel cmd c = (Raise (Exception "Not connected to M2000"), c)
         /\ USB.check_errors fuel c
            = (Raise (Exception "Not connected to M2000"), c)
         /\ USB.get_measurement fuel channels parameters c
            = (Raise (Exception "Not connected to M2000"), c)).
Proof.
  split; [|split].
  - intros [h cn tmo po wr sl os dv ws inc nw tk] cmd channels parameters.
    simpl. intros ->. repeat split; reflexivity.
  - intros [h cn tmo po wr sl os dv ws inc nw tk] cmd channels parameters.
    simpl. intros ->. repeat split; reflexivity.
  - intros fuel [h cn tmo po wr sl os dv ws inc nw tk] cmd channels parameters.
    simpl. intros ->. repeat split; reflexivity.
Qed.

Lemma not_connected_is_rejected_witness :
  LAN.send_command "*IDN?" (fresh 5%float None 0%nat [] [] [])
  = (Raise (Exception "Not connected to M2000"), fresh 5%float None 0%nat [] [] [])
  /\ LAN.read_response (fresh 5%float None 0%nat [] [] [])
     = (Raise (Exception "Not connected to M2000"), fresh 5%float None 0%nat [] [] [])
  /\ LAN.query "*IDN?" (fresh 5%float None 0%nat [] [] [])
     = (Raise (Exception "Not connected to M2000"), fresh 5%float None 0%nat [] [] [])
  /\ LAN.check_errors (fresh 5%float None 0%nat [] [] [])
     = (Raise (Exception "Not connected to M2000"), fresh 5%float None 0%nat [] [] [])
  /\ LAN.get_measurement ["CH1"] ["V"] (fresh 5%float None 0%nat [] [] [])
     = (Raise (Exception "Not connected to M2000"),
        fresh 5%float None 0%nat [] [] []).
Proof.
  apply (proj1 not_connected_is_rejected (fresh 5%float None 0%nat [] [] [])
               "*IDN?" ["CH1"] ["V"]).
  reflexivity.
Defined.

(** X2.  A LAN or USB client that was never opened ([self.socket] /
    [self.device] is [None], nothing open, not connected) can go through
    [connect()] and then [disconnect()] whatever the environment does:
    [disconnect] returns normally, the attribute is [None] again, the
    transport that [connect] opened is closed, and nothing was written.
    A USB [connect] with no device, or with a device index out of range,
    opens nothing at all. *)
Theorem connect_disconnect_releases :
  (forall c : LAN.t,
      handle c = false -> connected c = false -> port_open c = false ->
      fst (LAN.disconnect (snd (LAN.connect c))) = Return tt
      /\ handle (snd (LAN.disconnect (snd (LAN.connect c)))) = false
      /\ connected (snd (LAN.disconnect (snd (LAN.connect c)))) = false
      /\ port_open (snd (LAN.disconnect (snd (LAN.connect c)))) = false
      /\ written (snd (LAN.disconnect (snd (LAN.connect c)))) = written c)
  /\ (forall (fuel device_index : nat) (c : USB.t),
         handle c = false -> connected c = false -> port_open c = false ->
         fst (USB.disconnect (snd (USB.connect fuel device_index c))) = Return tt
         /\ handle (snd (USB.disconnect (snd (USB.connect fuel device_index c))))
            = false
         /\ connected (snd (USB.disconnect (snd (USB.connect fuel device_index c))))
            = false
         /\ port_open (snd (USB.disconnect (snd (USB.connect fuel device_index c))))
            = false
         /\ written (snd (USB.disconnect (snd (USB.connect fuel device_index c))))
            = written c)
  /\ (forall (fuel device_index : nat) (c : USB.t),
         (devices c <= device_index)%nat ->
         USB.connect fuel device_index c = (Return false, c)).
Proof.
  split; [|split].
  - intros [h cn tmo po wr sl os dv ws inc nw tk]; simpl. intros -> -> ->.
    unfold LAN.connect, try_except, bind, modify, LAN.socket_connect, gets.
    simpl. destruct os as [e|]; simpl; repeat split; reflexivity.
  - intros fuel device_index [h cn tmo po wr sl os dv ws inc nw tk]; simpl.
    intros -> -> ->.
    unfold USB.connect, try_except, bind, gets. simpl.
    destruct (dv =? 0)%nat; [simpl; repeat split; reflexivity|].
    destruct (dv <=? device_index)%nat; [simpl; repeat split; reflexivity|].
    unfold USB.device_open, transport_open, bind, modify. simpl.
    destruct os as [e|]; simpl; repeat split; reflexivity.
  - intros fuel device_index [h cn tmo po wr sl os dv ws inc nw tk]; simpl.
    intros Hle.
    unfold USB.connect, try_except, bind, gets. simpl.
    destruct (Nat.eqb_spec dv 0) as [->|Hnz]; [reflexivity|].
    destruct (Nat.leb_spec dv device_index) as [_|Hlt]; [reflexivity | lia].
Qed.

Lemma connect_disconnect_releases_witness :
  fst (LAN.disconnect
         (snd (LAN.connect (fresh 5%float (Some ConnectionRefusedError) 0%nat
                                  [] [] []))))
  = Return tt
  /\ handle (snd (LAN.disconnect
                    (snd (LAN.connect (fresh 5%float (Some ConnectionRefusedError)
                                             0%nat [] [] [])))))
     = false
  /\ connected (snd (LAN.disconnect
                       (snd (LAN.connect (fresh 5%float (Some ConnectionRefusedError)
                                                0%nat [] [] [])))))
     = false
  /\ port_open (snd (LAN.disconnect
                       (snd (LAN.connect (fresh 5%float (Some ConnectionRefusedError)
                                                0%nat [] [] [])))))
     = false
  /\ written (snd (LAN.disconnect
                     (snd (LAN.connect (fresh 5%float (Some ConnectionRefusedError)
                                              0%nat [] [] [])))))
     = written (fresh (R := LAN.rx) 5%float (Some ConnectionRefusedError)
                      0%nat [] [] []).
Proof.
  apply (proj1 connect_disconnect_releases
               (fresh 5%float (Some ConnectionRefusedError) 0%nat [] [] []));
    reflexivity.
Defined.

(** X3.  [disconnect] is idempotent: for the LAN and USB clients a second
    [disconnect] right after a first one does nothing and returns; for
    the RS-232 client the same holds whenever the first one returned. *)
Theorem disconnect_twice :
  (forall c : LAN.t,
      LAN.disconnect (snd (LAN.disconnect c))
      = (Return tt, snd (LAN.disconnect c)))
  /\ (forall c : USB.t,
         USB.disconnect (snd (USB.disconnect c))
         = (Return tt, snd (USB.disconnect c)))
  /\ (forall c : RS232.t,
         fst (RS232.disconnect c) = Return tt ->
         RS232.disconnect (snd (RS232.disconnect c))
         = (Return tt, snd (RS232.disconnect c))).
Proof.
  split; [|split].
  - intros c. destruct (handle c) eqn:Hh.
    + destruct (lan_disconnect_returns c) as [_ Hafter].
      destruct (Hafter Hh) as [Hh' _].
      unfold LAN.disconnect at 1. unfold bind, gets. now rewrite Hh'.
    + assert (Hsame : LAN.disconnect c = (Return tt, c))
        by (unfold LAN.disconnect, bind, gets; now rewrite Hh).
      rewrite Hsame. exact Hsame.
  - intros c. destruct (handle c) eqn:Hh.
    + destruct (usb_disconnect_returns c) as [_ Hafter].
      destruct (Hafter Hh) as [Hh' _].
      unfold USB.disconnect at 1. unfold bind, gets. now rewrite Hh'.
    + assert (Hsame : USB.disconnect c = (Return tt, c))
        by (unfold USB.disconnect, bind, gets; now rewrite Hh).
      rewrite Hsame. exact Hsame.
  - assert (Hstep : forall c0 : RS232.t,
               RS232.disconnect c0
               = if handle c0 && port_open c0
                 then bind (RS232.send_command "LOCAL")
                           (fun _ => bind transport_close
                                          (fun _ => modify (set_connected false)))
                           c0
                 else (Return tt, c0)).
    { intros c0. unfold RS232.disconnect, bind at 1 2, gets.
      destruct (handle c0 && port_open c0); reflexivity. }
    intros c Hret. rewrite (Hstep c) in Hret |- *.
    destruct (handle c && port_open c) eqn:Hho.
    + unfold bind, transport_close, modify in Hret |- *.
      destruct (RS232.send_command "LOCAL" c) as [[u|e|] c1];
        cbn [fst snd] in Hret |- *; try discriminate Hret.
      rewrite Hstep. cbn [port_open set_connected set_port_open].
      now rewrite andb_false_r.
    + cbn [snd]. now rewrite Hstep, Hho.
Qed.

Lemma disconnect_twice_witness :
  RS232.disconnect
    (snd (RS232.disconnect (rs232_ready [] [])))
  = (Return tt, snd (RS232.disconnect (rs232_ready [] []))).
Proof.
  apply (proj2 (proj2 disconnect_twice) (rs232_ready [] [])).
  reflexivity.
Defined.

End GuardFacts.

(* ================================================================== *)
(** * Further properties: framing of the LAN replies *)

Section LanFraming.

Lemma lan_bytes_cons (c : ascii) (s : string) :
  lan_bytes (String c s) = LAN.RxByte c :: lan_bytes s.
Proof. reflexivity. Qed.

Lemma recv_byte (b : ascii) (later : list LAN.rx) (acc : string) :
  LAN.recv_until_lf (LAN.RxByte b :: later) acc
  = if (128 <=? nat_of_ascii b)%nat then (Raise ValueError, later)
    else if Ascii.eqb b (ascii_of_nat 10) then (Return (Some acc), later)
    else if Ascii.eqb b (ascii_of_nat 13) then LAN.recv_until_lf later acc
    else LAN.recv_until_lf later (acc ++ String b EmptyString).
Proof. reflexivity. Qed.

(** The receive loop on the characters of a line, up to whatever ends it. *)
Lemma recv_text (s : string) :
  forall (acc : string) (tail : list LAN.rx),
    is_ascii_text s = true ->
    has_char (ascii_of_nat 10) s = false ->
    LAN.recv_until_lf (lan_bytes s ++ tail)%list acc
    = LAN.recv_until_lf tail (acc ++ without_cr s).
Proof.
  induction s as [|c s IH]; intros acc tail Hascii Hlf.
  - simpl. now rewrite append_empty_r.
  - rewrite lan_bytes_cons.
    change ((LAN.RxByte c :: lan_bytes s) ++ tail)%list
      with (LAN.RxByte c :: (lan_bytes s ++ tail))%list.
    rewrite recv_byte.
    rewrite is_ascii_text_cons in Hascii. rewrite has_char_cons in Hlf.
    apply andb_true_iff in Hascii. destruct Hascii as [Hc Hs].
    apply orb_false_iff in Hlf. destruct Hlf as [Hnl Hrest].
    apply Nat.ltb_lt in Hc.
    destruct (Nat.leb_spec 128 (nat_of_ascii c)) as [Hbad|_]; [lia|].
    rewrite Hnl.
    change (without_cr (String c s))
      with (if Ascii.eqb c (ascii_of_nat 13) then without_cr s
            else String c (without_cr s)).
    destruct (Ascii.eqb c (ascii_of_nat 13)).
    + now apply IH.
    + rewrite IH by assumption. now rewrite append_snoc.
Qed.

(** X4.  On a Ready LAN client, [read_response] consumes exactly one
    line: when the instrument has sent the 7-bit text [s] (free of line
    feeds) followed by a line feed, the method returns [s] without its
    carriage returns and leaves everything after the line feed pending
    for the next read.  When the peer closes the connection instead of
    sending the line feed, the text received so far is returned as a
    normal response.  When the instrument goes silent before the line
    feed, the method raises "Read timeout" and the partial text is lost. *)
Theorem lan_read_one_line :
  forall (c : LAN.t) (s : string) (rest : list LAN.rx),
    connected c = true -> handle c = true -> port_open c = true ->
    is_ascii_text s = true ->
    has_char (ascii_of_nat 10) s = false ->
    (incoming c = (lan_bytes s ++ LAN.RxByte (ascii_of_nat 10) :: rest)%list ->
     LAN.read_response c = (Return (Some (without_cr s)), set_incoming rest c))
    /\ (incoming c = (lan_bytes s ++ LAN.RxClosed :: rest)%list ->
        LAN.read_response c = (Return (Some (without_cr s)), set_incoming rest c))
    /\ (incoming c = lan_bytes s ->
        LAN.read_response c
        = (Raise (Exception "Read timeout"), set_incoming [] c)).
Proof.
  intros [h cn tmo po wr sl os dv ws inc nw tk] s rest.
  cbn [connected handle port_open incoming].
  intros -> -> -> Hascii Hlf.
  unfold LAN.read_response, LAN.not_ready, bind, gets, try_except.
  cbn [connected handle port_open incoming negb orb ret fst snd].
  split; [|split]; intros ->.
  - rewrite (recv_text s EmptyString _ Hascii Hlf). reflexivity.
  - rewrite (recv_text s EmptyString _ Hascii Hlf). reflexivity.
  - rewrite <- (app_nil_r (lan_bytes s)).
    rewrite (recv_text s EmptyString [] Hascii Hlf). reflexivity.
Qed.

Lemma lan_read_one_line_witness :
  LAN.read_response (lan_ready ("230.45" ++ CRLF ++ "1.2" ++ LF) [])
  = (Return (Some (without_cr ("230.45" ++ String (ascii_of_nat 13) EmptyString))),
     set_incoming (lan_bytes ("1.2" ++ LF))
                  (lan_ready ("230.45" ++ CRLF ++ "1.2" ++ LF) [])).
Proof.
  apply (proj1 (lan_read_one_line
                  (lan_ready ("230.45" ++ CRLF ++ "1.2" ++ LF) [])
                  ("230.45" ++ String (ascii_of_nat 13) EmptyString)
                  (lan_bytes ("1.2" ++ LF))
                  eq_refl eq_refl eq_refl eq_refl eq_refl)).
  reflexivity.
Defined.

Lemma recv_keeps_clean (pending : list LAN.rx) :
  forall (acc r : string) (rest : list LAN.rx),
    LAN.recv_until_lf pending acc = (Return (Some r), rest) ->
    has_char (ascii_of_nat 13) acc = false ->
    has_char (ascii_of_nat 10) acc = false ->
    is_ascii_text acc = true ->
    has_char (ascii_of_nat 13) r = false
    /\ has_char (ascii_of_nat 10) r = false
    /\ is_ascii_text r = true.
Proof.
  induction pending as [|x pending IH]; intros acc r rest Hrun Hcr Hlf Hascii.
  - discriminate Hrun.
  - destruct x as [b| |e].
    + rewrite recv_byte in Hrun.
      destruct (Nat.leb_spec 128 (nat_of_ascii b)) as [_|Hsmall];
        [discriminate Hrun|].
      destruct (Ascii.eqb b (ascii_of_nat 10)) eqn:Hnl.
      * inversion Hrun; subst. auto.
      * destruct (Ascii.eqb b (ascii_of_nat 13)) eqn:Hret.
        -- exact (IH _ _ _ Hrun Hcr Hlf Hascii).
        -- apply (IH _ _ _ Hrun).
           ++ rewrite has_char_app, Hcr, has_char_cons, Hret. reflexivity.
           ++ rewrite has_char_app, Hlf, has_char_cons, Hnl. reflexivity.
           ++ rewrite is_ascii_text_app, Hascii, is_ascii_text_cons.
              apply Nat.ltb_lt in Hsmall. rewrite Hsmall. reflexivity.
    + inversion Hrun; subst. auto.
    + discriminate Hrun.
Qed.

(** X5.  Whatever arrives on the socket, a response that the LAN
    [read_response] returns contains neither a carriage return nor a line
    feed, and only 7-bit characters. *)
Theorem lan_response_has_no_line_breaks :
  forall (c : LAN.t) (r : string),
    fst (LAN.read_response c) = Return (Some r) ->
    has_char (ascii_of_nat 13) r = false
    /\ has_char (ascii_of_nat 10) r = false
    /\ is_ascii_text r = true.
Proof.
  intros c r.
  unfold LAN.read_response, LAN.not_ready, bind, gets, try_except, ret.
  cbn [fst snd].
  destruct (negb (connected c) || negb (handle c)); [discriminate|].
  destruct (port_open c); cbn [negb fst]; [|discriminate].
  destruct (LAN.recv_until_lf (incoming c) EmptyString) as [o rest] eqn:Hrun.
  destruct o as [a|e|]; cbn [fst].
  - intros Ha. inversion Ha; subst.
    exact (recv_keeps_clean _ _ _ _ Hrun eq_refl eq_refl eq_refl).
  - destruct e; cbn [fst]; discriminate.
  - discriminate.
Qed.

Lemma lan_response_has_no_line_breaks_witness :
  has_char (ascii_of_nat 13) "230.45" = false
  /\ has_char (ascii_of_nat 10) "230.45" = false
  /\ is_ascii_text "230.45" = true.
Proof.
  apply (lan_response_has_no_line_breaks
           (lan_ready ("230.45" ++ CRLF) []) "230.45").
  reflexivity.
Defined.

End LanFraming.

(* ================================================================== *)
(** * Further properties: the HID reports of the USB client *)

Section UsbFraming.

Lemma string_of_list_length (l : list ascii) :
  String.length (string_of_list_ascii l) = List.length l.
Proof. induction l as [|x l IH]; simpl; [reflexivity | now rewrite IH]. Qed.

Lemma reports_nil (fuel : nat) : USB.reports fuel [] = [].
Proof. destruct fuel; reflexivity. Qed.

Lemma reports_step (fuel : nat) (b : ascii) (bytes : list ascii) :
  USB.reports (S fuel) (b :: bytes)
  = USB.report_of (firstn 63 (b :: bytes))
    :: USB.reports fuel (skipn 63 (b :: bytes)).
Proof. reflexivity. Qed.

Lemma report_of_shape (chunk : list ascii) :
  (List.length chunk <= 63)%nat ->
  String.length (USB.report_of chunk) = 64%nat
  /\ list_ascii_of_string (USB.report_of chunk)
     = (USB.NUL :: chunk ++ repeat USB.NUL (63 - List.length chunk))%list.
Proof.
  intros Hlen. unfold USB.report_of.
  rewrite string_of_list_length, list_ascii_of_string_of_list_ascii.
  replace (64 - List.length chunk - 1)%nat with (63 - List.length chunk)%nat by lia.
  split; [|reflexivity].
  cbn [List.length]. rewrite length_app, repeat_length. lia.
Qed.

(** The payloads of the reports, put end to end, are the bytes to send
    followed by fewer than 63 padding zeros. *)
Lemma reports_payload (fuel : nat) :
  forall bytes : list ascii,
    (List.length bytes <= fuel)%nat ->
    Forall (fun r => String.length r = 64%nat
                     /\ hd USB.NUL (list_ascii_of_string r) = USB.NUL)
           (USB.reports fuel bytes)
    /\ exists k : nat,
        (k < 63)%nat
        /\ List.concat (map (fun r => tl (list_ascii_of_string r)) (USB.reports fuel bytes))
           = (bytes ++ repeat USB.NUL k)%list
        /\ (List.length (USB.reports fuel bytes) * 63
            = List.length bytes + k)%nat.
Proof.
  induction fuel as [|fuel IH]; intros bytes Hlen.
  - destruct bytes; [|simpl in Hlen; lia].
    split; [constructor|]. exists 0%nat. repeat split; lia.
  - destruct bytes as [|b bytes].
    + split; [constructor|]. exists 0%nat. repeat split; lia.
    + rewrite reports_step.
      set (all := (b :: bytes)%list) in *.
      assert (Hfirst : (List.length (firstn 63 all) <= 63)%nat)
        by (rewrite length_firstn; lia).
      destruct (report_of_shape (firstn 63 all) Hfirst) as [H64 Hbytes].
      assert (Hrest : (List.length (skipn 63 all) <= fuel)%nat).
      { rewrite length_skipn. unfold all in *. simpl in Hlen |- *. lia. }
      destruct (IH (skipn 63 all) Hrest) as [Hall [k [Hk [Hcat Hcount]]]].
      split.
      { constructor; [|exact Hall]. split; [exact H64|]. now rewrite Hbytes. }
      assert (Hall_len : (1 <= List.length all)%nat) by (unfold all; simpl; lia).
      destruct (Nat.le_gt_cases (List.length all) 63) as [Hshort|Hlong].
      * exists (63 - List.length all)%nat.
        assert (Hf : firstn 63 all = all) by (now apply firstn_all2).
        assert (Hs : skipn 63 all = []) by (now apply skipn_all2).
        rewrite Hf in Hbytes |- *. rewrite Hs, reports_nil.
        cbn [map List.concat List.length]. rewrite Hbytes.
        cbn [tl]. rewrite app_nil_r.
        repeat split; lia.
      * exists k. split; [exact Hk|]. split.
        -- cbn [map List.concat]. rewrite Hbytes. cbn [tl].
           rewrite length_firstn.
           replace (63 - Nat.min 63 (List.length all))%nat with 0%nat by lia.
           cbn [repeat]. rewrite app_nil_r, Hcat, app_assoc, firstn_skipn.
           reflexivity.
        -- cbn [List.length]. rewrite length_skipn in Hcount. lia.
Qed.

(** X6.  On a usable USB client, [send_command] writes an ASCII command
    and its line feed as HID reports of exactly 64 bytes, each starting
    with the report-ID byte 0; the 63-byte payloads of these reports, put
    end to end, are the command bytes followed by fewer than 63 zeros, so
    the number of reports is the byte count divided by 63, rounded up.  A
    command with a character above 127 is not sent: the encoding raises
    [UnicodeEncodeError] out of the method and nothing is written. *)
Theorem usb_send_command_reports :
  forall (c : USB.t) (cmd : string),
    usable c ->
    (is_ascii_text cmd = true ->
     forall rs : list string,
       rs = USB.reports (List.length (list_ascii_of_string (cmd ++ LF)))
                        (list_ascii_of_string (cmd ++ LF)) ->
       USB.send_command cmd c
       = (Return tt, set_written (written c ++ rs)%list c)
       /\ Forall (fun r => String.length r = 64%nat
                           /\ hd USB.NUL (list_ascii_of_string r) = USB.NUL)
                 rs
       /\ exists k : nat,
           (k < 63)%nat
           /\ List.concat (map (fun r => tl (list_ascii_of_string r)) rs)
              = (list_ascii_of_string (cmd ++ LF) ++ repeat USB.NUL k)%list
           /\ (List.length rs * 63
               = List.length (list_ascii_of_string (cmd ++ LF)) + k)%nat)
    /\ (is_ascii_text cmd = false ->
        USB.send_command cmd c = (Raise UnicodeEncodeError, c)).
Proof.
  intros c cmd Hu.
  assert (Henc : is_ascii_text (cmd ++ LF) = is_ascii_text cmd).
  { rewrite is_ascii_text_app. change (is_ascii_text LF) with true.
    now rewrite andb_true_r. }
  pose proof (usb_send_usable cmd c Hu) as Hsend. rewrite Henc in Hsend.
  split.
  - intros Hascii rs ->. rewrite Hascii in Hsend. split; [exact Hsend|].
    apply reports_payload. lia.
  - intros Hbad. now rewrite Hbad in Hsend.
Qed.

Lemma usb_send_command_reports_witness :
  USB.send_command "*IDN?" usb_silent
  = (Return tt,
     set_written
       (written usb_silent
        ++ USB.reports (List.length (list_ascii_of_string ("*IDN?" ++ LF)))
                       (list_ascii_of_string ("*IDN?" ++ LF)))%list
       usb_silent)
  /\ Forall (fun r => String.length r = 64%nat
                      /\ hd USB.NUL (list_ascii_of_string r) = USB.NUL)
            (USB.reports (List.length (list_ascii_of_string ("*IDN?" ++ LF)))
                         (list_ascii_of_string ("*IDN?" ++ LF)))
  /\ exists k : nat,
      (k < 63)%nat
      /\ List.concat
           (map (fun r => tl (list_ascii_of_string r))
                (USB.reports (List.length (list_ascii_of_string ("*IDN?" ++ LF)))
                             (list_ascii_of_string ("*IDN?" ++ LF))))
         = (list_ascii_of_string ("*IDN?" ++ LF) ++ repeat USB.NUL k)%list
      /\ (List.length
            (USB.reports (List.length (list_ascii_of_string ("*IDN?" ++ LF)))
                         (list_ascii_of_string ("*IDN?" ++ LF))) * 63
          = List.length (list_ascii_of_string ("*IDN?" ++ LF)) + k)%nat.
Proof.
  apply (proj1 (usb_send_command_reports usb_silent "*IDN?"
                  (conj eq_refl (conj eq_refl (conj eq_refl eq_refl))))).
  - reflexivity.
  - reflexivity.
Defined.

End UsbFraming.

Section UsbReassembly.

Lemma str_app_assoc (a b c : string) :
  ((a ++ b) ++ c)%string = (a ++ b ++ c)%string.
Proof. induction a as [|x a IH]; simpl; [reflexivity | now rewrite IH]. Qed.

Lemma codes_cons (c : ascii) (s : string) :
  codes (String c s) = Z.of_nat (nat_of_ascii c) :: codes s.
Proof. reflexivity. Qed.

Lemma codes_length (s : string) : List.length (codes s) = String.length s.
Proof.
  induction s as [|c s IH]; [reflexivity|].
  rewrite codes_cons. simpl. now rewrite IH.
Qed.

Lemma printable_cons (c : ascii) (s : string) :
  printable (String c s)
  = (32 <=? nat_of_ascii c)%nat && (nat_of_ascii c <=? 126)%nat && printable s.
Proof. reflexivity. Qed.

Lemma scan_cons (byte_val : Z) (rest : list Z) (response : string) :
  USB.scan_report (byte_val :: rest) response
  = if byte_val =? 0 then USB.Unfinished response
    else if byte_val =? 10 then USB.Finished response
    else if byte_val =? 13 then USB.scan_report rest response
    else if (32 <=? byte_val) && (byte_val <=? 126)
         then USB.scan_report rest
                (response ++ String (ascii_of_nat (Z.to_nat byte_val)) EmptyString)
         else USB.Unfinished response.
Proof. reflexivity. Qed.

(** Scanning the printable characters of a chunk appends them. *)
Lemma scan_text (s : string) :
  forall (response : string) (rest : list Z),
    printable s = true ->
    USB.scan_report (codes s ++ rest)%list response
    = USB.scan_report rest (response ++ s).
Proof.
  induction s as [|c s IH]; intros response rest Hp.
  - simpl. now rewrite append_empty_r.
  - rewrite codes_cons.
    change ((Z.of_nat (nat_of_ascii c) :: codes s) ++ rest)%list
      with (Z.of_nat (nat_of_ascii c) :: (codes s ++ rest))%list.
    rewrite scan_cons.
    rewrite printable_cons in Hp.
    apply andb_true_iff in Hp. destruct Hp as [Hc Hs].
    apply andb_true_iff in Hc. destruct Hc as [Hlo Hhi].
    apply Nat.leb_le in Hlo. apply Nat.leb_le in Hhi.
    destruct (Z.eqb_spec (Z.of_nat (nat_of_ascii c)) 0) as [H0|_]; [lia|].
    destruct (Z.eqb_spec (Z.of_nat (nat_of_ascii c)) 10) as [H0|_]; [lia|].
    destruct (Z.eqb_spec (Z.of_nat (nat_of_ascii c)) 13) as [H0|_]; [lia|].
    destruct (Z.leb_spec 32 (Z.of_nat (nat_of_ascii c))) as [_|Hbad]; [|lia].
    destruct (Z.leb_spec (Z.of_nat (nat_of_ascii c)) 126) as [_|Hbad]; [|lia].
    cbn [andb].
    rewrite Nat2Z.id, ascii_nat_embedding, IH by exact Hs.
    now rewrite append_snoc.
Qed.

Lemma scan_padded (s : string) (response : string) (k : nat) :
  printable s = true ->
  USB.scan_report (codes s ++ repeat 0 k)%list response
  = USB.Unfinished (response ++ s).
Proof.
  intros Hp. rewrite scan_text by exact Hp.
  destruct k; reflexivity.
Qed.

Lemma scan_final (s : string) (response : string) (junk : list Z) :
  printable s = true ->
  USB.scan_report (codes s ++ 10 :: junk)%list response
  = USB.Finished (response ++ s).
Proof. intros Hp. rewrite scan_text by exact Hp. reflexivity. Qed.

Lemma time_time_reading (c : USB.t) (P : float -> Prop) :
  Forall P (readings c) ->
  exists (t : float) (c1 : USB.t),
    time_time c = (Return t, c1)
    /\ P t /\ Forall P (readings c1)
    /\ incoming c1 = incoming c /\ port_open c1 = port_open c
    /\ timeout c1 = timeout c
    /\ t = hd (now c) (ticks c).
Proof.
  unfold time_time, readings.
  destruct (ticks c) as [|t later] eqn:Hticks; intros HP.
  - exists (now c), c. rewrite Hticks.
    inversion HP; subst. repeat split; auto.
  - exists t, (set_clock t later c). cbn [ticks set_clock now].
    inversion HP; subst.
    repeat split; auto.
    destruct later; [constructor; [assumption | constructor] | assumption].
Qed.

Lemma read_loop_iter (fuel : nat) (start : float) (acc : string)
      (c c1 c2 : USB.t) (t : float) (g : USB.scan) :
  time_time c = (Return t, c1) ->
  (timeout c1 <? (t - start) * 1000)%float = false ->
  USB.poll acc c1 = (Return g, c2) ->
  USB.read_loop (S fuel) start acc c
  = match g with
    | USB.Finished r => (Return (Some r), c2)
    | USB.Unfinished r => USB.read_loop fuel start r c2
    end.
Proof.
  intros Ht Hlim Hpoll. cbn [USB.read_loop]. unfold bind at 1. rewrite Ht.
  cbv beta iota. unfold bind at 1, gets. cbv beta iota. rewrite Hlim.
  unfold bind at 1. rewrite Hpoll. cbv beta iota.
  destruct g; reflexivity.
Qed.

Lemma poll_report (acc : string) (c : USB.t) (report_id : Z) (payload : list Z)
      (later : list USB.rx) :
  port_open c = true ->
  incoming c = USB.RxReport (report_id :: payload) :: later ->
  USB.poll acc c = (Return (USB.scan_report payload acc), set_incoming later c).
Proof.
  intros Hp Hin.
  unfold USB.poll, try_except, bind, USB.device_read. rewrite Hp, Hin.
  reflexivity.
Qed.

Lemma text_reports_cons (chunk : string) (chunks : list string) :
  text_reports (chunk :: chunks)
  = USB.RxReport (0 :: codes chunk ++ repeat 0 (63 - String.length chunk))%list
    :: text_reports chunks.
Proof. reflexivity. Qed.

(** The read loop over a reply spread on several reports. *)
Lemma read_loop_chunks (limit : float) (chunks : list string) :
  forall (fuel : nat) (start : float) (acc : string) (c : USB.t)
         (last : string) (junk : list Z) (rest : list USB.rx),
    port_open c = true -> timeout c = limit ->
    (List.length chunks < fuel)%nat ->
    Forall (fun chunk => printable chunk = true) chunks ->
    printable last = true ->
    incoming c
    = (text_reports chunks ++ USB.RxReport (0 :: codes last ++ 10 :: junk) :: rest)%list ->
    Forall (fun t => (limit <? (t - start) * 1000)%float = false) (readings c) ->
    fst (USB.read_loop fuel start acc c) = Return (Some (acc ++ glue chunks ++ last))
    /\ incoming (snd (USB.read_loop fuel start acc c)) = rest.
Proof.
  induction chunks as [|chunk chunks IH];
    intros fuel start acc c last junk rest Hopen Hlim Hfuel Hprint Hlast Hin Hclock.
  - destruct fuel as [|fuel]; [simpl in Hfuel; lia|].
    destruct (time_time_reading c _ Hclock)
      as (t & c1 & Ht & Hpt & _ & Hin1 & Hopen1 & Hlim1 & _).
    rewrite Hin in Hin1. cbn [text_reports map app] in Hin1.
    rewrite Hopen in Hopen1.
    rewrite (read_loop_iter fuel start acc c c1 _ t _ Ht
               ltac:(rewrite Hlim1, Hlim; exact Hpt)
               (poll_report acc c1 0 _ _ Hopen1 Hin1)).
    rewrite scan_final by exact Hlast. split; reflexivity.
  - destruct fuel as [|fuel]; [simpl in Hfuel; lia|].
    destruct (time_time_reading c _ Hclock)
      as (t & c1 & Ht & Hpt & Hclock1 & Hin1 & Hopen1 & Hlim1 & _).
    rewrite Hin, text_reports_cons, <- app_comm_cons in Hin1.
    rewrite Hopen in Hopen1.
    apply Forall_cons_iff in Hprint. destruct Hprint as [Hchunk Hothers].
    rewrite (read_loop_iter fuel start acc c c1 _ t _ Ht
               ltac:(rewrite Hlim1, Hlim; exact Hpt)
               (poll_report acc c1 0 _ _ Hopen1 Hin1)).
    rewrite scan_padded by exact Hchunk.
    assert (Hgoal := IH fuel start (acc ++ chunk)%string
                        (set_incoming
                           (text_reports chunks
                            ++ USB.RxReport (0 :: codes last ++ 10 :: junk) :: rest)%list
                           c1)
                        last junk rest Hopen1 (eq_trans Hlim1 Hlim)
                        ltac:(simpl in Hfuel; lia) Hothers Hlast eq_refl
                        Hclock1).
    rewrite str_app_assoc in Hgoal.
    change (glue (chunk :: chunks)) with (chunk ++ glue chunks)%string.
    rewrite (str_app_assoc chunk). exact Hgoal.
Qed.

(** X7.  On a Ready USB client, [read_response] puts a reply back together
    across HID reports: when the reply arrives as printable text chunks,
    one per zero-padded report, the last chunk being followed by a line
    feed, and the clock stays within [self.timeout], the method returns
    the chunks joined in order (whatever follows the line feed in its
    report is dropped) and leaves the later reports pending. *)
Theorem usb_read_response_reassembles :
  forall (fuel : nat) (c : USB.t) (chunks : list string) (last : string)
         (junk : list Z) (rest : list USB.rx),
    connected c = true -> handle c = true -> port_open c = true ->
    (List.length chunks < fuel)%nat ->
    Forall (fun chunk => printable chunk = true) chunks ->
    printable last = true ->
    incoming c
    = (text_reports chunks ++ USB.RxReport (0 :: codes last ++ 10 :: junk) :: rest)%list ->
    on_time c ->
    fst (USB.read_response fuel c) = Return (Some (glue chunks ++ last))
    /\ incoming (snd (USB.read_response fuel c)) = rest.
Proof.
  intros fuel c chunks last junk rest Hc Hh Hopen Hfuel Hprint Hlast Hin Hclock.
  unfold USB.read_response, USB.not_ready, bind, gets, ret, try_except.
  cbv beta iota. rewrite Hc, Hh. cbn [negb orb].
  destruct (time_time_reading c _ Hclock)
    as (t & c1 & Ht & _ & Hclock1 & Hin1 & Hopen1 & Hlim1 & Hstart).
  rewrite Ht. cbv beta iota. rewrite <- Hstart in Hclock1.
  rewrite Hin in Hin1. rewrite Hopen in Hopen1.
  destruct (read_loop_chunks (timeout c) chunks fuel t EmptyString c1 last junk rest
              Hopen1 Hlim1 Hfuel Hprint Hlast Hin1 Hclock1) as [Hres Hleft].
  destruct (USB.read_loop fuel t EmptyString c1) as [o c2].
  simpl in Hres, Hleft. subst o. split; [reflexivity | exact Hleft].
Qed.

Lemma usb_read_response_reassembles_witness :
  fst (USB.read_response 5
         (ready (fresh 5000%float None 1%nat []
                       (text_reports ["APS,M2000"; ",1234"]
                        ++ [USB.RxReport (0 :: codes ",1.0" ++ 10 :: [65; 0])])%list
                       [0; 0.1; 0.2; 0.3]%float)))
  = Return (Some (glue ["APS,M2000"; ",1234"] ++ ",1.0"))
  /\ incoming (snd (USB.read_response 5
         (ready (fresh 5000%float None 1%nat []
                       (text_reports ["APS,M2000"; ",1234"]
                        ++ [USB.RxReport (0 :: codes ",1.0" ++ 10 :: [65; 0])])%list
                       [0; 0.1; 0.2; 0.3]%float))))
     = [].
Proof.
  apply (usb_read_response_reassembles 5
           (ready (fresh 5000%float None 1%nat []
                       (text_reports ["APS,M2000"; ",1234"]
                        ++ [USB.RxReport (0 :: codes ",1.0" ++ 10 :: [65; 0])])%list
                       [0; 0.1; 0.2; 0.3]%float))
           ["APS,M2000"; ",1234"] ",1.0" [65; 0] []).
  - reflexivity.
  - reflexivity.
  - reflexivity.
  - simpl. lia.
  - repeat constructor.
  - reflexivity.
  - reflexivity.
  - unfold on_time. repeat constructor; vm_compute; reflexivity.
Defined.

End UsbReassembly.

(* ================================================================== *)
(** * Further properties: termination bytes of the RS-232 client *)

Section SerialFraming.
Import PyStr.

Lemma list_ascii_app (a b : string) :
  list_ascii_of_string (a ++ b) = (list_ascii_of_string a ++ list_ascii_of_string b)%list.
Proof. induction a as [|x a IH]; simpl; [reflexivity | now rewrite IH]. Qed.

Lemma ends_with_crlf_app (s : string) : ends_with_crlf (s ++ CRLF) = true.
Proof.
  unfold ends_with_crlf. rewrite list_ascii_app, rev_app_distr. reflexivity.
Qed.

Lemma str_length_app (a b : string) :
  String.length (a ++ b) = (String.length a + String.length b)%nat.
Proof. induction a as [|x a IH]; simpl; [reflexivity | now rewrite IH]. Qed.

Lemma substring_prefix (a b : string) :
  String.substring 0 (String.length a) (a ++ b) = a.
Proof.
  induction a as [|x a IH]; simpl.
  - destruct b; reflexivity.
  - now rewrite IH.
Qed.

Lemma drop_last2_two (s : string) (a b : ascii) :
  drop_last2 (s ++ String a (String b EmptyString)) = s.
Proof.
  unfold drop_last2. rewrite str_length_app.
  replace (String.length s + String.length (String a (String b EmptyString)) - 2)%nat
    with (String.length s) by (simpl; lia).
  apply substring_prefix.
Qed.

(** ** ASCII text through the UTF-8 decoder *)

Lemma ascii_is_one_byte (c : ascii) :
  PyBytes.between 0 127 c = (nat_of_ascii c <? 128)%nat.
Proof. destruct c as [[] [] [] [] [] [] [] []]; reflexivity. Qed.

Lemma utf8_chars_ascii (b : ascii) (r : list ascii) :
  PyBytes.between 0 127 b = true ->
  PyBytes.utf8_chars (b :: r)
  = option_map (cons (String b EmptyString)) (PyBytes.utf8_chars r).
Proof.
  intros H.
  change (PyBytes.utf8_chars (b :: r))
    with (if PyBytes.between 0 127 b
          then option_map (cons (PyBytes.chr [b])) (PyBytes.utf8_chars r)
          else
            match r with
            | [] => None
            | b2 :: r2 =>
                if PyBytes.between 194 223 b then
                  if PyBytes.continuation b2
                  then option_map (cons (PyBytes.chr [b; b2])) (PyBytes.utf8_chars r2)
                  else None
                else
                  match r2 with
                  | [] => None
                  | b3 :: r3 =>
                      if PyBytes.lead3 b b2 then
                        if PyBytes.continuation b3
                        then option_map (cons (PyBytes.chr [b; b2; b3]))
                                        (PyBytes.utf8_chars r3)
                        else None
                      else
                        match r3 with
                        | [] => None
                        | b4 :: r4 =>
                            if PyBytes.lead4 b b2 && PyBytes.continuation b3
                               && PyBytes.continuation b4
                            then option_map (cons (PyBytes.chr [b; b2; b3; b4]))
                                            (PyBytes.utf8_chars r4)
                            else None
                        end
                  end
            end).
  rewrite H. reflexivity.
Qed.

(** ASCII bytes decode to themselves, one character per byte. *)
Lemma decode_utf8_ascii (s : string) :
  is_ascii_text s = true ->
  PyBytes.decode_utf8 s
  = Some (map (fun c => String c EmptyString) (list_ascii_of_string s)).
Proof.
  unfold PyBytes.decode_utf8.
  induction s as [|c s IH]; [reflexivity|].
  rewrite is_ascii_text_cons. intros H. apply andb_true_iff in H as [Hc Hs].
  cbn [list_ascii_of_string].
  rewrite utf8_chars_ascii by (now rewrite ascii_is_one_byte).
  rewrite (IH Hs). reflexivity.
Qed.

Lemma drop_last2_chars {A : Type} (l : list A) (a b : A) :
  firstn (List.length (l ++ [a; b]) - 2) (l ++ [a; b]) = l.
Proof.
  rewrite length_app. cbn [List.length].
  replace (List.length l + 2 - 2)%nat with (List.length l + 0)%nat by lia.
  rewrite firstn_app_2. cbn [firstn]. apply app_nil_r.
Qed.

Lemma one_char_is_semicolon (c : ascii) :
  String.eqb (String c EmptyString) ";" = Ascii.eqb c ";".
Proof. cbn [String.eqb]. destruct (Ascii.eqb c ";"); reflexivity. Qed.

Lemma replace_semicolon_chars (s : string) :
  PyBytes.replace_semicolon
    (map (fun c => String c EmptyString) (list_ascii_of_string s))
  = map (fun c => String c EmptyString)
        (list_ascii_of_string (replace_semicolon s)).
Proof.
  unfold PyBytes.replace_semicolon.
  induction s as [|c s IH]; [reflexivity|].
  cbn [list_ascii_of_string map flat_map replace_semicolon].
  rewrite one_char_is_semicolon, IH.
  destruct (Ascii.eqb c ";"); reflexivity.
Qed.

Lemma one_char_is_space (c : ascii) :
  PyBytes.is_space (String c EmptyString) = is_space c.
Proof. destruct c as [[] [] [] [] [] [] [] []]; reflexivity. Qed.

Lemma lstrip_chars_map {A B : Type} (f : A -> B) (p : B -> bool) (q : A -> bool)
      (l : list A) :
  (forall x, p (f x) = q x) ->
  lstrip_chars p (map f l) = map f (lstrip_chars q l).
Proof.
  intros H. induction l as [|x l IH]; [reflexivity|].
  cbn [map lstrip_chars]. rewrite H. destruct (q x); [exact IH | reflexivity].
Qed.

Lemma strip_chars_map {A B : Type} (f : A -> B) (p : B -> bool) (q : A -> bool)
      (l : list A) :
  (forall x, p (f x) = q x) ->
  strip_chars p (map f l) = map f (strip_chars q l).
Proof.
  intros H. unfold strip_chars.
  rewrite (lstrip_chars_map f p q l H), <- map_rev,
    (lstrip_chars_map f p q _ H), <- map_rev.
  reflexivity.
Qed.

Lemma str_of_chars (l : list ascii) :
  PyBytes.str_of (map (fun c => String c EmptyString) l) = string_of_list_ascii l.
Proof.
  unfold PyBytes.str_of. induction l as [|c l IH]; [reflexivity|].
  cbn [map fold_right string_of_list_ascii]. now rewrite IH.
Qed.

(** On ASCII bytes the reply is cut, rewritten and stripped byte by
    byte. *)
Lemma rs232_response_ascii (s : string) (a b : ascii) :
  is_ascii_text (s ++ String a (String b EmptyString)) = true ->
  exists text,
    PyBytes.decode_utf8 (s ++ String a (String b EmptyString)) = Some text
    /\ PyBytes.str_of
         (PyBytes.strip (PyBytes.replace_semicolon (PyBytes.drop_last2 text)))
       = strip (replace_semicolon s).
Proof.
  intros H. eexists. split; [apply (decode_utf8_ascii _ H)|].
  unfold PyBytes.drop_last2. rewrite length_map, firstn_map, list_ascii_app.
  change (list_ascii_of_string (String a (String b EmptyString))) with [a; b].
  rewrite drop_last2_chars, replace_semicolon_chars.
  unfold PyBytes.strip.
  rewrite (strip_chars_map _ PyBytes.is_space is_space _ one_char_is_space).
  rewrite str_of_chars. reflexivity.
Qed.

Lemma framed_is_ascii (cmd : string) :
  is_ascii_text (rs232_framed cmd) = is_ascii_text cmd.
Proof.
  unfold rs232_framed. destruct (ends_with_crlf cmd); [reflexivity|].
  rewrite is_ascii_text_app. change (is_ascii_text CRLF) with true.
  now rewrite andb_true_r.
Qed.

(** X8.  On a usable RS-232 client, [send_command] writes an ASCII
    command as one buffer that always ends with carriage return + line
    feed: the command followed by the two bytes, or the command as it is
    when it already ends with them, so that a command passed with its
    terminator is not terminated twice.  A command with a character
    above 127 is not sent: the encoding raises [UnicodeEncodeError] out
    of the method and nothing is written. *)
Theorem rs232_send_terminates_once :
  forall (c : RS232.t) (cmd : string),
    usable c ->
    (is_ascii_text cmd = true ->
     (exists buffer : string,
         RS232.send_command cmd c
         = (Return tt, set_written (written c ++ [buffer])%list c)
         /\ ends_with_crlf buffer = true
         /\ (buffer = cmd \/ buffer = (cmd ++ CRLF)%string))
     /\ RS232.send_command (cmd ++ CRLF) c
        = (Return tt, set_written (written c ++ [(cmd ++ CRLF)%string])%list c))
    /\ (is_ascii_text cmd = false ->
        RS232.send_command cmd c = (Raise UnicodeEncodeError, c)).
Proof.
  intros c cmd Hu. split.
  - intros Hascii. split.
    + exists (rs232_framed cmd). split; [|split].
      * rewrite (rs232_send_usable cmd c Hu), framed_is_ascii, Hascii.
        reflexivity.
      * unfold rs232_framed. destruct (ends_with_crlf cmd) eqn:He;
          [exact He | apply ends_with_crlf_app].
      * unfold rs232_framed. destruct (ends_with_crlf cmd); auto.
    + rewrite (rs232_send_usable (cmd ++ CRLF) c Hu), framed_is_ascii.
      unfold rs232_framed. rewrite ends_with_crlf_app.
      rewrite is_ascii_text_app, Hascii. reflexivity.
  - intros Hbad.
    rewrite (rs232_send_usable cmd c Hu), framed_is_ascii, Hbad. reflexivity.
Qed.

Lemma rs232_send_terminates_once_witness :
  (exists buffer : string,
      RS232.send_command "*IDN?" (rs232_ready [] [])
      = (Return tt,
         set_written (written (rs232_ready [] []) ++ [buffer])%list
                     (rs232_ready [] []))
      /\ ends_with_crlf buffer = true
      /\ (buffer = "*IDN?" \/ buffer = ("*IDN?" ++ CRLF)%string))
  /\ RS232.send_command ("*IDN?" ++ CRLF) (rs232_ready [] [])
     = (Return tt,
        set_written (written (rs232_ready [] []) ++ [("*IDN?" ++ CRLF)%string])%list
                    (rs232_ready [] [])).
Proof.
  apply (proj1 (rs232_send_terminates_once
                  (rs232_ready [] []) "*IDN?"
                  (conj eq_refl (conj eq_refl (conj eq_refl eq_refl))))).
  reflexivity.
Defined.

(** X9.  On a Ready RS-232 client, [read_response] decodes what
    [read_until] delivered as UTF-8, removes the last two characters,
    whatever they are, then turns every semicolon into a line break and
    strips the white space at both ends.  An ASCII reply ending in
    carriage return + line feed therefore comes back whole, while one
    ending in a bare line feed loses its last character.  Bytes that are
    not UTF-8 make the method return [None], and a character of several
    bytes is removed as one character. *)
Theorem rs232_read_trims_two :
  (forall (c : RS232.t) (s : string) (a b : ascii) (rest : list RS232.rx),
      connected c = true -> handle c = true -> port_open c = true ->
      is_ascii_text (s ++ String a (String b EmptyString)) = true ->
      incoming c = RS232.RxBytes (s ++ String a (String b EmptyString)) :: rest ->
      RS232.read_response c
      = (Return (Some (strip (replace_semicolon s))), set_incoming rest c))
  /\ (forall (c : RS232.t) (data : string) (rest : list RS232.rx),
         connected c = true -> handle c = true -> port_open c = true ->
         incoming c = RS232.RxBytes data :: rest ->
         PyBytes.decode_utf8 data = None ->
         RS232.read_response c = (Return None, set_incoming rest c))
  /\ PyBytes.decode_utf8 (String (ascii_of_nat 255) CRLF) = None
  /\ fst (RS232.read_response
            (rs232_ready
               [RS232.RxBytes
                  ("230" ++ String (ascii_of_nat 194)
                                   (String (ascii_of_nat 176) LF))] []))
     = Return (Some "230").
Proof.
  split; [|split; [|split]].
  - intros [h cn tmo po wr sl os dv ws inc nw tk] s a b rest.
    cbn [connected handle port_open incoming]. intros -> -> -> Hascii ->.
    destruct (rs232_response_ascii s a b Hascii) as [text [Hdec Hres]].
    unfold RS232.read_response, RS232.guard, RS232.read_until, bind, gets,
      try_except, ret, raise.
    cbn [connected handle port_open incoming negb].
    rewrite Hdec, Hres. reflexivity.
  - intros [h cn tmo po wr sl os dv ws inc nw tk] data rest.
    cbn [connected handle port_open incoming]. intros -> -> -> -> Hdec.
    unfold RS232.read_response, RS232.guard, RS232.read_until, bind, gets,
      try_except, ret, raise.
    cbn [connected handle port_open incoming negb].
    rewrite Hdec. reflexivity.
  - vm_compute. reflexivity.
  - vm_compute. reflexivity.
Qed.

Lemma rs232_read_trims_two_witness :
  RS232.read_response (rs232_ready [RS232.RxBytes ("230.45" ++ LF)] [])
  = (Return (Some (strip (replace_semicolon "230.4"))),
     set_incoming [] (rs232_ready [RS232.RxBytes ("230.45" ++ LF)] [])).
Proof.
  apply (proj1 rs232_read_trims_two
               (rs232_ready [RS232.RxBytes ("230.45" ++ LF)] [])
               "230.4" "5"%char (ascii_of_nat 10) []); reflexivity.
Defined.

End SerialFraming.

(* ================================================================== *)
(** * Further properties: the sampling loops as a whole *)

Section LoopFacts.
Import Codec.

(** X10.  An iteration of the web interface's [stream_worker] never
    raises, whatever the client's [query] does: [sample_count] goes up by
    one or stays (never down), and when obtaining the data raised, the
    count is unchanged and the iteration sleeps one second before the
    next attempt. *)
Theorem worker_iteration_is_contained :
  forall (R : Type) (query : string -> M (client R) (option string))
         (channels parameters : list string) (rate : float) (n : nat)
         (c : client R),
    (forall e, fst (worker_iteration query channels parameters rate n c) <> Raise e)
    /\ (forall m,
           fst (worker_iteration query channels parameters rate n c) = Return m ->
           (n <= m <= S n)%nat)
    /\ ((exists e, fst (worker_acquire query channels parameters n c) = Raise e) ->
        fst (worker_iteration query channels parameters rate n c) = Return n
        /\ slept (snd (worker_iteration query channels parameters rate n c))
           = (slept (snd (worker_acquire query channels parameters n c))
              ++ [1%float])%list).
Proof.
  intros R query channels parameters rate n c.
  assert (Hone : forall c0 : client R,
             time_sleep 1%float c0
             = (Return tt, set_slept (slept c0 ++ [1%float])%list c0))
    by (intros c0; reflexivity).
  unfold worker_iteration, bind, try_except.
  destruct (worker_acquire query channels parameters n c) as [[d|e|] c1];
    cbn [fst snd ret].
  - unfold py_truediv. destruct (rate =? 0)%float; cbn [raise ret fst snd].
    + rewrite Hone. cbn [fst snd].
      split; [intros e'; discriminate|].
      split; [intros m Hm; inversion Hm; subst; destruct (data_truthy d); lia|].
      intros [e' He]; discriminate He.
    + destruct (time_sleep (1 / rate)%float c1) as [[u|e|] c2]; cbn [fst snd].
      * split; [intros e; discriminate|].
        split; [intros m Hm; inversion Hm; subst; destruct (data_truthy d); lia|].
        intros [e He]; discriminate He.
      * rewrite Hone. cbn [fst snd].
        split; [intros e'; discriminate|].
        split; [intros m Hm; inversion Hm; subst; destruct (data_truthy d); lia|].
        intros [e' He]; discriminate He.
      * split; [intros e; discriminate|].
        split; [intros m Hm; discriminate Hm|].
        intros [e He]; discriminate He.
  - rewrite Hone. cbn [fst snd set_slept slept].
    split; [intros e'; discriminate|].
    split; [intros m Hm; inversion Hm; subst; lia|].
    intros _. split; reflexivity.
  - split; [intros e; discriminate|].
    split; [intros m Hm; discriminate Hm|].
    intros [e He]; discriminate He.
Qed.

Lemma worker_iteration_is_contained_witness :
  fst (worker_iteration LAN.query ["CH1"] ["V"] 2 1 (lan_ready EmptyString []))
  = Return 1%nat
  /\ slept (snd (worker_iteration LAN.query ["CH1"] ["V"] 2 1
                   (lan_ready EmptyString [])))
     = (slept (snd (worker_acquire LAN.query ["CH1"] ["V"] 1
                      (lan_ready EmptyString [])))
        ++ [1%float])%list.
Proof.
  apply (proj2 (proj2 (worker_iteration_is_contained
                         LAN.rx LAN.query ["CH1"] ["V"] 2%float 1%nat
                         (lan_ready EmptyString [])))).
  exists (Exception "Read timeout"). vm_compute. reflexivity.
Defined.

Lemma iteration_no_break {R : Type}
      (query : string -> M (client R) (option string))
      (command : string) (duration rate start : float) (n : nat) (c : client R) :
  (0 <? duration)%float = false ->
  fst (stream_iteration query command duration rate start n c) <> Return Break.
Proof.
  intros Hd. unfold stream_iteration, bind. rewrite Hd. cbn [andb].
  destruct (time_time c) as [[t|e|] c1]; cbn [fst]; try discriminate.
  destruct ((if (n =? 0)%nat then query command else query "REREAD?") c1)
    as [[a|e|] c2]; cbn [fst]; try discriminate.
  destruct (pace rate t c2) as [[u|e|] c3]; cbn [fst]; discriminate.
Qed.

Lemma rs232_iteration_no_break
      (command : string) (duration rate start : float) (n : nat) (c : RS232.t) :
  (0 <? duration)%float = false ->
  fst (RS232.stream_iteration command duration rate start n c) <> Return Break.
Proof.
  intros Hd. unfold RS232.stream_iteration.
  destruct (rs232_duration_test duration start c) as [stop [Htest Hstop]].
  rewrite (bind_return _ _ _ _ _ Htest). rewrite (Hstop Hd).
  destruct ((if (n =? 0)%nat then RS232.query command else RS232.query "REREAD?")
              (if (0 <? duration)%float then snd (time_time c) else c))
    as [[a|e|] c2] eqn:Hq;
    [rewrite (bind_return _ _ _ _ _ Hq)
    |rewrite (bind_raise _ _ _ _ _ Hq)
    |rewrite (bind_out_of_fuel _ _ _ _ Hq)]; cbn [fst]; try discriminate.
  destruct (rs232_iteration_tail_link rate n a c2) as [_ Hc].
  intros Hb. specialize (Hc _ Hb). discriminate Hc.
Qed.

Lemma while_true_no_break {S : Type} (body : nat -> M S loop_step) :
  (forall n s, fst (body n s) <> Return Break) ->
  forall (fuel n : nat) (s : S), fst (while_true fuel body n s) <> Return tt.
Proof.
  intros Hnb. induction fuel as [|fuel IH]; intros n s.
  - discriminate.
  - cbn [while_true]. unfold bind.
    pose proof (Hnb n s) as H.
    destruct (body n s) as [[step|e|] s1]; cbn [fst] in *; try discriminate.
    destruct step as [n'|]; [apply IH | now elim H].
Qed.

(** X11.  With [duration = 0] (or any duration that is not positive) the
    loop of [stream_data] never ends by itself: however many iterations
    are run, it has not returned -- it goes on until it is interrupted or
    an exception escapes.  This holds for the loop of the LAN and USB
    clients and for that of the RS-232 client. *)
Theorem stream_without_duration_never_returns :
  (forall (R : Type) (query : string -> M (client R) (option string))
          (fuel : nat) (command : string) (duration rate start : float)
          (n : nat) (c : client R),
      (0 <? duration)%float = false ->
      forall m, fst (stream_loop query fuel command duration rate start n c)
                <> Return m)
  /\ (forall (fuel : nat) (command : string) (duration rate start : float)
             (n : nat) (c : RS232.t),
         (0 <? duration)%float = false ->
         forall m, fst (RS232.stream_loop fuel command duration rate start n c)
                   <> Return m).
Proof.
  split.
  - intros R query fuel command duration rate start n c Hd [].
    apply while_true_no_break. intros n0 c0.
    now apply iteration_no_break.
  - intros fuel command duration rate start n c Hd [].
    apply while_true_no_break. intros n0 c0.
    now apply rs232_iteration_no_break.
Qed.

Lemma stream_without_duration_never_returns_witness :
  (0 <? 0)%float = false
  /\ fst (stream_loop LAN.query 3 "READ?,ch1:VOLTS:ACDC" 0 5 0 0
                      (lan_ready ("230.4" ++ LF ++ "230.5" ++ LF ++ "230.6" ++ LF)
                                 [0; 0.1; 0.2; 0.3; 0.4; 0.5]%float))
     <> Return tt.
Proof.
  split; [vm_compute; reflexivity|].
  apply (proj1 stream_without_duration_never_returns LAN.rx LAN.query 3%nat
               "READ?,ch1:VOLTS:ACDC" 0%float 5%float 0%float 0%nat
               (lan_ready ("230.4" ++ LF ++ "230.5" ++ LF ++ "230.6" ++ LF)
                          [0; 0.1; 0.2; 0.3; 0.4; 0.5]%float)).
  vm_compute. reflexivity.
Defined.

End LoopFacts.

Section WholeRun.
Import Codec.









End WholeRun.

Section WholeRunClaims.
Import Codec.



(** X13.  In the LAN client's [get_3phase_power], once the first
    [get_measurement] has returned -- even with no data -- the second one
    is sent as well: the transport receives the request for the five
    VPA quantities and then the request for the voltage and current of
    CH1..CH3.  The method returns a dictionary only when both replies
    decoded to non-empty dictionaries, and then it is the first one
    updated with the entries of the second, so its keys are the keys of
    both. *)
Theorem three_phase_queries :
  forall (c c1 : LAN.t) (vpa : string) (vpa_data : option dict),
    usable c ->
    LAN.get_measurement [vpa] ["W"; "VA"; "VAR"; "PF"; "FREQ"] c
    = (Return vpa_data, c1) ->
    written (snd (LAN.get_3phase_power vpa c))
    = (written c
       ++ [(build_command [vpa] ["W"; "VA"; "VAR"; "PF"; "FREQ"] ++ LF)%string;
           (build_command ["CH1"; "CH2"; "CH3"] ["V"; "A"] ++ LF)%string])%list
    /\ (forall d,
           fst (LAN.get_3phase_power vpa c) = Return (Some d) ->
           exists a b,
             vpa_data = Some a /\ a <> [] /\ b <> []
             /\ fst (LAN.get_measurement ["CH1"; "CH2"; "CH3"] ["V"; "A"] c1)
                = Return (Some b)
             /\ d = inserts b a
             /\ (forall k, In k (keys d) <-> In k (keys a) \/ In k (keys b))).
Proof.
  intros c c1 vpa vpa_data Hu Hfirst.
  pose proof (get_measurement_wire LAN.query lan_wire lan_query_issues
                [vpa] ["W"; "VA"; "VAR"; "PF"; "FREQ"] c Hu) as Hw1.
  pose proof (get_measurement_state LAN.query
                [vpa] ["W"; "VA"; "VAR"; "PF"; "FREQ"] c) as Hs1.
  assert (Hu1 : usable c1).
  { change (get_measurement_via LAN.query [vpa] ["W"; "VA"; "VAR"; "PF"; "FREQ"] c)
      with (LAN.get_measurement [vpa] ["W"; "VA"; "VAR"; "PF"; "FREQ"] c) in Hs1.
    rewrite Hfirst in Hs1. cbn [snd] in Hs1. rewrite Hs1.
    apply (lan_query_issues _ c Hu). }
  change (get_measurement_via LAN.query [vpa] ["W"; "VA"; "VAR"; "PF"; "FREQ"] c)
    with (LAN.get_measurement [vpa] ["W"; "VA"; "VAR"; "PF"; "FREQ"] c) in Hw1.
  rewrite Hfirst in Hw1. cbn [snd] in Hw1.
  pose proof (get_measurement_wire LAN.query lan_wire lan_query_issues
                ["CH1"; "CH2"; "CH3"] ["V"; "A"] c1 Hu1) as Hw2.
  change (get_measurement_via LAN.query ["CH1"; "CH2"; "CH3"] ["V"; "A"] c1)
    with (LAN.get_measurement ["CH1"; "CH2"; "CH3"] ["V"; "A"] c1) in Hw2.
  assert (Ha1 : lan_wire (build_command [vpa] ["W"; "VA"; "VAR"; "PF"; "FREQ"])
                = [(build_command [vpa] ["W"; "VA"; "VAR"; "PF"; "FREQ"]
                    ++ LF)%string]).
  { unfold lan_wire.
    destruct (is_ascii_text
                (build_command [vpa] ["W"; "VA"; "VAR"; "PF"; "FREQ"] ++ LF))
      eqn:E; [reflexivity|]. exfalso.
    pose proof (lan_send_usable
                  (build_command [vpa] ["W"; "VA"; "VAR"; "PF"; "FREQ"]) c Hu)
      as Hsend.
    rewrite E in Hsend.
    unfold LAN.get_measurement, get_measurement_via, LAN.query in Hfirst.
    rewrite (bind_raise _ _ _ _ _ (bind_raise _ _ _ _ _ Hsend)) in Hfirst.
    discriminate Hfirst. }
  assert (Ha2 : lan_wire (build_command ["CH1"; "CH2"; "CH3"] ["V"; "A"])
                = [(build_command ["CH1"; "CH2"; "CH3"] ["V"; "A"] ++ LF)%string])
    by reflexivity.
  rewrite Ha1 in Hw1. rewrite Ha2 in Hw2.
  unfold LAN.get_3phase_power, bind. rewrite Hfirst. cbv beta iota.
  destruct (LAN.get_measurement ["CH1"; "CH2"; "CH3"] ["V"; "A"] c1)
    as [[phase_data|e|] c2]; cbn [fst snd] in Hw2 |- *.
  - assert (Hsent : written c2
                    = (written c
                       ++ [(build_command [vpa] ["W"; "VA"; "VAR"; "PF"; "FREQ"]
                            ++ LF)%string;
                           (build_command ["CH1"; "CH2"; "CH3"] ["V"; "A"]
                            ++ LF)%string])%list).
    { rewrite Hw2, Hw1. rewrite <- app_assoc. reflexivity. }
    destruct vpa_data as [[|x a]|]; destruct phase_data as [[|y b]|];
      cbn [ret fst snd]; (split; [exact Hsent|]); intros d Hd;
      try discriminate Hd.
    assert (Hdict : d = inserts (y :: b) (x :: a)) by (now inversion Hd).
    exists (x :: a), (y :: b).
    split; [reflexivity|]. split; [discriminate|]. split; [discriminate|].
    split; [reflexivity|]. split; [exact Hdict|].
    intros k. rewrite Hdict. apply inserts_keys_in.
  - split.
    + rewrite Hw2, Hw1. rewrite <- app_assoc. reflexivity.
    + intros d Hd. discriminate Hd.
  - split.
    + rewrite Hw2, Hw1. rewrite <- app_assoc. reflexivity.
    + intros d Hd. discriminate Hd.
Qed.

Lemma three_phase_queries_witness :
  written (snd (LAN.get_3phase_power "VPA1"
                  (lan_ready ("1500.0,1600.0,200.0,0.94,50.0" ++ LF
                              ++ "230.1,1.1,230.2,1.2,230.3,1.3" ++ LF) [])))
  = (written (lan_ready ("1500.0,1600.0,200.0,0.94,50.0" ++ LF
                         ++ "230.1,1.1,230.2,1.2,230.3,1.3" ++ LF) [])
     ++ [(build_command ["VPA1"] ["W"; "VA"; "VAR"; "PF"; "FREQ"] ++ LF)%string;
         (build_command ["CH1"; "CH2"; "CH3"] ["V"; "A"] ++ LF)%string])%list
  /\ (forall d,
         fst (LAN.get_3phase_power "VPA1"
                (lan_ready ("1500.0,1600.0,200.0,0.94,50.0" ++ LF
                            ++ "230.1,1.1,230.2,1.2,230.3,1.3" ++ LF) []))
         = Return (Some d) ->
         exists a b,
           decode_response (Some "1500.0,1600.0,200.0,0.94,50.0") ["VPA1"]
                           ["W"; "VA"; "VAR"; "PF"; "FREQ"]
           = Some a
           /\ a <> [] /\ b <> []
           /\ fst (LAN.get_measurement ["CH1"; "CH2"; "CH3"] ["V"; "A"]
                     (snd (LAN.get_measurement ["VPA1"]
                             ["W"; "VA"; "VAR"; "PF"; "FREQ"]
                             (lan_ready ("1500.0,1600.0,200.0,0.94,50.0" ++ LF
                                         ++ "230.1,1.1,230.2,1.2,230.3,1.3" ++ LF)
                                        []))))
              = Return (Some b)
           /\ d = inserts b a
           /\ (forall k, In k (keys d) <-> In k (keys a) \/ In k (keys b))).
Proof.
  apply (three_phase_queries
           (lan_ready ("1500.0,1600.0,200.0,0.94,50.0" ++ LF
                       ++ "230.1,1.1,230.2,1.2,230.3,1.3" ++ LF) [])
           (snd (LAN.get_measurement ["VPA1"] ["W"; "VA"; "VAR"; "PF"; "FREQ"]
                   (lan_ready ("1500.0,1600.0,200.0,0.94,50.0" ++ LF
                               ++ "230.1,1.1,230.2,1.2,230.3,1.3" ++ LF) [])))
           "VPA1"
           (decode_response (Some "1500.0,1600.0,200.0,0.94,50.0") ["VPA1"]
                            ["W"; "VA"; "VAR"; "PF"; "FREQ"])).
  - repeat split; reflexivity.
  - vm_compute. reflexivity.
Defined.

End WholeRunClaims.

(* ================================================================== *)
(** * Further properties: the request text and the reply fields *)

Section SplitFacts.
Import PyStr.

Lemma split_not_nil (sep : ascii) (s : string) : split sep s <> [].
Proof.
  destruct s as [|c s]; simpl; [discriminate|].
  destruct (Ascii.eqb c sep); [discriminate|].
  destruct (split sep s); discriminate.
Qed.

(** A string without the separator is its own single field. *)
Lemma split_free (sep : ascii) (s : string) :
  has_char sep s = false -> split sep s = [s].
Proof.
  induction s as [|c s IH]; [reflexivity|].
  rewrite has_char_cons. intros H. apply orb_false_iff in H as [Hc Hs].
  simpl. rewrite Hc, (IH Hs). reflexivity.
Qed.

(** Splitting distributes over a separator. *)
Lemma split_app (sep : ascii) (a b : string) :
  split sep (a ++ String sep b) = (split sep a ++ split sep b)%list.
Proof.
  induction a as [|c a IH]; simpl.
  - now rewrite Ascii.eqb_refl.
  - destruct (Ascii.eqb c sep).
    + now rewrite IH.
    + rewrite IH. pose proof (split_not_nil sep a) as Hne.
      destruct (split sep a) as [|w ws]; [congruence | reflexivity].
Qed.

(** No field of a split holds the separator. *)
Lemma split_fields_free (sep : ascii) (s : string) :
  Forall (fun f => has_char sep f = false) (split sep s).
Proof.
  induction s as [|c s IH]; simpl.
  - constructor; [reflexivity | constructor].
  - destruct (Ascii.eqb c sep) eqn:Hc.
    + constructor; [reflexivity | exact IH].
    + pose proof (split_not_nil sep s) as Hne.
      destruct (split sep s) as [|w ws]; [congruence|].
      inversion IH as [|? ? Hw Hws]; subst.
      constructor; [|exact Hws].
      rewrite has_char_cons, Hc, Hw. reflexivity.
Qed.

(** Joining separator-free fields and splitting again gives them back. *)
Lemma split_join (sep : ascii) (fields : list string) :
  fields <> [] ->
  Forall (fun f => has_char sep f = false) fields ->
  split sep (join (String sep EmptyString) fields) = fields.
Proof.
  induction fields as [|f fs IH]; [congruence|].
  intros _ HF. apply Forall_cons_iff in HF as [Hf Hfs].
  destruct fs as [|g fs].
  - simpl. now apply split_free.
  - change (join (String sep EmptyString) (f :: g :: fs))
      with (f ++ String sep (join (String sep EmptyString) (g :: fs)))%string.
    rewrite split_app, (split_free sep f Hf), IH; [reflexivity | discriminate | exact Hfs].
Qed.

Lemma lower_char_semicolon (c : ascii) :
  Ascii.eqb (lower_char c) ";" = Ascii.eqb c ";".
Proof. destruct c as [[] [] [] [] [] [] [] []]; reflexivity. Qed.

Lemma has_semicolon_lower (s : string) :
  has_char ";" (lower s) = has_char ";" s.
Proof.
  induction s as [|c s IH]; [reflexivity|].
  change (lower (String c s)) with (String (lower_char c) (lower s)).
  rewrite !has_char_cons, lower_char_semicolon, IH. reflexivity.
Qed.

Lemma has_semicolon_m2000_param (param : string) :
  has_char ";" param = false -> has_char ";" (Codec.m2000_param param) = false.
Proof.
  intros H. unfold Codec.m2000_param.
  destruct (String.eqb param "V"); [reflexivity|].
  destruct (String.eqb param "A"); [reflexivity|].
  destruct (String.eqb param "W"); [reflexivity | exact H].
Qed.

Lemma has_semicolon_read_field (param channel : string) :
  has_char ";" param = false -> has_char ";" channel = false ->
  has_char ";" (Codec.read_field param channel) = false.
Proof.
  intros Hp Hc. unfold Codec.read_field.
  rewrite !has_char_app, has_semicolon_lower, Hc,
    (has_semicolon_m2000_param param Hp).
  reflexivity.
Qed.

Lemma pairs_in (parameters channels : list string) (pc : string * string) :
  In pc (Codec.pairs parameters channels)
  -> In (fst pc) parameters /\ In (snd pc) channels.
Proof.
  unfold Codec.pairs. rewrite in_flat_map. intros [p [Hp Hin]].
  apply in_map_iff in Hin as [c [<- Hc]]. now split.
Qed.

Lemma combine_surplus {A B : Type} (ks : list A) (vs extra : list B) :
  (List.length ks <= List.length vs)%nat ->
  combine ks (vs ++ extra) = combine ks vs.
Proof.
  revert vs; induction ks as [|k ks IH]; intros vs Hle; [reflexivity|].
  destruct vs as [|v vs]; simpl in Hle; [lia|].
  simpl. f_equal. apply IH. lia.
Qed.

End SplitFacts.

Section RequestClaims.
Import PyStr Codec.

(** X14.  The command [get_measurement] sends is empty when the request
    has no channel or no parameter.  Otherwise, for channel and parameter
    names without a semicolon, cutting the command at its semicolons
    gives back exactly one READ field per combination, parameter by
    parameter and channel by channel within a parameter, which is the
    order in which the values of the reply are given their keys. *)
Theorem command_fields_follow_request :
  forall channels parameters : list string,
    Forall (fun c => has_char ";" c = false) channels ->
    Forall (fun p => has_char ";" p = false) parameters ->
    (pairs parameters channels = [] -> build_command channels parameters = EmptyString)
    /\ (pairs parameters channels <> [] ->
        split ";" (build_command channels parameters)
        = map (fun pc => read_field (fst pc) (snd pc)) (pairs parameters channels)
        /\ List.length (split ";" (build_command channels parameters))
           = List.length (request_keys parameters channels)).
Proof.
  intros channels parameters Hc Hp. unfold build_command.
  rewrite read_fields_pairs. split.
  - intros ->. reflexivity.
  - intros Hne.
    assert (Hsplit :
              split ";" (join ";" (map (fun pc => read_field (fst pc) (snd pc))
                                       (pairs parameters channels)))
              = map (fun pc => read_field (fst pc) (snd pc))
                    (pairs parameters channels)).
    { apply (split_join ";").
      - destruct (pairs parameters channels); [congruence | discriminate].
      - apply Forall_forall. intros f Hf.
        apply in_map_iff in Hf as [pc [<- Hpc]].
        apply pairs_in in Hpc as [H1 H2].
        apply has_semicolon_read_field.
        + exact (proj1 (Forall_forall _ _) Hp _ H1).
        + exact (proj1 (Forall_forall _ _) Hc _ H2). }
    split; [exact Hsplit|].
    rewrite Hsplit. unfold request_keys. now rewrite !length_map.
Qed.

Lemma command_fields_follow_request_witness :
  (pairs ["V"; "PF"] ["CH1"; "CH2"] = []
   -> build_command ["CH1"; "CH2"] ["V"; "PF"] = EmptyString)
  /\ (pairs ["V"; "PF"] ["CH1"; "CH2"] <> [] ->
      split ";" (build_command ["CH1"; "CH2"] ["V"; "PF"])
      = map (fun pc => read_field (fst pc) (snd pc)) (pairs ["V"; "PF"] ["CH1"; "CH2"])
      /\ List.length (split ";" (build_command ["CH1"; "CH2"] ["V"; "PF"]))
         = List.length (request_keys ["V"; "PF"] ["CH1"; "CH2"])).
Proof.
  apply (command_fields_follow_request ["CH1"; "CH2"] ["V"; "PF"]).
  - repeat constructor.
  - repeat constructor.
Defined.

(** X15.  Fields of a reply beyond the |parameters| x |channels| the
    request asked for are ignored: a non-empty reply followed by a comma
    and anything else decodes to the same sample as the reply alone, once
    the reply has a field for every combination. *)
Theorem decode_ignores_surplus_fields :
  forall (channels parameters : list string) (r extra : string),
    r <> EmptyString ->
    (List.length parameters * List.length channels
     <= List.length (split "," r))%nat ->
    decode_response (Some (r ++ "," ++ extra)) channels parameters
    = decode_response (Some r) channels parameters.
Proof.
  intros channels parameters r extra Hr Hlen.
  assert (Hne : (r ++ "," ++ extra)%string <> EmptyString).
  { destruct r; [congruence | discriminate]. }
  rewrite (decode_response_text _ channels parameters Hne).
  rewrite (decode_response_text r channels parameters Hr).
  change (r ++ "," ++ extra)%string with (r ++ String "," extra)%string.
  rewrite split_app, map_app, combine_surplus; [reflexivity|].
  rewrite request_keys_length, length_map. exact Hlen.
Qed.

Lemma decode_ignores_surplus_fields_witness :
  decode_response (Some ("230.45,1.234" ++ "," ++ "OVER,7")) ["CH1"] ["V"; "A"]
  = decode_response (Some "230.45,1.234") ["CH1"] ["V"; "A"].
Proof.
  apply (decode_ignores_surplus_fields ["CH1"] ["V"; "A"] "230.45,1.234" "OVER,7").
  - discriminate.
  - simpl. lia.
Defined.

End RequestClaims.

(* ================================================================== *)
(** * Further properties: the CSV helpers and the unit suffix *)

Section CommaFacts.
Import PyStr PyNum Units Codec UnitsCsv.

Lemma has_char_list (ch : ascii) (s : string) :
  has_char ch s = true <-> In ch (list_ascii_of_string s).
Proof.
  induction s as [|c s IH]; simpl.
  - split; [discriminate | tauto].
  - rewrite orb_true_iff, IH. split.
    + intros [H|H]; [left; now apply Ascii.eqb_eq | now right].
    + intros [H|H]; [left; now apply Ascii.eqb_eq | now right].
Qed.

Lemma has_char_of_list (ch : ascii) (l : list ascii) :
  ~ In ch l -> has_char ch (string_of_list_ascii l) = false.
Proof.
  intros Hn. destruct (has_char ch (string_of_list_ascii l)) eqn:E; [|reflexivity].
  apply has_char_list in E. rewrite list_ascii_of_string_of_list_ascii in E.
  contradiction.
Qed.

Lemma has_char_substring (ch : ascii) (s : string) (n m : nat) :
  has_char ch s = false -> has_char ch (String.substring n m s) = false.
Proof.
  revert n m; induction s as [|c s IH]; intros n m H.
  - destruct n, m; reflexivity.
  - rewrite has_char_cons in H. apply orb_false_iff in H as [Hc Hs].
    destruct n as [|n]; [destruct m as [|m]|]; simpl.
    + reflexivity.
    + rewrite Hc. now apply IH.
    + now apply IH.
Qed.

Lemma no_comma_zeros (k : nat) : has_char "," (zeros k) = false.
Proof. induction k as [|k IH]; [reflexivity | exact IH]. Qed.

Lemma no_comma_uint (d : Decimal.uint) :
  has_char "," (NilEmpty.string_of_uint d) = false.
Proof. induction d; [reflexivity | exact IHd ..]. Qed.

Lemma no_comma_digits (n : Z) : has_char "," (digits_of n) = false.
Proof.
  unfold digits_of, NilZero.string_of_uint.
  destruct (N.to_uint (Z.to_N n)) eqn:E; [reflexivity | ..];
    rewrite <- E; apply no_comma_uint.
Qed.

Lemma no_comma_zero_pad (k : nat) (s : string) :
  has_char "," s = false -> has_char "," (zero_pad k s) = false.
Proof.
  intros H. unfold zero_pad. now rewrite has_char_app, no_comma_zeros, H.
Qed.

Lemma no_comma_with_sign (s : bool) (body : string) :
  has_char "," (with_sign s body) = has_char "," body.
Proof. destruct s; reflexivity. Qed.

Lemma no_comma_place_point (p : nat) (r : Z) :
  has_char "," (place_point p r) = false.
Proof.
  unfold place_point.
  assert (H : has_char "," (zero_pad (S p) (digits_of r)) = false)
    by apply no_comma_zero_pad, no_comma_digits.
  destruct p as [|p]; [exact H|].
  rewrite !has_char_app, !has_char_substring by exact H. reflexivity.
Qed.

(** [format(x, '.<p>f')] never prints a comma. *)
Lemma no_comma_format_f (p : nat) (x : float) :
  has_char "," (format_f p x) = false.
Proof.
  unfold format_f. destruct (Prim2SF x) as [s| s | | s m e].
  - rewrite no_comma_with_sign. apply no_comma_place_point.
  - rewrite no_comma_with_sign. reflexivity.
  - reflexivity.
  - destruct (fraction_of m e) as [num den].
    rewrite no_comma_with_sign. apply no_comma_place_point.
Qed.

Lemma rstrip_zeros_incl (c : ascii) (l : list ascii) :
  In c (rstrip_zeros_rev l) -> In c l.
Proof.
  induction l as [|x l IH]; simpl; [tauto|].
  destruct (Ascii.eqb x "0"); [intros H; right; now apply IH | tauto].
Qed.

Lemma no_comma_strip_fraction (int_part frac : string) :
  has_char "," int_part = false -> has_char "," frac = false ->
  has_char "," (strip_fraction int_part frac) = false.
Proof.
  intros Hi Hf. unfold strip_fraction.
  assert (Hl : ~ In ","%char
                 (rev (rstrip_zeros_rev (rev (list_ascii_of_string frac))))).
  { intros Hin. apply in_rev, rstrip_zeros_incl in Hin.
    apply in_rev in Hin. apply has_char_list in Hin. congruence. }
  destruct (rev (rstrip_zeros_rev (rev (list_ascii_of_string frac)))) as [|a l].
  - exact Hi.
  - rewrite !has_char_app, Hi, (has_char_of_list _ _ Hl). reflexivity.
Qed.

(** [format(x, '.6g')] never prints a comma. *)
Lemma no_comma_format_g6 (x : float) : has_char "," (format_g6 x) = false.
Proof.
  unfold format_g6. destruct (Prim2SF x) as [s| s | | s m e].
  - rewrite no_comma_with_sign. reflexivity.
  - rewrite no_comma_with_sign. reflexivity.
  - reflexivity.
  - destruct (fraction_of m e) as [num den].
    destruct (scale10 num den (5 - floor_log10 num den)) as [n0 d0].
    destruct (1000000 <=? round_half_even n0 d0);
      rewrite no_comma_with_sign;
      repeat match goal with
             | |- context [if ?b then _ else _] => destruct b
             end;
      repeat first
             [ reflexivity
             | apply no_comma_digits
             | apply no_comma_zeros
             | apply no_comma_zero_pad
             | apply has_char_substring
             | apply no_comma_strip_fraction
             | rewrite has_char_app; apply orb_false_iff; split ].
Qed.

Lemma no_comma_base_unit (param : string) :
  has_char "," (get_base_unit param) = false.
Proof.
  unfold get_base_unit.
  repeat match goal with
         | |- context [if ?b then _ else _] => destruct b
         end; reflexivity.
Qed.

Lemma no_comma_csv_column (param channel : string) :
  has_char "," param = false -> has_char "," channel = false ->
  has_char "," (csv_column param channel) = false.
Proof.
  intros Hp Hc. unfold csv_column.
  rewrite !has_char_app, Hp, Hc.
  destruct (truthy (get_base_unit param)); [|reflexivity].
  rewrite !has_char_app, no_comma_base_unit. reflexivity.
Qed.

Lemma no_comma_csv_cell (value : pyval) :
  (forall s, value = PStr s -> has_char "," s = false) ->
  has_char "," (csv_cell value) = false.
Proof.
  intros H. destruct value as [|x|s]; simpl.
  - reflexivity.
  - apply no_comma_format_g6.
  - destruct s as [|c s]; [reflexivity|].
    destruct (py_float (String c s)); [apply no_comma_format_g6 | now apply H].
Qed.

(** Appending [",<cell>"] for each element of a list adds one field per
    element when the cells hold no comma. *)
Lemma split_appended_cells {A : Type} (cell : A -> string) (l : list A)
      (start : string) :
  Forall (fun x => has_char "," (cell x) = false) l ->
  split "," (fold_left (fun row x => row ++ "," ++ cell x) l start)
  = (split "," start ++ map cell l)%list.
Proof.
  revert start; induction l as [|x l IH]; intros start HF; simpl.
  - now rewrite app_nil_r.
  - apply Forall_cons_iff in HF as [Hx Hl].
    rewrite (IH _ Hl).
    change (start ++ "," ++ cell x)%string with (start ++ String "," (cell x))%string.
    rewrite split_app, (split_free _ _ Hx), <- app_assoc. reflexivity.
Qed.

Lemma fold_left_same {A B : Type} (f g : A -> B -> A) (l : list B) (a : A) :
  (forall acc x, f acc x = g acc x) -> fold_left f l a = fold_left g l a.
Proof.
  intros H. revert a; induction l as [|x l IH]; intros a; simpl;
    [reflexivity | now rewrite H, IH].
Qed.

Lemma create_csv_header_columns (channels parameters : list string) :
  create_csv_header channels parameters
  = fold_left (fun row pc => row ++ "," ++ csv_column (fst pc) (snd pc))
              (pairs parameters channels) "Timestamp".
Proof.
  unfold create_csv_header. rewrite for_params_channels_pairs.
  apply fold_left_same. intros acc [p c]. unfold csv_column. cbn [fst snd].
  destruct (truthy (get_base_unit p)); [reflexivity|].
  now rewrite append_empty_r.
Qed.

(** The values a run of assignments leaves in a dictionary were either
    there before or are among the assigned ones. *)
Lemma inserts_get_source (k : string) (v : pyval) (l : list (string * pyval))
      (d : dict) :
  dict_get k (inserts l d) = Some v ->
  dict_get k d = Some v \/ In v (map snd l).
Proof.
  revert d; induction l as [|[k0 v0] l IH]; intros d H; [now left|].
  change (inserts ((k0, v0) :: l) d) with (inserts l (dict_set k0 v0 d)) in H.
  apply IH in H as [H|H]; [|right; now right].
  destruct (String.eqb_spec k0 k) as [->|Hne].
  - rewrite dict_get_set_same in H. right. left. simpl. congruence.
  - rewrite dict_get_set_other in H by congruence. now left.
Qed.

Lemma in_combine_snd {A B : Type} (b : B) (ks : list A) (vs : list B) :
  In b (map snd (combine ks vs)) -> In b vs.
Proof.
  intros H. apply in_map_iff in H as [[a b'] [<- Hin]].
  now apply in_combine_r in Hin.
Qed.

(** The raw strings a decoded sample holds contain no comma. *)
Lemma decode_fields_clean (r : string) (channels parameters : list string)
      (k s : string) :
  dict_get k (decode_fields (split "," r) channels parameters) = Some (PStr s) ->
  has_char "," s = false.
Proof.
  rewrite decode_fields_inserts. intros H.
  apply inserts_get_source in H as [H|H]; [discriminate|].
  apply in_combine_snd, in_map_iff in H as [f [Hf Hin]].
  unfold coerce in Hf. destruct (py_float f); [discriminate|].
  injection Hf as <-.
  exact (proj1 (Forall_forall _ _) (split_fields_free "," r) _ Hin).
Qed.

End CommaFacts.

Section CsvFacts.
Import PyStr PyNum Units Codec UnitsCsv.

Lemma csv_header_split (channels parameters : list string) :
  Forall (fun c => has_char "," c = false) channels ->
  Forall (fun p => has_char "," p = false) parameters ->
  split "," (create_csv_header channels parameters)
  = "Timestamp" :: map (fun pc => csv_column (fst pc) (snd pc))
                       (pairs parameters channels).
Proof.
  intros Hc Hp. rewrite create_csv_header_columns.
  rewrite (split_appended_cells (fun pc => csv_column (fst pc) (snd pc))).
  - reflexivity.
  - apply Forall_forall. intros pc Hpc. apply pairs_in in Hpc as [H1 H2].
    apply no_comma_csv_column.
    + exact (proj1 (Forall_forall _ _) Hp _ H1).
    + exact (proj1 (Forall_forall _ _) Hc _ H2).
Qed.

Lemma csv_row_split (timestamp : float) (data : dict)
      (channels parameters : list string) :
  (forall k s, dict_get k data = Some (PStr s) -> has_char "," s = false) ->
  split "," (format_csv_row timestamp data channels parameters)
  = format_f 3 timestamp
    :: map (fun pc => csv_cell match dict_get (key (snd pc) (fst pc)) data with
                               | Some v => v
                               | None => PStr EmptyString
                               end)
           (pairs parameters channels).
Proof.
  intros Hclean. unfold format_csv_row. rewrite for_params_channels_pairs.
  rewrite (split_appended_cells
             (fun pc => csv_cell match dict_get (key (snd pc) (fst pc)) data with
                                 | Some v => v
                                 | None => PStr EmptyString
                                 end)).
  - rewrite (split_free "," _ (no_comma_format_f 3 timestamp)). reflexivity.
  - apply Forall_forall. intros pc _. apply no_comma_csv_cell.
    intros s Hs.
    destruct (dict_get (key (snd pc) (fst pc)) data) as [v|] eqn:Hget.
    + subst v. exact (Hclean _ _ Hget).
    + injection Hs as <-. reflexivity.
Qed.

Lemma shown_suffix (p : nat) (x : float) (unit : string) :
  exists suffix, shown true p x unit = (shown false p x unit ++ suffix)%string.
Proof. exists (" " ++ unit)%string. reflexivity. Qed.

Lemma scale_kilo_suffix (val : float) (base : string) :
  exists suffix,
    scale_kilo_to_nano true val base
    = (scale_kilo_to_nano false val base ++ suffix)%string.
Proof.
  unfold scale_kilo_to_nano.
  repeat match goal with
         | |- context [if ?b then _ else _] => destruct b
         end; apply shown_suffix.
Qed.

Lemma scale_mega_suffix (val : float) (base : string) :
  exists suffix,
    scale_mega_to_nano true val base
    = (scale_mega_to_nano false val base ++ suffix)%string.
Proof.
  unfold scale_mega_to_nano.
  destruct (1000000 <=? PrimFloat.abs val)%float;
    [apply shown_suffix | apply scale_kilo_suffix].
Qed.

End CsvFacts.

Section CsvClaims.
Import PyStr PyNum Units Codec UnitsCsv.

(** X16.  For channel and parameter names without a comma, the header
    [create_csv_header] builds has ["Timestamp"] as its first column and
    then one column per combination, parameter by parameter and channel
    by channel within a parameter: 1 + |parameters| x |channels| columns.
    The title of a column is the sample key [{channel}_{parameter}],
    followed by the base unit in parentheses when the parameter has
    one. *)
Theorem csv_header_columns :
  forall channels parameters : list string,
    Forall (fun c => has_char "," c = false) channels ->
    Forall (fun p => has_char "," p = false) parameters ->
    split "," (create_csv_header channels parameters)
    = "Timestamp" :: map (fun pc => csv_column (fst pc) (snd pc))
                         (pairs parameters channels)
    /\ List.length (split "," (create_csv_header channels parameters))
       = S (List.length parameters * List.length channels)
    /\ (forall param channel,
           csv_column param channel
           = (key channel param
              ++ (if truthy (get_base_unit param)
                  then "(" ++ get_base_unit param ++ ")"
                  else EmptyString))%string).
Proof.
  intros channels parameters Hc Hp.
  rewrite (csv_header_split channels parameters Hc Hp).
  split; [reflexivity|]. split.
  - simpl. now rewrite length_map, pairs_length.
  - intros param channel. unfold csv_column, key.
    now rewrite !str_app_assoc.
Qed.

Lemma csv_header_columns_witness :
  split "," (create_csv_header ["CH1"; "CH2"] ["V"; "PF"])
  = "Timestamp" :: map (fun pc => csv_column (fst pc) (snd pc))
                       (pairs ["V"; "PF"] ["CH1"; "CH2"])
  /\ List.length (split "," (create_csv_header ["CH1"; "CH2"] ["V"; "PF"]))
     = S (List.length ["V"; "PF"] * List.length ["CH1"; "CH2"])
  /\ (forall param channel,
         csv_column param channel
         = (key channel param
            ++ (if truthy (get_base_unit param)
                then "(" ++ get_base_unit param ++ ")"
                else EmptyString))%string).
Proof.
  apply (csv_header_columns ["CH1"; "CH2"] ["V"; "PF"]).
  - repeat constructor.
  - repeat constructor.
Defined.

(** X17.  When no raw string stored in the data holds a comma, the row
    [format_csv_row] builds has the time stamp with three decimals as its
    first field and then one field per combination, in the order of the
    header: 1 + |parameters| x |channels| fields, whatever the channel and
    parameter names are.  A combination whose key is missing from the
    data, or stored as the empty string, gives an empty field, and a
    number is written with six significant digits. *)
Theorem csv_row_fields :
  forall (timestamp : float) (data : dict) (channels parameters : list string),
    (forall k s, dict_get k data = Some (PStr s) -> has_char "," s = false) ->
    split "," (format_csv_row timestamp data channels parameters)
    = format_f 3 timestamp
      :: map (fun pc => csv_cell match dict_get (key (snd pc) (fst pc)) data with
                                 | Some v => v
                                 | None => PStr EmptyString
                                 end)
             (pairs parameters channels)
    /\ List.length (split "," (format_csv_row timestamp data channels parameters))
       = S (List.length parameters * List.length channels)
    /\ csv_cell (PStr EmptyString) = EmptyString
    /\ (forall x, csv_cell (PFloat x) = format_g6 x).
Proof.
  intros timestamp data channels parameters Hclean.
  rewrite (csv_row_split timestamp data channels parameters Hclean).
  split; [reflexivity|]. split; [|split; [reflexivity | reflexivity]].
  simpl. now rewrite length_map, pairs_length.
Qed.

Lemma csv_row_fields_witness :
  split "," (format_csv_row 1.234 [("CH1_V", PFloat 230.45); ("CH2_V", PStr "OVER")]
                            ["CH1"; "CH2"] ["V"; "A"])
  = format_f 3 1.234
    :: map (fun pc =>
              csv_cell
                match dict_get (key (snd pc) (fst pc))
                               [("CH1_V", PFloat 230.45); ("CH2_V", PStr "OVER")] with
                | Some v => v
                | None => PStr EmptyString
                end)
           (pairs ["V"; "A"] ["CH1"; "CH2"])
  /\ List.length
       (split "," (format_csv_row 1.234
                                  [("CH1_V", PFloat 230.45); ("CH2_V", PStr "OVER")]
                                  ["CH1"; "CH2"] ["V"; "A"]))
     = S (List.length ["V"; "A"] * List.length ["CH1"; "CH2"])
  /\ csv_cell (PStr EmptyString) = EmptyString
  /\ (forall x, csv_cell (PFloat x) = format_g6 x).
Proof.
  apply (csv_row_fields 1.234%float
           [("CH1_V", PFloat 230.45); ("CH2_V", PStr "OVER")]
           ["CH1"; "CH2"] ["V"; "A"]).
  intros k s H. cbn [dict_get] in H.
  destruct (String.eqb "CH1_V" k); [discriminate|].
  destruct (String.eqb "CH2_V" k); [|discriminate].
  injection H as <-. reflexivity.
Defined.

(** X18.  A row written from a decoded sample lines up with the header:
    whenever [get_measurement]'s decoding of a reply gives a sample (the
    reply is neither [None] nor empty), and the channel and parameter
    names hold no comma, the row [format_csv_row] builds from that sample
    has exactly as many comma-separated fields as the header
    [create_csv_header] builds for the same request, also when the reply
    is short or carries text that is not a number. *)
Theorem csv_row_lines_up_with_header :
  forall (timestamp : float) (response : option string)
         (channels parameters : list string) (d : dict),
    Forall (fun c => has_char "," c = false) channels ->
    Forall (fun p => has_char "," p = false) parameters ->
    decode_response response channels parameters = Some d ->
    List.length (split "," (format_csv_row timestamp d channels parameters))
    = List.length (split "," (create_csv_header channels parameters)).
Proof.
  intros timestamp response channels parameters d Hc Hp Hd.
  unfold decode_response in Hd.
  destruct response as [r|]; [|discriminate Hd].
  destruct (truthy r); [|discriminate Hd].
  injection Hd as <-.
  rewrite (csv_header_split channels parameters Hc Hp).
  rewrite csv_row_split.
  - simpl. now rewrite !length_map.
  - intros k s H. exact (decode_fields_clean r channels parameters k s H).
Qed.

Lemma csv_row_lines_up_with_header_witness :
  List.length
    (split "," (format_csv_row 0.5
                               (decode_fields (split "," "230.45,OVER")
                                              ["CH1"; "CH2"] ["V"; "A"])
                               ["CH1"; "CH2"] ["V"; "A"]))
  = List.length (split "," (create_csv_header ["CH1"; "CH2"] ["V"; "A"])).
Proof.
  apply (csv_row_lines_up_with_header 0.5%float (Some "230.45,OVER")
           ["CH1"; "CH2"] ["V"; "A"]
           (decode_fields (split "," "230.45,OVER") ["CH1"; "CH2"] ["V"; "A"])).
  - repeat constructor.
  - repeat constructor.
  - reflexivity.
Defined.

(** X19.  Asking [format_measurement] for units only ever appends to the
    text: for every value and parameter, the result with
    [include_units=True] is the result with [include_units=False]
    followed by a suffix, so the number shown and its scaling are the
    same in both. *)
Theorem units_only_append :
  forall (value : pyval) (parameter : string),
  exists suffix,
    format_measurement value parameter true
    = (format_measurement value parameter false ++ suffix)%string.
Proof.
  intros value parameter. unfold format_measurement.
  destruct (match value with
            | PNone => true
            | PFloat x => (x =? 0)%float
            | PStr _ => false
            end).
  - exists (" " ++ get_base_unit parameter)%string. reflexivity.
  - destruct (match value with
              | PFloat x => Some x
              | PStr s => py_float s
              | PNone => None
              end) as [val|].
    + destruct (String.eqb parameter "PF").
      { exists EmptyString. now rewrite append_empty_r. }
      destruct (String.eqb parameter "PHASE").
      { exists "°". reflexivity. }
      destruct (String.eqb parameter "V"); [apply scale_kilo_suffix|].
      destruct (String.eqb parameter "A"); [apply scale_kilo_suffix|].
      destruct (String.eqb parameter "W"); [apply scale_mega_suffix|].
      destruct (String.eqb parameter "VA" || String.eqb parameter "VAR");
        [apply scale_mega_suffix|].
      destruct (String.eqb parameter "FREQ").
      { repeat match goal with
               | |- context [if ?b then _ else _] => destruct b
               end; apply shown_suffix. }
      cbv beta iota zeta. cbn [andb].
      destruct (truthy (get_base_unit parameter)).
      * exists (" " ++ get_base_unit parameter)%string. reflexivity.
      * exists EmptyString. now rewrite append_empty_r.
    + exists EmptyString. now rewrite append_empty_r.
Qed.

End CsvClaims.
